(** * Image-Privacy-Tools: batch HEIC/HEIF scripts, embedded and verified

    The repository holds four command-line scripts
      - [heic_to_jpg.py]                  (convert, keep capture dates)
      - [sanitize_heic_to_jpg.py]         (convert, drop all metadata)
      - [heic_strip_and_convert_to_jpg.py] (ExifTool wipe, then convert)
      - [strip_heic_metadata.py]          (ExifTool wipe only)
    Each one validates its arguments, walks a directory, transforms every
    matching file inside a [try]/[except], and prints a summary.

    The embedding is shallow.  The file system is a finite map from paths to
    nodes; every function of the scripts is a state-passing function on that
    map which also returns the list of observable events it produced (lines
    printed, files opened, written or unlinked, processes run) and either a
    value or the Python exception it raised.  Pillow, pillow-heif, ExifTool and
    the directory iterators of [pathlib] are outside the repository: they are
    the fields of the class [Externals], and every theorem holds for all of
    their possible behaviours.

    Conventions of the model:
      - a Python [str] is a [string]; characters above 127 are inert for
        [lower] and are not white space;
      - [pathlib] is the one of Python 3.8 to 3.12 ([suffix] of ["a."] and of
        [".heic"] is empty);
      - [exn] stands for the subclasses of [Exception]; an exception is kept
        as its class ([CalledProcessError] or any other) and its [str()];
      - the disk holds no permissions: what the system refuses is decided by
        the collaborators, which tell when [p.is_file()] re-raises the error
        of [os.stat] and when [p.unlink()] is refused on an existing file;
        [dst.exists()] is asked in the directory of a source on which
        [is_file()] has just answered, and answers too;
      - a write fails only when the encoder raises. *)

From Stdlib Require Import ZArith Lia String Ascii List.
From Stdlib.Strings Require Import Byte.
From stdpp Require Import base tactics option list strings gmap sets pretty.

Open Scope string_scope.
Open Scope Z_scope.

(** ** Python strings *)

Module Py.

(** [str.isspace] on the ASCII range: TAB..CR, FS..US and SPACE. *)
Definition isspace (c : ascii) : bool :=
  let n := nat_of_ascii c in
  ((9 <=? n)%nat && (n <=? 13)%nat) || ((28 <=? n)%nat && (n <=? 32)%nat).

Fixpoint lstrip (s : string) : string :=
  match s with
  | String c r => if isspace c then lstrip r else s
  | EmptyString => EmptyString
  end.

Definition rstrip (s : string) : string := String.rev (lstrip (String.rev s)).

(** [s.strip()] *)
Definition strip (s : string) : string := rstrip (lstrip s).

Definition lower_char (c : ascii) : ascii :=
  let n := nat_of_ascii c in
  if ((65 <=? n)%nat && (n <=? 90)%nat) then ascii_of_nat (n + 32) else c.

(** [s.lower()] *)
Fixpoint lower (s : string) : string :=
  match s with
  | String c r => String (lower_char c) (lower r)
  | EmptyString => EmptyString
  end.

(** [s.lstrip(".")] *)
Fixpoint lstrip_dots (s : string) : string :=
  match s with
  | String c r => if Ascii.eqb c "." then lstrip_dots r else s
  | EmptyString => EmptyString
  end.

(** [s.split(",")]: never empty, [''.split(",") == ['']]. *)
Fixpoint split_commas (s : string) : list string :=
  match s with
  | EmptyString => [EmptyString]
  | String c r =>
      if Ascii.eqb c "," then EmptyString :: split_commas r
      else match split_commas r with
           | h :: t => String c h :: t
           | [] => [String c EmptyString]
           end
  end.

(** [s.rpartition(".")] when a dot occurs: the text before the last dot and
    the text after it. *)
Fixpoint rpartition_dot (s : string) : option (string * string) :=
  match s with
  | EmptyString => None
  | String c r =>
      match rpartition_dot r with
      | Some (a, b) => Some (String c a, b)
      | None => if Ascii.eqb c "." then Some (EmptyString, r) else None
      end
  end.

(** [sep.join(l)] *)
Definition join (sep : string) (l : list string) : string := String.concat sep l.

(** [sorted(l)] on strings. *)
Fixpoint insort (x : string) (l : list string) : list string :=
  match l with
  | [] => [x]
  | y :: r => if String.leb x y then x :: l else y :: insort x r
  end.

Definition sorted (l : list string) : list string := foldr insort [] l.

(** [str(b)] for a [bool]. *)
Definition str_bool (b : bool) : string := if b then "True" else "False".

(** Strict UTF-8: the well-formed byte sequences of the Unicode standard
    (no overlong form, no surrogate, nothing above U+10FFFF). *)
Definition between (lo hi : N) (b : byte) : bool :=
  ((lo <=? Byte.to_N b)%N && (Byte.to_N b <=? hi)%N).

Definition cont (b : byte) : bool := between 128 191 b.

Fixpoint utf8_valid (bs : list byte) : bool :=
  match bs with
  | [] => true
  | b0 :: r =>
      if between 0 127 b0 then utf8_valid r
      else match r with
      | [] => false
      | b1 :: r1 =>
          if between 194 223 b0 then cont b1 && utf8_valid r1
          else match r1 with
          | [] => false
          | b2 :: r2 =>
              if between 224 239 b0 then
                (if between 224 224 b0 then between 160 191 b1
                 else if between 237 237 b0 then between 128 159 b1
                 else cont b1) && cont b2 && utf8_valid r2
              else match r2 with
              | [] => false
              | b3 :: r3 =>
                  if between 240 244 b0 then
                    (if between 240 240 b0 then between 144 191 b1
                     else if between 244 244 b0 then between 128 143 b1
                     else cont b1) && cont b2 && cont b3 && utf8_valid r3
                  else false
              end
          end
      end
  end.

(** One well-formed sequence at the head of [bs], if there is one. *)
Definition utf8_head (bs : list byte) : option (list byte * list byte) :=
  match bs with
  | b0 :: r =>
      if utf8_valid [b0] then Some ([b0], r)
      else match r with
      | b1 :: r1 =>
          if utf8_valid [b0; b1] then Some ([b0; b1], r1)
          else match r1 with
          | b2 :: r2 =>
              if utf8_valid [b0; b1; b2] then Some ([b0; b1; b2], r2)
              else match r2 with
              | b3 :: r3 =>
                  if utf8_valid [b0; b1; b2; b3] then Some ([b0; b1; b2; b3], r3)
                  else None
              | [] => None
              end
          | [] => None
          end
      | [] => None
      end
  | [] => None
  end.

(** [b.decode()]: [None] stands for [UnicodeDecodeError]. *)
Definition decode (bs : list byte) : option string :=
  if utf8_valid bs then Some (string_of_list_byte bs) else None.

(** [b.decode(errors='ignore')]: the bytes that belong to no well-formed
    sequence are dropped. *)
Fixpoint decode_ignore_fuel (n : nat) (bs : list byte) : list byte :=
  match n with
  | O => []
  | S n' =>
      match bs with
      | [] => []
      | b0 :: r =>
          match utf8_head bs with
          | Some (sq, rest) => sq ++ decode_ignore_fuel n' rest
          | None => decode_ignore_fuel n' r
          end
      end
  end.

Definition decode_ignore (bs : list byte) : string :=
  string_of_list_byte (decode_ignore_fuel (length bs) bs).

End Py.

(** ** Exceptions and results *)

(** A raised [Exception]: its class, as far as the handlers of the scripts
    tell classes apart, and its [str()].  [subprocess.CalledProcessError]
    also carries the bytes the child wrote to its standard error. *)
Inductive exn :=
| CalledProcessError (msg : string) (stderr : list byte)
| Exception (msg : string).

Definition exn_str (e : exn) : string :=
  match e with
  | CalledProcessError m _ => m
  | Exception m => m
  end.

Inductive result (A : Type) :=
| Ok (a : A)
| Raise (e : exn).
Arguments Ok {A} a.
Arguments Raise {A} e.

(** ** Paths ([pathlib.Path]) *)

Abbreviation path := (list string).

Module Path.

(** [p.name] *)
Definition name (p : path) : string := default EmptyString (last p).

(** The name cut at its suffix: [(name[:-len(suffix)], suffix)].  The suffix
    starts at the last dot when that dot is neither the first nor the last
    character of the name. *)
Definition splitext (n : string) : string * string :=
  match Py.rpartition_dot n with
  | Some (a, b) =>
      if bool_decide (a = EmptyString) || bool_decide (b = EmptyString)
      then (n, EmptyString) else (a, String "." b)
  | None => (n, EmptyString)
  end.

(** [p.suffix] *)
Definition suffix (p : path) : string := snd (splitext (name p)).

(** [str(p)] *)
Definition str (p : path) : string :=
  match p with
  | [] => "."
  | _ => Py.join "/" p
  end.

(** [p.with_suffix(sfx)] for a well-formed [sfx] (the scripts pass the
    literal [".jpg"] only); [ValueError] on an empty name. *)
Definition with_suffix (p : path) (sfx : string) : result path :=
  if bool_decide (name p = EmptyString)
  then Raise (Exception ("PosixPath('" ++ str p ++ "') has an empty name"))
  else Ok (removelast p ++ [fst (splitext (name p)) +:+ sfx])%list.

(** [p.relative_to(other)]; [None] stands for its [ValueError]. *)
Fixpoint relative_to (p other : path) : option path :=
  match other with
  | [] => Some p
  | o :: os =>
      match p with
      | c :: cs => if bool_decide (o = c) then relative_to cs os else None
      | [] => None
      end
  end.

End Path.

(** ** The world outside the scripts *)

(** What a run can be observed to do, in order. *)
Inductive stream := stdout | stderr.

Inductive event :=
| Print (s : stream) (line : string)   (* print(line, file=s) *)
| Scan (root : path) (recursive : bool) (* root.rglob("*") / root.iterdir() *)
| Yield (p : path)                     (* discover() yields p *)
| Open (p : path)                      (* Image.open(p) is called *)
| Save (p : path)                      (* Image.save(p, "JPEG", ...) is called *)
| Write (p : path)                     (* the file p has been created *)
| SubprocessRun (argv : list string)   (* subprocess.run(argv, check=True, ...) *)
| Unlink (p : path).                   (* the file p has been removed *)

Inductive node (content : Type) :=
| File (c : content)
| Dir.
Arguments File {content} c.
Arguments Dir {content}.

(** The collaborators that are not code of this repository. *)
Class Externals := {
  (** bytes of a regular file, and Pillow's decoded image *)
  content : Type;
  image : Type;
  exif_value : Type;
  (** [Image.open] on the bytes of an existing file (pillow-heif decodes) *)
  Image_open : content → result image;
  (** [ImageOps.exif_transpose] *)
  ImageOps_exif_transpose : image → result image;
  (** [im.getexif()], a mapping from tag ids to values *)
  Image_getexif : image → gmap Z exif_value;
  (** [Exif.tobytes] *)
  Exif_tobytes : gmap Z exif_value → list byte;
  (** [im.convert("RGB")] *)
  Image_convert_RGB : image → result image;
  (** [im.save(dst, "JPEG", quality=q[, exif=b])]: the bytes written *)
  Image_save_JPEG : image → Z → option (list byte) → result content;
  (** [ExifTags.TAGS.items()]: tag id, tag name *)
  ExifTags_TAGS : list (Z * string);
  (** [subprocess.run([...], check=True)] on an existing file: the bytes
      the tool leaves in the file, and the exception raised, if any *)
  exiftool : list string → content → content * option exn;
  (** the same when the target is not a regular file *)
  exiftool_nofile : list string → exn;
  (** [shutil.which(cmd) is not None] *)
  shutil_which : string → bool;
  (** [root.iterdir()] and [root.rglob("*")] on the current disk, as the
      lists they enumerate once the loop starts to draw from them *)
  Path_iterdir : gmap path (node content) → path → result (list path);
  Path_rglob : gmap path (node content) → path → result (list path);
  (** [p.is_file()]: the [OSError] of [os.stat] that pathlib re-raises (a
      [PermissionError], say; it swallows a missing path), if there is one *)
  Path_is_file_error : gmap path (node content) → path → option exn;
  (** [p.unlink()] on an existing regular file: the [OSError] with which the
      system refuses to remove it (a [PermissionError], say), if it does *)
  Path_unlink_error : gmap path (node content) → path → option exn;
}.

Section Model.
Context `{E : Externals}.

Abbreviation disk := (gmap path (node content)).

(** A computation reads and updates the disk, emits events, and returns
    a value or raises. *)
Definition M (A : Type) : Type := disk → disk * list event * result A.

Definition ret {A} (a : A) : M A := λ d, (d, [], Ok a).

Definition raise {A} (e : exn) : M A := λ d, (d, [], Raise e).

Definition bind {A B} (m : M A) (k : A → M B) : M B :=
  λ d, match m d with
       | (d1, t1, Ok a) =>
           match k a d1 with
           | (d2, t2, r) => (d2, (t1 ++ t2)%list, r)
           end
       | (d1, t1, Raise e) => (d1, t1, Raise e)
       end.

Definition emit (e : event) : M unit := λ d, (d, [e], Ok tt).

Definition lift {A} (r : result A) : M A := λ d, (d, [], r).

End Model.

Notation "x <- m ;; k" := (bind m (λ x, k))
  (at level 100, m at next level, right associativity).
Notation "m ;;; k" := (bind m (λ _, k))
  (at level 100, right associativity).


(** ** Primitives of the scripts: files, images, processes *)

Section Primitives.
Context `{E : Externals}.

Abbreviation disk := (gmap path (node content)).

(** [p.is_file()] and [p.exists()] *)
Definition is_file (d : disk) (p : path) : bool :=
  match d !! p with
  | Some (File _) => true
  | _ => false
  end.

Definition path_exists (d : disk) (p : path) : bool :=
  match d !! p with
  | Some _ => true
  | None => false
  end.

Definition exists_ (p : path) : M bool := λ d, (d, [], Ok (path_exists d p)).

Definition print (s : stream) (line : string) : M unit := emit (Print s line).

Definition errno2 (p : path) : exn :=
  Exception ("[Errno 2] No such file or directory: '" +:+ Path.str p +:+ "'").

Definition errno21 (p : path) : exn :=
  Exception ("[Errno 21] Is a directory: '" +:+ Path.str p +:+ "'").

Definition errno13 (p : path) : exn :=
  Exception ("[Errno 13] Permission denied: '" +:+ Path.str p +:+ "'").

(** [Image.open(src)] *)
Definition Image_open_path (src : path) : M image := λ d,
  match d !! src with
  | Some (File c) => (d, [Open src], Image_open c)
  | Some Dir => (d, [Open src], Raise (errno21 src))
  | None => (d, [Open src], Raise (errno2 src))
  end.

(** [im.convert("RGB").save(dst, "JPEG", quality=..., [exif=...])]: nothing
    is left at [dst] when the encoder raises. *)
Definition save_JPEG (im : image) (dst : path) (quality : Z)
    (exif : option (list byte)) : M unit :=
  rgb <- lift (Image_convert_RGB im) ;;
  (λ d, match Image_save_JPEG rgb quality exif with
        | Ok c => (<[dst := File c]> d, [Save dst; Write dst], Ok tt)
        | Raise e => (d, [Save dst], Raise e)
        end).

(** [p.unlink(missing_ok=...)] *)
Definition unlink (p : path) (missing_ok : bool) : M unit := λ d,
  match d !! p with
  | Some (File _) =>
      match Path_unlink_error d p with
      | Some e => (d, [], Raise e)
      | None => (delete p d, [Unlink p], Ok tt)
      end
  | Some Dir => (d, [], Raise (errno21 p))
  | None => if missing_ok then (d, [], Ok tt) else (d, [], Raise (errno2 p))
  end.

(** [subprocess.run(argv, check=True, stdout=PIPE, stderr=PIPE)] where
    [argv] is an ExifTool command line that rewrites [target] in place. *)
Definition subprocess_run (argv : list string) (target : path) : M unit := λ d,
  match d !! target with
  | Some (File c) =>
      (<[target := File (fst (exiftool argv c))]> d, [SubprocessRun argv],
       match snd (exiftool argv c) with
       | Some e => Raise e
       | None => Ok tt
       end)
  | _ => (d, [SubprocessRun argv], Raise (exiftool_nofile argv))
  end.

(** [try: body  except Exception as exc: handler(exc)].  An exception raised
    by the handler itself propagates. *)
Definition try_except {A} (body : M A) (handler : exn → M A) : M A := λ d,
  match body d with
  | (d1, t1, Raise e) =>
      match handler e d1 with
      | (d2, t2, r) => (d2, (t1 ++ t2)%list, r)
      end
  | r => r
  end.

(** [for x in l: acc = body(x, acc)] *)
Fixpoint for_each {A S} (l : list A) (body : A → S → M S) (acc : S) : M S :=
  match l with
  | [] => ret acc
  | x :: rest => acc' <- body x acc ;; for_each rest body acc'
  end.

(** *** Argument handling shared by the four scripts *)

(** [{e.strip().lower().lstrip(".") for e in ext.split(",") if e.strip()}] *)
Definition parse_exts (ext : string) : gset string :=
  list_to_set
    ((λ e, Py.lstrip_dots (Py.lower (Py.strip e))) <$>
     filter (λ e, Py.strip e ≠ EmptyString) (Py.split_commas ext)).

(** The same set as the specification words it: every token is trimmed,
    lower-cased and stripped of its leading dots, and a token of which nothing
    is left names no extension. *)
Definition stated_exts (ext : string) : gset string :=
  list_to_set
    (filter (λ x, x ≠ EmptyString)
       ((λ e, Py.lstrip_dots (Py.lower (Py.strip e))) <$> Py.split_commas ext)).

(** How a run of [main] ends. *)
Inductive outcome :=
| Finished                    (* main returned *)
| UsageError (msg : string)   (* parser.error(msg): exit status 2 *)
| SysExit (msg : string)      (* sys.exit(msg): exit status 1 *)
| Uncaught (e : exn).         (* an exception left main *)

Definition finish (m : M unit) : disk → disk * list event * outcome := λ d,
  match m d with
  | (d1, t1, Ok _) => (d1, t1, Finished)
  | (d1, t1, Raise e) => (d1, t1, Uncaught e)
  end.

(** *** [discover] (the same generator in the four scripts)

    [iterator = root.rglob("*") if recursive else root.iterdir()] is
    evaluated when the consumer first draws from the generator; the test
    [p.is_file() and p.suffix.lower().lstrip(".") in exts] is made on the
    disk as it is when [p] comes up, that is after the loop body has run
    for the files before it.  An exception of [p.is_file()] leaves the
    generator, and with it the [for] statement that draws from it. *)
Definition discover_iterator (root : path) (recursive : bool) : M (list path) :=
  emit (Scan root recursive) ;;;
  (λ d, (d, [], if recursive then Path_rglob d root else Path_iterdir d root)).

Definition accepts (exts : gset string) (d : disk) (p : path) : bool :=
  is_file d p && bool_decide (Py.lstrip_dots (Py.lower (Path.suffix p)) ∈ exts).

Definition discover_test (exts : gset string) (p : path) : M bool := λ d,
  match Path_is_file_error d p with
  | Some e => (d, [], Raise e)
  | None => (d, [], Ok (accepts exts d p))
  end.

(** [for p in discover(root, exts, recursive): acc = body(p, acc)], given the
    list the iterator enumerates. *)
Definition for_discovered {S} (exts : gset string) (entries : list path)
    (body : path → S → M S) (acc : S) : M S :=
  for_each entries
    (λ p acc, ok <- discover_test exts p ;;
              if ok then emit (Yield p) ;;; body p acc else ret acc)
    acc.

(** [f"...{n} file{'s' if n != 1 else ''}."] *)
Definition plural (n : nat) : string :=
  if bool_decide (n ≠ 1%nat) then "s" else "".

End Primitives.

(** ** heic_to_jpg.py *)

Module heic_to_jpg.

(** Python values that meet as keys or members in this script. *)
Inductive pyval :=
| PyNone
| PyInt (n : Z)
| PyStr (s : string).

#[export] Instance pyval_eq_dec : EqDecision pyval.
Proof. solve_decision. Defined.

(** A [dict]: the bindings, found by key equality ([1 != "1"] in Python);
    [d[k] = v] replaces the binding of [k] or appends a new one. *)
Fixpoint dict_set (d : list (pyval * pyval)) (k v : pyval) : list (pyval * pyval) :=
  match d with
  | [] => [(k, v)]
  | (k', v') :: r => if decide (k' = k) then (k, v) :: r else (k', v') :: dict_set r k v
  end.

(** [d.get(k)] *)
Fixpoint dict_get (d : list (pyval * pyval)) (k : pyval) : pyval :=
  match d with
  | [] => PyNone
  | (k', v') :: r => if decide (k' = k) then v' else dict_get r k
  end.

(** [x in s] for a set [s] of [str] *)
Definition py_in (x : pyval) (s : gset string) : bool :=
  match x with
  | PyStr t => bool_decide (t ∈ s)
  | _ => false
  end.

Record Namespace := {
  directory : path;
  recursive : bool;
  quality : Z;
  ext : string;
  delete : bool;
}.

Section Script.
Context `{E : Externals}.

(** [TAG_MAP = {v: k for k, v in ExifTags.TAGS.items()}] *)
Definition TAG_MAP : list (pyval * pyval) :=
  foldl (λ d kv, dict_set d (PyStr (snd kv)) (PyInt (fst kv))) [] ExifTags_TAGS.

Definition KEEP_TAG_NAMES : gset string :=
  {[ "DateTimeOriginal"; "CreateDate"; "DateTime" ]}.

(** [build_exif_bytes(src_img)] *)
Definition build_exif_bytes (src_img : image) : option (list byte) :=
  let orig := Image_getexif src_img in
  if Nat.eqb (size orig) 0 then None
  else
    let new :=
      foldl (λ (new : gmap Z exif_value) item,
               if py_in (dict_get TAG_MAP (PyInt (fst item))) KEEP_TAG_NAMES
               then <[fst item := snd item]> new else new)
            ∅ (map_to_list orig) in
    if Nat.eqb (size new) 0 then None else Some (Exif_tobytes new).

(** [convert(src, quality, delete)] *)
Definition convert (src : path) (quality : Z) (delete : bool) : M unit :=
  dst <- lift (Path.with_suffix src ".jpg") ;;
  dst_exists <- exists_ dst ;;
  if dst_exists : bool then
    print stdout ("[SKIP] " +:+ Path.name dst +:+ " already exists")
  else
    im <- Image_open_path src ;;
    im <- lift (ImageOps_exif_transpose im) ;;
    let exif_bytes := build_exif_bytes im in
    let exif_kwarg :=
      match exif_bytes with
      | Some (b :: bs) => Some (b :: bs)
      | _ => None
      end in
    save_JPEG im dst quality exif_kwarg ;;;
    print stdout ("[OK] " +:+ Path.name src +:+ " → " +:+ Path.name dst) ;;;
    if delete then
      unlink src false ;;;
      print stdout ("      Deleted original " +:+ Path.name src)
    else ret tt.

(** The last line of [main]. *)
Definition summary (total : nat) : string :=
  if Nat.eqb total 0 then "No matching files converted (review [ERROR] lines)."
  else "Done. Converted " +:+ pretty total +:+ " file" +:+ plural total +:+ ".".

(** The body of the [for] loop of [main]: [try] ... [except Exception]. *)
Definition loop_body (args : Namespace) (src : path) (total : nat) : M nat :=
  try_except
    (convert src (quality args) (delete args) ;;; ret (S total))
    (λ exc, print stderr ("[ERROR] " +:+ Path.name src +:+ ": " +:+ exn_str exc) ;;;
            ret total).

Definition main (args : Namespace)
    : gmap path (node content) → gmap path (node content) * list event * outcome :=
  λ d,
  if negb (path_exists d (directory args)) then
    (d, [], UsageError (Path.str (directory args) +:+ " does not exist."))
  else if negb ((1 <=? quality args) && (quality args <=? 100)) then
    (d, [], UsageError "--quality must be between 1 and 100.")
  else
    let exts := parse_exts (ext args) in
    if Nat.eqb (size exts) 0 then
      (d, [], UsageError "--ext yielded no valid extensions.")
    else
      finish
        (entries <- discover_iterator (directory args) (recursive args) ;;
         total <- for_discovered exts entries (loop_body args) 0%nat ;;
         print stdout (summary total))
        d.

End Script.
End heic_to_jpg.

(** ** sanitize_heic_to_jpg.py *)

Module sanitize_heic_to_jpg.

Record Namespace := {
  directory : path;
  recursive : bool;
  quality : Z;
  delete : bool;
  ext : string;
}.

Section Script.
Context `{E : Externals}.

(** [convert(src, quality, delete)] *)
Definition convert (src : path) (quality : Z) (delete : bool) : M unit :=
  dst <- lift (Path.with_suffix src ".jpg") ;;
  dst_exists <- exists_ dst ;;
  if dst_exists : bool then
    print stdout ("[SKIP] " +:+ Path.name dst +:+ " already exists")
  else
    im <- Image_open_path src ;;
    im <- lift (ImageOps_exif_transpose im) ;;
    save_JPEG im dst quality None ;;;
    print stdout ("[OK] " +:+ Path.name src +:+ " → " +:+ Path.name dst) ;;;
    if delete then
      unlink src false ;;;
      print stdout ("      Deleted original " +:+ Path.name src)
    else ret tt.

Definition summary (total : nat) : string :=
  if Nat.eqb total 0 then "No matching files converted (review [ERROR] lines)."
  else "Done. Converted " +:+ pretty total +:+ " file" +:+ plural total +:+ ".".

Definition loop_body (args : Namespace) (src : path) (total : nat) : M nat :=
  try_except
    (convert src (quality args) (delete args) ;;; ret (S total))
    (λ exc, print stderr ("[ERROR] " +:+ Path.name src +:+ ": " +:+ exn_str exc) ;;;
            ret total).

Definition main (args : Namespace)
    : gmap path (node content) → gmap path (node content) * list event * outcome :=
  λ d,
  if negb (path_exists d (directory args)) then
    (d, [], UsageError (Path.str (directory args) +:+ " does not exist."))
  else if negb ((1 <=? quality args) && (quality args <=? 100)) then
    (d, [], UsageError "--quality must be between 1 and 100.")
  else
    let exts := parse_exts (ext args) in
    if Nat.eqb (size exts) 0 then
      (d, [], UsageError "--ext yielded no valid extensions.")
    else
      finish
        (entries <- discover_iterator (directory args) (recursive args) ;;
         total <- for_discovered exts entries (loop_body args) 0%nat ;;
         print stdout (summary total))
        d.

End Script.
End sanitize_heic_to_jpg.

(** ** heic_strip_and_convert_to_jpg.py *)

Module heic_strip_and_convert_to_jpg.

Record Namespace := {
  directory : path;
  recursive : bool;
  quality : Z;
  keep : bool;
  ext : string;
}.

Section Script.
Context `{E : Externals}.

(** [exiftool_available()] *)
Definition exiftool_available : bool := shutil_which "exiftool".

(** [strip_all_metadata(file)] *)
Definition strip_all_metadata (file : path) : M unit :=
  subprocess_run ["exiftool"; "-overwrite_original"; "-all="; Path.str file] file.

(** [convert_to_jpg(src, quality, delete_original)] *)
Definition convert_to_jpg (src : path) (quality : Z) (delete_original : bool) : M unit :=
  dst <- lift (Path.with_suffix src ".jpg") ;;
  dst_exists <- exists_ dst ;;
  if dst_exists : bool then
    print stdout ("[SKIP] " +:+ Path.name dst +:+ " already exists") ;;;
    if delete_original then unlink src true else ret tt
  else
    im <- Image_open_path src ;;
    im <- lift (ImageOps_exif_transpose im) ;;
    save_JPEG im dst quality None ;;;
    print stdout ("[OK] " +:+ Path.name src +:+ " → " +:+ Path.name dst) ;;;
    if delete_original then
      unlink src false ;;;
      print stdout ("      Deleted original " +:+ Path.name src)
    else ret tt.

Definition summary (total : nat) : string :=
  if Nat.eqb total 0 then "No matching files processed — check [ERROR] messages above."
  else "Done. Processed " +:+ pretty total +:+ " file" +:+ plural total +:+ ".".

(** [exc.stderr.decode()] raises [UnicodeDecodeError] on bytes that are not
    UTF-8; raised inside the handler, it leaves the loop. *)
Definition UnicodeDecodeError : exn :=
  Exception "'utf-8' codec can't decode the bytes of exc.stderr".

(** The body of the [for] loop of [main]: [try] ... [except
    subprocess.CalledProcessError] ... [except Exception]. *)
Definition loop_body (args : Namespace) (heic : path) (total : nat) : M nat :=
  let delete_originals := negb (keep args) in
  try_except
    (strip_all_metadata heic ;;;
     convert_to_jpg heic (quality args) delete_originals ;;;
     ret (S total))
    (λ exc,
       match exc with
       | CalledProcessError _ err =>
           match Py.decode err with
           | Some text =>
               print stderr ("[ERROR] " +:+ Path.name heic +:+ ": ExifTool → " +:+
                             Py.strip text) ;;;
               ret total
           | None => raise UnicodeDecodeError
           end
       | Exception _ =>
           print stderr ("[ERROR] " +:+ Path.name heic +:+ ": " +:+ exn_str exc) ;;;
           ret total
       end).

Definition main (args : Namespace)
    : gmap path (node content) → gmap path (node content) * list event * outcome :=
  λ d,
  if negb (path_exists d (directory args)) then
    (d, [], UsageError (Path.str (directory args) +:+ " does not exist."))
  else if negb ((1 <=? quality args) && (quality args <=? 100)) then
    (d, [], UsageError "--quality must be between 1 and 100.")
  else if negb exiftool_available then
    (d, [], SysExit "Error: ExifTool not found (install via brew / apt / choco).")
  else
    let exts := parse_exts (ext args) in
    if Nat.eqb (size exts) 0 then
      (d, [], UsageError "--ext yielded no valid extensions.")
    else
      finish
        (entries <- discover_iterator (directory args) (recursive args) ;;
         total <- for_discovered exts entries (loop_body args) 0%nat ;;
         print stdout (summary total))
        d.

End Script.
End heic_strip_and_convert_to_jpg.

(** ** strip_heic_metadata.py *)

Module strip_heic_metadata.

Record Namespace := {
  directory : path;
  recursive : bool;
  keep_datetimes : bool;
  ext : string;
}.

Section Script.
Context `{E : Externals}.

(** [exiftool_available()] *)
Definition exiftool_available : bool := shutil_which "exiftool".

(** [strip_metadata(file, keep_datetimes)] *)
Definition strip_metadata (file : path) (keep_datetimes : bool) : M unit :=
  let args :=
    if keep_datetimes then
      ["exiftool"; "-overwrite_original"; "-all="; "-tagsfromfile"; "@";
       "-datetimeoriginal"; "-createdate"; "-modifydate"; Path.str file]
    else ["exiftool"; "-overwrite_original"; "-all="; Path.str file] in
  subprocess_run args file.

(** The line printed when [files] is empty. *)
Definition no_files (exts : gset string) (args : Namespace) : string :=
  "No files with extensions " +:+ Py.join ", " (Py.sorted (elements exts)) +:+
  " found in " +:+ Path.str (directory args) +:+
  " (recursive=" +:+ Py.str_bool (recursive args) +:+ ").".

Definition summary (count : nat) : string :=
  "Done. Processed " +:+ pretty count +:+ " file" +:+ plural count +:+ ".".

(** The body of the [for] loop of [main]: [try] ... [except
    subprocess.CalledProcessError].  Any other exception leaves the loop. *)
Definition loop_body (args : Namespace) (f : path) (count : nat) : M nat :=
  try_except
    (strip_metadata f (keep_datetimes args) ;;;
     match Path.relative_to f (directory args) with
     | Some rel =>
         print stdout ("[OK] Stripped metadata from " +:+ Path.str rel) ;;;
         ret (S count)
     | None =>
         raise (Exception ("'" +:+ Path.str f +:+ "' is not in the subpath of '" +:+
                           Path.str (directory args) +:+ "'"))
     end)
    (λ exc,
       match exc with
       | CalledProcessError _ err =>
           print stderr ("[ERROR] " +:+ Path.str f +:+ ": " +:+
                         Py.strip (Py.decode_ignore err)) ;;;
           ret count
       | Exception _ => raise exc
       end).

Definition main (args : Namespace)
    : gmap path (node content) → gmap path (node content) * list event * outcome :=
  λ d,
  if negb (path_exists d (directory args)) then
    (d, [], UsageError ("Directory " +:+ Path.str (directory args) +:+ " does not exist."))
  else if negb exiftool_available then
    (d, [], SysExit "Error: ExifTool not found. Install it first (e.g. 'brew install exiftool').")
  else
    let exts := parse_exts (ext args) in
    if Nat.eqb (size exts) 0 then
      (d, [], UsageError "--ext yielded no valid extensions – give at least one.")
    else
      finish
        (entries <- discover_iterator (directory args) (recursive args) ;;
         files <- for_discovered exts entries (λ p acc, ret (acc ++ [p])%list) [] ;;
         match files with
         | [] => print stdout (no_files exts args)
         | _ =>
             count <- for_each files (loop_body args) 0%nat ;;
             print stdout (summary count)
         end)
        d.

End Script.
End strip_heic_metadata.

(** ** Observations on a trace of events *)

Definition is_line (s : stream) (prefix : string) (e : event) : bool :=
  match e, s with
  | Print stdout l, stdout => String.prefix prefix l
  | Print stderr l, stderr => String.prefix prefix l
  | _, _ => false
  end.

Definition is_yield (e : event) : bool :=
  match e with
  | Yield _ => true
  | _ => false
  end.

Definition count (f : event → bool) (t : list event) : nat :=
  length (List.filter f t).

(** Lines [[OK] ...] and [[SKIP] ...] on standard output, lines [[ERROR] ...]
    on standard error, files yielded by [discover]. *)
Definition oks : list event → nat := count (is_line stdout "[OK]").
Definition skips : list event → nat := count (is_line stdout "[SKIP]").
Definition errors : list event → nat := count (is_line stderr "[ERROR]").
Definition yields : list event → nat := count is_yield.

(** Files created by a run. *)
Definition is_write (e : event) : bool :=
  match e with
  | Write _ => true
  | _ => false
  end.
Definition outputs : list event → nat := count is_write.

(** The paths present on a disk that had the paths [start], after the events
    [t] took place. *)
Definition disk_after (t : list event) (start : gset path) : gset path :=
  foldl (λ present e,
           match e with
           | Write p => {[p]} ∪ present
           | Unlink p => present ∖ {[p]}
           | _ => present
           end) start t.

(** A dot occurs in [s]. *)
Fixpoint has_dot (s : string) : bool :=
  match s with
  | EmptyString => false
  | String c r => Ascii.eqb c "." || has_dot r
  end.

(** The lines of the convert functions. *)
Definition skip_line (dst : path) : string :=
  "[SKIP] " +:+ Path.name dst +:+ " already exists".
Definition ok_line (src dst : path) : string :=
  "[OK] " +:+ Path.name src +:+ " → " +:+ Path.name dst.
Definition deleted_line (src : path) : string :=
  "      Deleted original " +:+ Path.name src.
Definition error_line (who : string) (what : string) : string :=
  "[ERROR] " +:+ who +:+ ": " +:+ what.

(** What one call of a convert function can do on the disk [d].
    [on_skip] tells whether the function unlinks the source on the skip
    path (only [convert_to_jpg] does).  A refused unlink raises after the
    [[SKIP]] or [[OK]] line has been printed. *)
Inductive convert_spec `{E : Externals} (on_skip : bool) (src : path) (del : bool)
    (d : gmap path (node content))
    : gmap path (node content) * list event * result unit → Prop :=
| convert_noname e :
    Path.with_suffix src ".jpg" = Raise e →
    convert_spec on_skip src del d (d, [], Raise e)
| convert_skip dst :
    Path.with_suffix src ".jpg" = Ok dst →
    path_exists d dst = true →
    on_skip && del = false ∨ d !! src = None →
    convert_spec on_skip src del d (d, [Print stdout (skip_line dst)], Ok tt)
| convert_skip_unlink dst c :
    Path.with_suffix src ".jpg" = Ok dst →
    path_exists d dst = true →
    on_skip = true → del = true → d !! src = Some (File c) →
    Path_unlink_error d src = None →
    convert_spec on_skip src del d
      (delete src d, [Print stdout (skip_line dst); Unlink src], Ok tt)
| convert_skip_refused dst c e :
    Path.with_suffix src ".jpg" = Ok dst →
    path_exists d dst = true →
    on_skip = true → del = true → d !! src = Some (File c) →
    Path_unlink_error d src = Some e →
    convert_spec on_skip src del d
      (d, [Print stdout (skip_line dst)], Raise e)
| convert_skip_dir dst :
    Path.with_suffix src ".jpg" = Ok dst →
    path_exists d dst = true →
    on_skip = true → del = true → d !! src = Some Dir →
    convert_spec on_skip src del d
      (d, [Print stdout (skip_line dst)], Raise (errno21 src))
| convert_fail dst e t :
    Path.with_suffix src ".jpg" = Ok dst →
    path_exists d dst = false →
    t = [Open src] ∨ t = [Open src; Save dst] →
    convert_spec on_skip src del d (d, t, Raise e)
| convert_ok dst c c' :
    Path.with_suffix src ".jpg" = Ok dst →
    path_exists d dst = false →
    d !! src = Some (File c) →
    (del = true → Path_unlink_error (<[dst := File c']> d) src = None) →
    convert_spec on_skip src del d
      (if del then delete src (<[dst := File c']> d) else <[dst := File c']> d,
       ([Open src; Save dst; Write dst; Print stdout (ok_line src dst)] ++
        if del then [Unlink src; Print stdout (deleted_line src)] else [])%list,
       Ok tt)
| convert_ok_refused dst c c' e :
    Path.with_suffix src ".jpg" = Ok dst →
    path_exists d dst = false →
    d !! src = Some (File c) →
    del = true →
    Path_unlink_error (<[dst := File c']> d) src = Some e →
    convert_spec on_skip src del d
      (<[dst := File c']> d,
       [Open src; Save dst; Write dst; Print stdout (ok_line src dst)],
       Raise e).

(** What the two [except] clauses of heic_strip_and_convert_to_jpg.py make
    of the exception [e], raised on the disk [d] after the events [t], with
    the counter at [n]. *)
Definition strip_and_convert_handled `{E : Externals} (who : string) (n : nat)
    (d : gmap path (node content)) (t : list event) (e : exn)
    : gmap path (node content) * list event * result nat :=
  match e with
  | CalledProcessError _ err =>
      match Py.decode err with
      | Some text =>
          (d, (t ++ [Print stderr (error_line who ("ExifTool → " +:+ Py.strip text))])%list,
           Ok n)
      | None => (d, t, Raise heic_strip_and_convert_to_jpg.UnicodeDecodeError)
      end
  | Exception m => (d, (t ++ [Print stderr (error_line who m)])%list, Ok n)
  end.

(** The convert function of each of the three scripts that convert, with
    its behaviour on the skip path. *)
Inductive convert_variant `{E : Externals}
    : bool → (path → Z → bool → M unit) → Prop :=
| variant_heic_to_jpg : convert_variant false heic_to_jpg.convert
| variant_sanitize : convert_variant false sanitize_heic_to_jpg.convert
| variant_strip_and_convert :
    convert_variant true heic_strip_and_convert_to_jpg.convert_to_jpg.

(** ** The four scripts side by side *)

Inductive script :=
| heic_to_jpg_py
| sanitize_heic_to_jpg_py
| heic_strip_and_convert_to_jpg_py
| strip_heic_metadata_py.

#[export] Instance script_eq_dec : EqDecision script.
Proof. solve_decision. Defined.

(** The options of the four parsers together; each script reads its own. *)
Record command_line := {
  cl_directory : path;
  cl_recursive : bool;
  cl_quality : Z;
  cl_ext : string;
  cl_delete : bool;
  cl_keep : bool;
  cl_keep_datetimes : bool;
}.

Section Scripts.
Context `{E : Externals}.

Definition heic_to_jpg_args (a : command_line) : heic_to_jpg.Namespace :=
  {| heic_to_jpg.directory := cl_directory a;
     heic_to_jpg.recursive := cl_recursive a;
     heic_to_jpg.quality := cl_quality a;
     heic_to_jpg.ext := cl_ext a;
     heic_to_jpg.delete := cl_delete a |}.

Definition sanitize_args (a : command_line) : sanitize_heic_to_jpg.Namespace :=
  {| sanitize_heic_to_jpg.directory := cl_directory a;
     sanitize_heic_to_jpg.recursive := cl_recursive a;
     sanitize_heic_to_jpg.quality := cl_quality a;
     sanitize_heic_to_jpg.delete := cl_delete a;
     sanitize_heic_to_jpg.ext := cl_ext a |}.

Definition strip_and_convert_args (a : command_line)
    : heic_strip_and_convert_to_jpg.Namespace :=
  {| heic_strip_and_convert_to_jpg.directory := cl_directory a;
     heic_strip_and_convert_to_jpg.recursive := cl_recursive a;
     heic_strip_and_convert_to_jpg.quality := cl_quality a;
     heic_strip_and_convert_to_jpg.keep := cl_keep a;
     heic_strip_and_convert_to_jpg.ext := cl_ext a |}.

Definition strip_args (a : command_line) : strip_heic_metadata.Namespace :=
  {| strip_heic_metadata.directory := cl_directory a;
     strip_heic_metadata.recursive := cl_recursive a;
     strip_heic_metadata.keep_datetimes := cl_keep_datetimes a;
     strip_heic_metadata.ext := cl_ext a |}.

(** [main] of a script on a parsed command line. *)
Definition run (s : script) (a : command_line)
    : gmap path (node content) → gmap path (node content) * list event * outcome :=
  match s with
  | heic_to_jpg_py => heic_to_jpg.main (heic_to_jpg_args a)
  | sanitize_heic_to_jpg_py => sanitize_heic_to_jpg.main (sanitize_args a)
  | heic_strip_and_convert_to_jpg_py =>
      heic_strip_and_convert_to_jpg.main (strip_and_convert_args a)
  | strip_heic_metadata_py => strip_heic_metadata.main (strip_args a)
  end.

(** The body of the per-file loop of a script. *)
Definition loop_body (s : script) (a : command_line) : path → nat → M nat :=
  match s with
  | heic_to_jpg_py => heic_to_jpg.loop_body (heic_to_jpg_args a)
  | sanitize_heic_to_jpg_py => sanitize_heic_to_jpg.loop_body (sanitize_args a)
  | heic_strip_and_convert_to_jpg_py =>
      heic_strip_and_convert_to_jpg.loop_body (strip_and_convert_args a)
  | strip_heic_metadata_py => strip_heic_metadata.loop_body (strip_args a)
  end.

(** The last line of a run that counted [n] files. *)
Definition summary (s : script) (n : nat) : string :=
  match s with
  | heic_to_jpg_py => heic_to_jpg.summary n
  | sanitize_heic_to_jpg_py => sanitize_heic_to_jpg.summary n
  | heic_strip_and_convert_to_jpg_py => heic_strip_and_convert_to_jpg.summary n
  | strip_heic_metadata_py => strip_heic_metadata.summary n
  end.

(** The scripts that convert take [--quality]; strip_heic_metadata.py has no
    such option. *)
Definition converts (s : script) : bool :=
  match s with
  | strip_heic_metadata_py => false
  | _ => true
  end.

(** The list the directory iterator of a run enumerates. *)
Definition scanned (a : command_line) (d : gmap path (node content))
    : result (list path) :=
  if cl_recursive a then Path_rglob d (cl_directory a)
  else Path_iterdir d (cl_directory a).

End Scripts.

(** The scripts that call ExifTool check that it is installed. *)
Definition uses_exiftool (s : script) : bool :=
  match s with
  | heic_strip_and_convert_to_jpg_py | strip_heic_metadata_py => true
  | _ => false
  end.

(** A run that is refused before the loop: [parser.error] or [sys.exit]. *)
Definition rejected (o : outcome) : Prop :=
  match o with
  | UsageError _ | SysExit _ => True
  | _ => False
  end.

Definition quality_error : string := "--quality must be between 1 and 100.".

Definition ext_error (s : script) : string :=
  match s with
  | strip_heic_metadata_py => "--ext yielded no valid extensions – give at least one."
  | _ => "--ext yielded no valid extensions."
  end.

(** The steps of one file inside the [try] block of a script, up to the
    point where the counter moves. *)
Definition transform `{E : Externals} (s : script) (a : command_line) (p : path)
    : M unit :=
  match s with
  | heic_to_jpg_py => heic_to_jpg.convert p (cl_quality a) (cl_delete a)
  | sanitize_heic_to_jpg_py => sanitize_heic_to_jpg.convert p (cl_quality a) (cl_delete a)
  | heic_strip_and_convert_to_jpg_py =>
      heic_strip_and_convert_to_jpg.strip_all_metadata p ;;;
      heic_strip_and_convert_to_jpg.convert_to_jpg p (cl_quality a) (negb (cl_keep a))
  | strip_heic_metadata_py =>
      strip_heic_metadata.strip_metadata p (cl_keep_datetimes a)
  end.

(** The exceptions the [except] clauses of a script take care of. *)
Definition caught (s : script) (e : exn) : Prop :=
  match s, e with
  | heic_to_jpg_py, _ | sanitize_heic_to_jpg_py, _ => True
  | heic_strip_and_convert_to_jpg_py, CalledProcessError _ err =>
      is_Some (Py.decode err)
  | heic_strip_and_convert_to_jpg_py, Exception _ => True
  | strip_heic_metadata_py, CalledProcessError _ _ => True
  | strip_heic_metadata_py, Exception _ => False
  end.


(** The line a script prints on standard error for a file and an
    exception it caught. *)
Definition report (s : script) (p : path) (e : exn) : string :=
  match s, e with
  | heic_strip_and_convert_to_jpg_py, CalledProcessError _ err =>
      error_line (Path.name p)
        ("ExifTool → " +:+ Py.strip (default EmptyString (Py.decode err)))
  | strip_heic_metadata_py, CalledProcessError _ err =>
      error_line (Path.str p) (Py.strip (Py.decode_ignore err))
  | _, _ => error_line (Path.name p) (exn_str e)
  end.





(** Lines that close a run. *)
Definition summaries (t : list event) : nat :=
  count (is_line stdout "Done.") t + count (is_line stdout "No ") t.

(** The script removes originals: [--delete] was given, or [--keep] was
    not. *)
Definition deletes (s : script) (a : command_line) : bool :=
  match s with
  | heic_to_jpg_py | sanitize_heic_to_jpg_py => cl_delete a
  | heic_strip_and_convert_to_jpg_py => negb (cl_keep a)
  | strip_heic_metadata_py => false
  end.

(** The events a script can produce at all, given its command line. *)
Definition allowed (s : script) (a : command_line) (e : event) : bool :=
  match e with
  | Print _ _ | Scan _ _ | Yield _ => true
  | Open _ | Save _ | Write _ => converts s
  | SubprocessRun argv =>
      uses_exiftool s
      && bool_decide (take 3 argv = ["exiftool"; "-overwrite_original"; "-all="])
  | Unlink _ => deletes s a
  end.

(** Processes started by a run. *)
Definition is_run (e : event) : bool :=
  match e with
  | SubprocessRun _ => true
  | _ => false
  end.
Definition runs : list event → nat := count is_run.

(** No removal is refused in a run: none is asked for, or the system
    refuses none. *)
Definition removals_granted `{E : Externals} (s : script) (a : command_line) : Prop :=
  deletes s a = false ∨ ∀ d p, Path_unlink_error d p = None.

(** What one turn of a loop body contributes to the counts, when it is
    entered with the counter at [n]: the file is counted or gets an
    [[ERROR]] line; a counted file has its [[OK]] or [[SKIP]] line, and
    when [granted] holds no other file has one. *)
Definition tallied `{E : Externals} (granted : Prop) (n : nat)
    (out : gmap path (node content) * list event * result nat) : Prop :=
  yields (out.1.2) = 0%nat ∧ summaries (out.1.2) = 0%nat ∧
  ∀ m, out.2 = Ok m →
       (m + errors (out.1.2) = S n)%nat
       ∧ (m ≤ n + oks (out.1.2) + skips (out.1.2))%nat
       ∧ (granted → m = n + oks (out.1.2) + skips (out.1.2))%nat.

(** ** A stand-in for the collaborators, to run the scripts on examples *)

Module Demo.

(** The bytes of a file, as far as the stand-in codec looks at them. *)
Inductive demo_file :=
| Corrupt
| Heic (pixels : string) (exif : list (Z * string))
| Jpeg (pixels : string) (quality : Z) (exif : option (list byte)).

Definition demo_open (c : demo_file) : result (string * gmap Z string) :=
  match c with
  | Corrupt => Raise (Exception "cannot identify image file")
  | Heic px ex => Ok (px, list_to_map ex)
  | Jpeg px _ _ => Ok (px, ∅)
  end.

(** ExifTool on a file: a corrupt file makes it exit with status 1; when
    [spawn_fails], the file found on the PATH cannot be executed and the
    process is not started ([OSError]). *)
Definition demo_exiftool (spawn_fails : bool) (argv : list string) (c : demo_file)
    : demo_file * option exn :=
  if spawn_fails then (c, Some (Exception "[Errno 8] Exec format error: 'exiftool'"))
  else match c with
       | Corrupt =>
           (Corrupt,
            Some (CalledProcessError
                    "Command 'exiftool' returned non-zero exit status 1."
                    (list_byte_of_string "Error: File format error")))
       | Heic px _ => (Heic px [], None)
       | Jpeg px q _ => (Jpeg px q None, None)
       end.

(** The directory iterators enumerate the entries of the disk below [root]
    in the order [order]. *)
Definition demo_iter (deep : bool) (order : list path)
    (d : gmap path (node demo_file)) (root : path) : result (list path) :=
  match d !! root with
  | Some Dir =>
      Ok (List.filter
            (λ p, match d !! p, Path.relative_to p root with
                  | Some _, Some [_] => true
                  | Some _, Some (_ :: _ :: _) => deep
                  | _, _ => false
                  end) order)
  | _ => if deep then Ok [] else Raise (Exception "[Errno 20] Not a directory")
  end.

(** The stand-in: a codec that decodes every file but [Corrupt] ones, an
    encoder that never fails, the ExifTool [tool], and a system that refuses
    to stat or to remove the paths for which [stat_error] or [unlink_error]
    say so. *)
Definition collaborators
    (tool : list string → demo_file → demo_file * option exn)
    (stat_error unlink_error : path → option exn) (order : list path)
    : Externals := {|
  content := demo_file;
  image := string * gmap Z string;
  exif_value := string;
  Image_open := demo_open;
  ImageOps_exif_transpose := Ok;
  Image_getexif := snd;
  Exif_tobytes := λ m, list_byte_of_string (Py.join ";" (snd <$> map_to_list m));
  Image_convert_RGB := Ok;
  Image_save_JPEG := λ im q exif, Ok (Jpeg (fst im) q exif);
  ExifTags_TAGS := [(271, "Make"); (274, "Orientation"); (306, "DateTime");
                    (34853, "GPSInfo"); (36867, "DateTimeOriginal");
                    (36868, "DateTimeDigitized")];
  exiftool := tool;
  exiftool_nofile := λ _,
    CalledProcessError "Command 'exiftool' returned non-zero exit status 1."
                       (list_byte_of_string "Error: File not found");
  shutil_which := λ _, true;
  Path_iterdir := demo_iter false order;
  Path_rglob := demo_iter true order;
  Path_is_file_error := λ _, stat_error;
  Path_unlink_error := λ _, unlink_error;
|}.

(** A system that refuses nothing. *)
Definition externals (spawn_fails : bool) (order : list path) : Externals :=
  collaborators (demo_exiftool spawn_fails) (λ _, None) (λ _, None) order.

Definition photos : path := ["photos"].
Definition a_heic : path := ["photos"; "a.heic"].
Definition a_jpg : path := ["photos"; "a.jpg"].
Definition b_heic : path := ["photos"; "b.heic"].
Definition b_jpg : path := ["photos"; "b.jpg"].
Definition c_heic : path := ["photos"; "c.heic"].
Definition c_jpg : path := ["photos"; "c.jpg"].

Definition picture (px : string) : node demo_file :=
  File (Heic px [(274, "6"); (306, "2025:05:25 10:00:00"); (34853, "48.85,2.35")]).

(** The scenario of the specification: one valid HEIC, one already converted
    pair, one corrupt file. *)
Definition scenario : gmap path (node demo_file) :=
  list_to_map [(photos, Dir); (a_heic, picture "A"); (b_heic, picture "B");
               (b_jpg, File (Jpeg "B" 90 None)); (c_heic, File Corrupt)].

Definition scenario_order : list path := [a_heic; b_heic; b_jpg; c_heic].

Definition world : Externals := externals false scenario_order.

(** A directory with nothing in it, and one with a single corrupt file. *)
Definition empty_directory : gmap path (node demo_file) :=
  list_to_map [(photos, Dir)].
Definition one_corrupt_file : gmap path (node demo_file) :=
  list_to_map [(photos, Dir); (c_heic, File Corrupt)].



(** The same collaborators on a system that refuses every removal (the
    directory is not writable). *)
Definition locked_world : Externals :=
  collaborators (demo_exiftool false) (λ _, None) (λ p, Some (errno13 p))
    scenario_order.

(** The same collaborators on a system that refuses to examine [b.heic]. *)
Definition hidden_world : Externals :=
  collaborators (demo_exiftool false)
    (λ p, if bool_decide (p = b_heic) then Some (errno13 p) else None) (λ _, None)
    scenario_order.

(** The message of an ExifTool that writes Latin-1: ["Donn" é "es illisibles"]
    with [é] as the single byte E9, which is not UTF-8; and the same
    collaborators with an ExifTool that fails on every file with this
    message. *)
Definition latin1_message : list byte :=
  (list_byte_of_string "Donn" ++ [xe9] ++ list_byte_of_string "es illisibles")%list.
Definition latin1_world : Externals :=
  collaborators
    (λ _ c, (c, Some (CalledProcessError
                        "Command 'exiftool' returned non-zero exit status 1."
                        latin1_message)))
    (λ _, None) (λ _, None) scenario_order.

(** A directory with one picture whose name has no suffix. *)
Definition readme : path := ["photos"; "README"].
Definition readme_jpg : path := ["photos"; "README.jpg"].
Definition with_readme : gmap path (node demo_file) :=
  list_to_map [(photos, Dir); (readme, picture "R")].
Definition readme_world : Externals := externals false [readme].

(** A command line on the directory of the scenario, and the same with
    [--delete]. *)
Definition command (q : Z) (ext : string) (recursive : bool) : command_line :=
  {| cl_directory := photos; cl_recursive := recursive; cl_quality := q;
     cl_ext := ext; cl_delete := false; cl_keep := false;
     cl_keep_datetimes := false |}.
Definition command_delete (q : Z) (ext : string) : command_line :=
  {| cl_directory := photos; cl_recursive := false; cl_quality := q;
     cl_ext := ext; cl_delete := true; cl_keep := false;
     cl_keep_datetimes := false |}.

End Demo.

(** * Properties *)

(** ** Basic facts *)

Section Basics.
Context `{E : Externals}.

Lemma path_exists_true (d : gmap path (node content)) p :
  path_exists d p = true ↔ is_Some (d !! p).
Proof. unfold path_exists. destruct (d !! p); split; intros H; try done; by destruct H. Qed.

Lemma path_exists_false (d : gmap path (node content)) p :
  path_exists d p = false ↔ d !! p = None.
Proof. unfold path_exists. by destruct (d !! p). Qed.

Lemma count_app f t1 t2 : count f (t1 ++ t2) = (count f t1 + count f t2)%nat.
Proof. unfold count. by rewrite List.filter_app, length_app. Qed.

Lemma count_cons f e t :
  count f (e :: t) = ((if f e then 1 else 0) + count f t)%nat.
Proof. unfold count. simpl. by destruct (f e). Qed.

Lemma count_nil f : count f [] = 0%nat.
Proof. done. Qed.

Lemma is_file_true (d : gmap path (node content)) (p : path) :
  is_file d p = true ↔ ∃ c, d !! p = Some (File c).
Proof.
  unfold is_file. destruct (d !! p) as [[c|]|]; split; try done; eauto.
  all: by intros [? ?].
Qed.

Lemma accepts_is_file (exts : gset string) (d : gmap path (node content)) (p : path) :
  accepts exts d p = true → is_file d p = true.
Proof. unfold accepts. by intros [? _]%andb_true_iff. Qed.

Lemma quality_test (q : Z) : (1 <=? q) && (q <=? 100) = true ↔ 1 ≤ q ≤ 100.
Proof. rewrite andb_true_iff, !Z.leb_le. done. Qed.

End Basics.

(** ** Proof scripts *)

(** The three convert functions differ in the metadata they pass to the
    encoder and in the skip path; one script of case analysis covers them. *)
Ltac convert_cases src dst d Hex :=
  unfold Image_open_path;
  destruct (d !! src) as [[c|]|] eqn:Hsrc; simpl;
    [ | by (eapply convert_fail; eauto) | by (eapply convert_fail; eauto) ];
  destruct (Image_open c) as [im|e]; simpl; [ | by (eapply convert_fail; eauto) ];
  destruct (ImageOps_exif_transpose im) as [im'|e]; simpl;
    [ | by (eapply convert_fail; eauto) ];
  unfold save_JPEG, bind, lift;
  destruct (Image_convert_RGB im') as [rgb|e]; simpl;
    [ | by (eapply convert_fail; eauto) ];
  match goal with
  | |- context [Image_save_JPEG ?a ?b ?x] =>
      destruct (Image_save_JPEG a b x) as [c'|e]; simpl;
        [ | by (eapply convert_fail; eauto) ]
  end;
  assert (dst ≠ src) as Hne
    by (intros ->; apply path_exists_false in Hex; congruence);
  match goal with
  | |- context [if ?del then _ else _] =>
      destruct del; unfold unlink, ret; simpl;
        rewrite ?lookup_insert_ne, ?Hsrc by done; simpl
  end;
  [ match goal with
    | |- context [Path_unlink_error ?dd src] =>
        destruct (Path_unlink_error dd src) as [e|] eqn:Hun; simpl
    end | ];
  lazymatch goal with
  | |- convert_spec ?os ?s ?dl ?dd (_, _, Raise _) =>
      by (eapply (convert_ok_refused os s dl dd); eauto)
  | |- convert_spec ?os ?s ?dl ?dd _ =>
      by (eapply (convert_ok os s dl dd); eauto; done)
  end.

(** Two results of [with_suffix] on the same source are the same path. *)
Ltac same_dst Hdst :=
  repeat match goal with
         | H : Path.with_suffix _ _ = _ |- _ =>
             rewrite Hdst in H; first [discriminate H | injection H as <-]
         end.

(** No event of the given kinds in a trace that is known event by event. *)
Ltac not_in_trace Hp :=
  repeat (apply elem_of_cons in Hp as [Hp|Hp]; [discriminate|]);
  by apply elem_of_nil in Hp.

Ltac absent_events :=
  intros p; split_and!; intros Hp; not_in_trace Hp.

(** Splitting a trace that is known event by event. *)
(** Membership in a trace that is known event by event. *)
Ltac in_trace H :=
  repeat (apply elem_of_cons in H as [H|H];
          [first [discriminate H | injection H as <- | subst]|]);
  try (by apply elem_of_nil in H).

Ltac split_trace pre :=
  repeat (destruct pre as [|? pre]; simplify_eq/=).

(** Counting lines in a trace made of known events and of unknown parts. *)
Ltac tally :=
  unfold tallied, yields, summaries, errors, oks, skips, outputs in *; simpl in *;
  repeat first [rewrite count_app in * | rewrite count_cons in *
               | rewrite count_nil in *];
  repeat match goal with
         | |- context [is_line ?a ?b ?c] =>
             let v := eval vm_compute in (is_line a b c) in
             change (is_line a b c) with v
         | |- context [is_yield ?c] =>
             let v := eval vm_compute in (is_yield c) in
             change (is_yield c) with v
         | |- context [is_write ?c] =>
             let v := eval vm_compute in (is_write c) in
             change (is_write c) with v
         end;
  cbn iota.


(** ** The [--ext] argument *)

Section Extensions.

Lemma lower_char_comma (c : ascii) :
  Ascii.eqb (Py.lower_char c) "," = Ascii.eqb c ",".
Proof. destruct c as [[] [] [] [] [] [] [] []]; reflexivity. Qed.

Lemma lower_char_dot (c : ascii) :
  Ascii.eqb (Py.lower_char c) "." = Ascii.eqb c ".".
Proof. destruct c as [[] [] [] [] [] [] [] []]; reflexivity. Qed.

Lemma lower_char_isspace (c : ascii) :
  Py.isspace (Py.lower_char c) = Py.isspace c.
Proof. destruct c as [[] [] [] [] [] [] [] []]; reflexivity. Qed.

Lemma lower_char_idemp (c : ascii) :
  Py.lower_char (Py.lower_char c) = Py.lower_char c.
Proof. destruct c as [[] [] [] [] [] [] [] []]; reflexivity. Qed.

Lemma lower_idemp (s : string) : Py.lower (Py.lower s) = Py.lower s.
Proof. induction s as [|c s IH]; simpl; [done|]. by rewrite lower_char_idemp, IH. Qed.

Lemma lower_empty (s : string) : Py.lower s = EmptyString ↔ s = EmptyString.
Proof. by destruct s. Qed.

Lemma lower_split_commas (s : string) :
  Py.split_commas (Py.lower s) = List.map Py.lower (Py.split_commas s).
Proof.
  induction s as [|c s IH]; simpl; [done|].
  rewrite lower_char_comma. destruct (Ascii.eqb c ","); simpl; [by rewrite IH|].
  rewrite IH. by destruct (Py.split_commas s).
Qed.

Lemma lower_lstrip (s : string) : Py.lstrip (Py.lower s) = Py.lower (Py.lstrip s).
Proof.
  induction s as [|c s IH]; simpl; [done|].
  rewrite lower_char_isspace. by destruct (Py.isspace c).
Qed.

Lemma lower_rev_app (s acc : string) :
  String.rev_app (Py.lower s) (Py.lower acc) = Py.lower (String.rev_app s acc).
Proof.
  revert acc. induction s as [|c s IH]; intros acc; simpl; [done|].
  apply (IH (String c acc)).
Qed.

Lemma lower_rev (s : string) : String.rev (Py.lower s) = Py.lower (String.rev s).
Proof. apply (lower_rev_app s EmptyString). Qed.

Lemma lower_strip (s : string) : Py.strip (Py.lower s) = Py.lower (Py.strip s).
Proof.
  unfold Py.strip, Py.rstrip.
  by rewrite lower_lstrip, lower_rev, lower_lstrip, lower_rev.
Qed.

Lemma lower_lstrip_dots (s : string) :
  Py.lstrip_dots (Py.lower s) = Py.lower (Py.lstrip_dots s).
Proof.
  induction s as [|c s IH]; simpl; [done|].
  rewrite lower_char_dot. by destruct (Ascii.eqb c ".").
Qed.

Lemma lstrip_dots_idemp (s : string) :
  Py.lstrip_dots (Py.lstrip_dots s) = Py.lstrip_dots s.
Proof.
  induction s as [|c s IH]; simpl; [done|].
  destruct (Ascii.eqb c ".") eqn:Hc; [done|]. simpl. by rewrite Hc.
Qed.

Lemma split_commas_nonempty (s : string) : Py.split_commas s ≠ [].
Proof.
  induction s as [|c s IH]; simpl; [done|].
  destruct (Ascii.eqb c ","); [done|]. by destruct (Py.split_commas s).
Qed.

Lemma split_commas_app (a b : string) :
  Py.split_commas (a +:+ "," +:+ b) = (Py.split_commas a ++ Py.split_commas b)%list.
Proof.
  induction a as [|c a IH]; simpl; [done|].
  destruct (Ascii.eqb c ","); simpl; [by rewrite IH|].
  rewrite IH. pose proof (split_commas_nonempty a).
  by destruct (Py.split_commas a).
Qed.

(** The members of the parsed set, token by token. *)
Lemma elem_of_parse_exts (ext x : string) :
  x ∈ parse_exts ext ↔
  ∃ e, e ∈ Py.split_commas ext ∧ Py.strip e ≠ EmptyString
       ∧ x = Py.lstrip_dots (Py.lower (Py.strip e)).
Proof.
  unfold parse_exts. rewrite elem_of_list_to_set, list_elem_of_fmap.
  split.
  - intros (e & -> & [He Hin]%list_elem_of_filter). eauto.
  - intros (e & Hin & He & ->). exists e. split; [done|].
    by apply list_elem_of_filter.
Qed.

(** X1.  Every member of the set parsed from [--ext] is in normal form: it
    is lower-case and starts with no dot, so it is what [discover] computes
    from a suffix made of a dot and the member itself. *)
Theorem parse_exts_normal_form (ext x : string) :
  x ∈ parse_exts ext →
  Py.lower x = x ∧ Py.lstrip_dots x = x
  ∧ Py.lstrip_dots (Py.lower ("." +:+ x)) = x.
Proof.
  intros (e & _ & _ & ->)%elem_of_parse_exts.
  assert (Py.lower (Py.lstrip_dots (Py.lower (Py.strip e)))
          = Py.lstrip_dots (Py.lower (Py.strip e))) as Hlow
    by (by rewrite <- lower_lstrip_dots, lower_idemp).
  split_and!; [done|apply lstrip_dots_idemp|].
  change ("." +:+ ?s) with (String "." s). cbn [Py.lower Py.lstrip_dots].
  rewrite lower_char_dot. cbn. rewrite Hlow. apply lstrip_dots_idemp.
Qed.

(** X2.  The set parsed from [--ext] does not depend on the case of the
    argument. *)
Theorem parse_exts_ignores_case (ext : string) :
  parse_exts (Py.lower ext) = parse_exts ext.
Proof.
  apply set_eq. intros x. rewrite !elem_of_parse_exts. split.
  - intros (e & He & Hne & ->). rewrite lower_split_commas in He.
    apply list_elem_of_In, in_map_iff in He as (e0 & <- & He0%list_elem_of_In).
    exists e0. rewrite lower_strip in Hne. rewrite lower_empty in Hne.
    split_and!; [done|done|]. by rewrite lower_strip, lower_idemp.
  - intros (e & He & Hne & ->). exists (Py.lower e). split_and!.
    + rewrite lower_split_commas. apply list_elem_of_In, in_map, list_elem_of_In, He.
    + by rewrite lower_strip, lower_empty.
    + by rewrite lower_strip, lower_idemp.
Qed.

(** X3.  A comma joins two lists of extensions: the set parsed from
    [a,b] is the union of the sets parsed from [a] and from [b]. *)
Theorem parse_exts_union (a b : string) :
  parse_exts (a +:+ "," +:+ b) = parse_exts a ∪ parse_exts b.
Proof.
  unfold parse_exts. rewrite split_commas_app, filter_app, fmap_app.
  apply list_to_set_app_L.
Qed.

End Extensions.

(** ** Names, suffixes and destinations *)

Section Suffixes.

Lemma stem_nonempty (n : string) :
  n ≠ EmptyString → (Path.splitext n).1 ≠ EmptyString.
Proof.
  intros Hn. unfold Path.splitext.
  destruct (Py.rpartition_dot n) as [[a b]|]; [|done].
  destruct (bool_decide (a = EmptyString)) eqn:Ha; simpl; [done|].
  destruct (bool_decide (b = EmptyString)); simpl; [done|].
  by apply bool_decide_eq_false in Ha.
Qed.

(** The destination is the source path with the suffix of its name replaced
    by [".jpg"]. *)
Lemma with_suffix_jpg (p dst : path) :
  Path.with_suffix p ".jpg" = Ok dst ↔
  Path.name p ≠ EmptyString
  ∧ dst = (removelast p ++ [(Path.splitext (Path.name p)).1 +:+ ".jpg"])%list.
Proof.
  unfold Path.with_suffix. case_bool_decide as Hn; split.
  - discriminate.
  - by intros [? _].
  - intros [= <-]. done.
  - by intros [_ ->].
Qed.

Lemma rpartition_dot_none (s : string) :
  Py.rpartition_dot s = None ↔ has_dot s = false.
Proof.
  induction s as [|c s IH]; simpl; [done|].
  destruct (Py.rpartition_dot s) as [[a b]|].
  - split; [done|]. intros [_ H]%orb_false_iff. apply IH in H. done.
  - destruct (Ascii.eqb c "."); simpl; [done|]. split; [|done]. intros _. by apply IH.
Qed.

Lemma rpartition_dot_spec (s a b : string) :
  Py.rpartition_dot s = Some (a, b) →
  s = a +:+ String "." b ∧ has_dot b = false.
Proof.
  revert a b. induction s as [|c s IH]; intros a b; simpl; [done|].
  destruct (Py.rpartition_dot s) as [[a' b']|] eqn:Hs.
  - intros [= <- <-]. destruct (IH _ _ eq_refl) as [-> ?]. done.
  - destruct (Ascii.eqb c ".") eqn:Hc; [|done]. intros [= <- <-].
    apply Ascii.eqb_eq in Hc as ->. split; [done|]. by apply rpartition_dot_none.
Qed.

Lemma rpartition_dot_jpg (s : string) :
  Py.rpartition_dot (s +:+ ".jpg") = Some (s, "jpg").
Proof.
  induction s as [|c s IH]; [done|].
  change (String c s +:+ ".jpg") with (String c (s +:+ ".jpg")).
  cbn [Py.rpartition_dot]. by rewrite IH.
Qed.

Lemma append_empty_r (n : string) : n +:+ EmptyString = n.
Proof.
  induction n as [|c n IH]; [done|].
  change (String c n +:+ EmptyString) with (String c (n +:+ EmptyString)).
  by rewrite IH.
Qed.

(** The name is its stem followed by its suffix. *)
Lemma splitext_spec (n : string) :
  (Path.splitext n).1 +:+ (Path.splitext n).2 = n.
Proof.
  unfold Path.splitext.
  destruct (Py.rpartition_dot n) as [[a b]|] eqn:Hn; simpl.
  - destruct (bool_decide (a = EmptyString) || bool_decide (b = EmptyString)); simpl.
    + apply append_empty_r.
    + by apply rpartition_dot_spec in Hn as [-> _].
  - apply append_empty_r.
Qed.

Lemma splitext_jpg (s : string) :
  s ≠ EmptyString → Path.splitext (s +:+ ".jpg") = (s, ".jpg").
Proof.
  intros Hs. unfold Path.splitext. rewrite rpartition_dot_jpg.
  by rewrite bool_decide_false.
Qed.

Lemma name_snoc (l : path) (x : string) : Path.name (l ++ [x])%list = x.
Proof. unfold Path.name. by rewrite last_snoc. Qed.

Lemma path_snoc (p : path) :
  Path.name p ≠ EmptyString → p = (removelast p ++ [Path.name p])%list.
Proof.
  intros Hn. destruct p as [|x p _] using rev_ind; [done|].
  by rewrite name_snoc, removelast_last.
Qed.

(** A destination is its own destination, and its suffix is [".jpg"]. *)
Lemma with_suffix_idemp (p dst : path) :
  Path.with_suffix p ".jpg" = Ok dst →
  Path.with_suffix dst ".jpg" = Ok dst ∧ Path.suffix dst = ".jpg".
Proof.
  intros [Hn ->]%with_suffix_jpg. apply stem_nonempty in Hn.
  split.
  - apply with_suffix_jpg. rewrite name_snoc, removelast_last, splitext_jpg by done.
    split; [|done]. simpl. by destruct (Path.splitext (Path.name p)).1.
  - unfold Path.suffix. rewrite name_snoc, splitext_jpg by done. done.
Qed.

(** A path is its own destination exactly when its suffix is [".jpg"]. *)
Lemma with_suffix_self (p : path) :
  Path.with_suffix p ".jpg" = Ok p ↔ Path.suffix p = ".jpg".
Proof.
  split; [by intros [_ ?]%with_suffix_idemp|].
  intros Hsfx. unfold Path.suffix in Hsfx.
  assert (Path.name p ≠ EmptyString) as Hn.
  { intros Hn. rewrite Hn in Hsfx. done. }
  apply with_suffix_jpg. split; [done|].
  rewrite <- Hsfx, splitext_spec. by apply path_snoc.
Qed.

Lemma has_dot_lower (s : string) : has_dot (Py.lower s) = has_dot s.
Proof.
  induction s as [|c s IH]; simpl; [done|]. by rewrite lower_char_dot, IH.
Qed.

Lemma has_dot_lstrip_dots (s : string) :
  has_dot s = false → Py.lstrip_dots s = s.
Proof. destruct s as [|c s]; simpl; [done|]. by intros [-> _]%orb_false_iff. Qed.

(** The text [discover] looks up in the set of extensions is empty for the
    names without a suffix only. *)
Lemma suffix_key_empty (p : path) :
  Py.lstrip_dots (Py.lower (Path.suffix p)) = EmptyString ↔ Path.suffix p = EmptyString.
Proof.
  unfold Path.suffix, Path.splitext.
  destruct (Py.rpartition_dot (Path.name p)) as [[a b]|] eqn:Hn; simpl; [|done].
  destruct (bool_decide (a = EmptyString)); simpl; [done|].
  destruct (bool_decide (b = EmptyString)) eqn:Hb; simpl; [done|].
  apply rpartition_dot_spec in Hn as [_ Hdot]. apply bool_decide_eq_false in Hb.
  split; [|done]. intros H. exfalso. apply Hb.
  rewrite has_dot_lstrip_dots in H by (by rewrite has_dot_lower).
  by apply lower_empty.
Qed.

(** The text [discover] looks up in the set of extensions holds no dot. *)
Lemma suffix_key_no_dot (p : path) :
  has_dot (Py.lstrip_dots (Py.lower (Path.suffix p))) = false.
Proof.
  unfold Path.suffix, Path.splitext.
  destruct (Py.rpartition_dot (Path.name p)) as [[a b]|] eqn:Hn; simpl; [|done].
  destruct (bool_decide (a = EmptyString) || bool_decide (b = EmptyString));
    simpl; [done|].
  apply rpartition_dot_spec in Hn as [_ Hb].
  rewrite has_dot_lstrip_dots; by rewrite has_dot_lower.
Qed.

End Suffixes.

Section Convert.
Context `{E : Externals}.

Lemma heic_to_jpg_convert_spec src q del d :
  convert_spec false src del d (heic_to_jpg.convert src q del d).
Proof.
  unfold heic_to_jpg.convert, bind, lift, exists_, print, emit, ret.
  destruct (Path.with_suffix src ".jpg") as [dst|e] eqn:Hdst; [|by constructor].
  destruct (path_exists d dst) eqn:Hex; simpl.
  { eapply convert_skip; eauto. }
  convert_cases src dst d Hex.
Qed.

Lemma sanitize_convert_spec src q del d :
  convert_spec false src del d (sanitize_heic_to_jpg.convert src q del d).
Proof.
  unfold sanitize_heic_to_jpg.convert, bind, lift, exists_, print, emit, ret.
  destruct (Path.with_suffix src ".jpg") as [dst|e] eqn:Hdst; [|by constructor].
  destruct (path_exists d dst) eqn:Hex; simpl.
  { eapply convert_skip; eauto. }
  convert_cases src dst d Hex.
Qed.

Lemma convert_to_jpg_spec src q del d :
  convert_spec true src del d (heic_strip_and_convert_to_jpg.convert_to_jpg src q del d).
Proof.
  unfold heic_strip_and_convert_to_jpg.convert_to_jpg, bind, lift, exists_, print,
    emit, ret.
  destruct (Path.with_suffix src ".jpg") as [dst|e] eqn:Hdst; [|by constructor].
  destruct (path_exists d dst) eqn:Hex; simpl.
  { destruct del; simpl; [|by eapply convert_skip; eauto].
    unfold unlink. destruct (d !! src) as [[c|]|] eqn:Hsrc; simpl.
    - destruct (Path_unlink_error d src) as [e|] eqn:Hun; simpl.
      + by eapply convert_skip_refused.
      + by eapply convert_skip_unlink.
    - by eapply convert_skip_dir.
    - eapply convert_skip; eauto. }
  convert_cases src dst d Hex.
Qed.

Lemma convert_variant_spec on_skip f src q del d :
  convert_variant on_skip f → convert_spec on_skip src del d (f src q del d).
Proof.
  destruct 1; auto using heic_to_jpg_convert_spec, sanitize_convert_spec,
    convert_to_jpg_spec.
Qed.

(** C4 (deletion ordering).  In each convert function called with deletion
    enabled: whenever the source is unlinked, the destination [.jpg] is on
    disk at that moment (the disk is replayed from the events, and the replay
    agrees with the disk the call returns); and when the call raises, no
    unlink took place and the source is on the disk as it was.  When it
    raises with nothing written, as it does when decoding or encoding fails,
    the whole disk is as it was.  (A call can also raise after the output was
    written, when the system refuses the removal; the source and the output
    are then both on the disk.) *)
Theorem C4_unlink_only_after_output on_skip f src q d d' t r :
  convert_variant on_skip f →
  f src q true d = (d', t, r) →
  (∀ pre post, t = (pre ++ Unlink src :: post)%list →
     ∃ dst, Path.with_suffix src ".jpg" = Ok dst ∧ dst ∈ disk_after pre (dom d))
  ∧ dom d' = disk_after t (dom d)
  ∧ (∀ e, r = Raise e →
       (∀ p, Unlink p ∉ t) ∧ d' !! src = d !! src
       ∧ ((∀ p, Write p ∉ t) → d' = d)
       ∧ (∀ p, Write p ∈ t → is_Some (d' !! p) ∧ is_Some (d' !! src))).
Proof.
  intros Hf Hrun.
  pose proof (convert_variant_spec on_skip f src q true d Hf) as Hspec.
  rewrite Hrun in Hspec.
  inversion Hspec as [e He|dst Hdst Hex Hsk|dst c Hdst Hex Hos _ Hsrc Hun
                     |dst c e Hdst Hex Hos _ Hsrc Hun
                     |dst Hdst Hex Hos _ Hsrc|dst e t0 Hdst Hex Ht
                     |dst c c' Hdst Hex Hsrc Hun|dst c c' e Hdst Hex Hsrc _ Hun];
    subst; simpl.
  - split_and!; [intros pre post Hp; split_trace pre|done|].
    intros e' _. split_and!; [|done|done|]; intros p Hp; not_in_trace Hp.
  - split_and!; [intros pre post Hp; split_trace pre|done|done].
  - apply path_exists_true in Hex.
    split_and!.
    + intros pre post Hp. split_trace pre. exists dst. split; [done|].
      simpl. by apply elem_of_dom.
    + by rewrite dom_delete_L.
    + done.
  - split_and!; [intros pre post Hp; split_trace pre|done|].
    intros e' _. split_and!; [|done|done|]; intros p Hp; not_in_trace Hp.
  - split_and!; [intros pre post Hp; split_trace pre|done|].
    intros e' _. split_and!; [|done|done|]; intros p Hp; not_in_trace Hp.
  - split_and!.
    + intros pre post Hp. destruct Ht; subst; split_trace pre.
    + destruct Ht; by subst.
    + intros e' _. split_and!; [|done|done|];
        intros p Hp; destruct Ht; subst; not_in_trace Hp.
  - split_and!.
    + intros pre post Hp. split_trace pre. exists dst. split; [done|].
      simpl. apply elem_of_union. left. by apply elem_of_singleton.
    + rewrite dom_delete_L, dom_insert_L. done.
    + done.
  - apply path_exists_false in Hex.
    assert (dst ≠ src) as Hne by congruence.
    split_and!.
    + intros pre post Hp. split_trace pre.
    + by rewrite dom_insert_L.
    + intros e' _. split_and!.
      * intros p Hp. not_in_trace Hp.
      * by rewrite lookup_insert_ne.
      * intros Hnw. exfalso. apply (Hnw dst). by do 2 right; left.
      * intros p Hp.
        assert (p = dst) as ->.
        { repeat (apply elem_of_cons in Hp as [Hp|Hp];
                  [first [discriminate Hp | by injection Hp]|]).
          by apply elem_of_nil in Hp. }
        rewrite lookup_insert_eq, lookup_insert_ne, Hsrc by done. eauto.
Qed.

(** C6 (as amended).  In each convert function, when the destination path
    already exists the call opens no image, encodes nothing and writes
    nothing, its first line is the [[SKIP]] line, and every path other than
    the source is left as it was.  The destination is left as it was, with
    one exception: [convert_to_jpg] with deletion, called on a source that is
    its own destination (a source whose suffix is [".jpg"]), unlinks it after
    the [[SKIP]] line.  The two scripts that delete on request only change
    nothing at all.  After a call that returned normally, a second call on
    the same source prints [[SKIP]] and nothing else and leaves the disk as
    the first call left it, with the same exception: there the first call
    has removed the file, and the second one tries to open it and raises. *)
Theorem C6_existing_destination_is_skipped on_skip f src dst q del d :
  convert_variant on_skip f →
  Path.with_suffix src ".jpg" = Ok dst →
  (src = dst ↔ Path.suffix src = ".jpg")
  ∧ (is_Some (d !! dst) →
     ∃ d' t r, f src q del d = (d', t, r)
       ∧ head t = Some (Print stdout (skip_line dst))
       ∧ (∀ p, (Open p ∉ t) ∧ (Save p ∉ t) ∧ (Write p ∉ t))
       ∧ (∀ x, x ≠ src → d' !! x = d !! x)
       ∧ (d' !! dst = d !! dst
          ∨ (on_skip = true ∧ del = true ∧ src = dst
             ∧ d' !! dst = None ∧ t = [Print stdout (skip_line dst); Unlink dst]))
       ∧ (on_skip = false →
            d' = d ∧ t = [Print stdout (skip_line dst)] ∧ r = Ok tt))
  ∧ (∀ d1 t1,
       f src q del d = (d1, t1, Ok tt) →
       (¬ (on_skip = true ∧ del = true ∧ src = dst) →
        f src q del d1 = (d1, [Print stdout (skip_line dst)], Ok tt))
       ∧ (on_skip = true → del = true → src = dst →
          d1 = delete src d
          ∧ t1 = [Print stdout (skip_line dst); Unlink src]
          ∧ f src q del d1 = (d1, [Open src], Raise (errno2 src)))).
Proof.
  intros Hf Hdst. split_and!.
  - split.
    + intros ->. by apply with_suffix_self.
    + intros Hself%with_suffix_self. congruence.
  - intros Hsome. apply path_exists_true in Hsome.
    pose proof (convert_variant_spec on_skip f src q del d Hf) as Hspec.
    destruct (f src q del d) as [[d' t] r]. exists d', t, r. split; [done|].
    inversion Hspec; subst; same_dst Hdst; simpl; try congruence.
    + split_and!; try done; [absent_events|by left].
    + split_and!; try done.
      * absent_events.
      * intros x Hx. by rewrite lookup_delete_ne.
      * destruct (decide (src = dst)) as [->|Hne].
        -- right. split_and!; try done. apply lookup_delete_eq.
        -- left. by rewrite lookup_delete_ne.
    + split_and!; try done; [absent_events|by left].
    + split_and!; try done; [absent_events|by left].
  - intros d1 t1 Hrun.
    pose proof (convert_variant_spec on_skip f src q del d Hf) as Hspec.
    rewrite Hrun in Hspec. split.
    + intros Hne.
      pose proof (convert_variant_spec on_skip f src q del d1 Hf) as Hspec2.
      assert (path_exists d1 dst = true ∧ (on_skip && del = false ∨ d1 !! src = None))
        as [Hex1 Hsrc1].
      { inversion Hspec; subst; same_dst Hdst.
        - done.
        - split; [|right; apply lookup_delete_eq].
          apply path_exists_true. rewrite lookup_delete_ne by (by intros ->; apply Hne).
          by apply path_exists_true.
        - match goal with H : path_exists _ _ = false |- _ =>
            apply path_exists_false in H; rename H into Hno end.
          destruct del.
          + split; [|right; apply lookup_delete_eq].
            apply path_exists_true.
            rewrite lookup_delete_ne by congruence.
            by rewrite lookup_insert_eq.
          + split; [|left; apply andb_false_r].
            apply path_exists_true. by rewrite lookup_insert_eq. }
      destruct (f src q del d1) as [[d2 t2] r2].
      inversion Hspec2; subst; same_dst Hdst; try congruence;
        destruct Hsrc1; simpl in *; congruence.
    + intros -> -> <-.
      assert (d1 = delete src d ∧ t1 = [Print stdout (skip_line src); Unlink src])
        as [-> ->].
      { inversion Hspec as [|? ? Hex [Hsk|Hsk]|? ? ? Hex| | | |? ? ? ? Hex Hsrc|];
          subst; same_dst Hdst.
        - discriminate Hsk.
        - apply path_exists_true in Hex as [? ?]. congruence.
        - done.
        - apply path_exists_false in Hex. congruence. }
      split_and!; [done..|].
      inversion Hf; subst.
      unfold heic_strip_and_convert_to_jpg.convert_to_jpg, bind, lift, exists_.
      rewrite Hdst. unfold path_exists, Image_open_path.
      by rewrite !lookup_delete_eq.
Qed.

End Convert.



(** ** The loops: what is counted *)

Section Loops.
Context `{E : Externals}.

Lemma for_discovered_nil {S} exts (body : path → S → M S) acc d :
  for_discovered exts [] body acc d = (d, [], Ok acc).
Proof. done. Qed.

(** One turn of [for p in discover(...)]. *)
Lemma for_discovered_cons {S} exts p rest (body : path → S → M S) acc d :
  for_discovered exts (p :: rest) body acc d =
    match Path_is_file_error d p with
    | Some e => (d, [], Raise e)
    | None =>
        if accepts exts d p then
          match body p acc d with
          | (d1, t1, Ok acc1) =>
              match for_discovered exts rest body acc1 d1 with
              | (d2, t2, r) => (d2, Yield p :: (t1 ++ t2)%list, r)
              end
          | (d1, t1, Raise e) => (d1, Yield p :: t1, Raise e)
          end
        else for_discovered exts rest body acc d
    end.
Proof.
  unfold for_discovered. cbn [for_each].
  unfold bind at 1. unfold bind at 1. unfold discover_test.
  destruct (Path_is_file_error d p) as [e0|]; [done|]. cbn beta iota.
  destruct (accepts exts d p).
  - unfold bind at 1. unfold emit. cbn beta iota.
    destruct (body p acc d) as [[d1 t1] [acc1|e]]; cbn beta iota.
    + match goal with
      | |- context [for_each rest ?b acc1 d1] =>
          destruct (for_each rest b acc1 d1) as [[d2 t2] r]
      end. done.
    + done.
  - unfold ret at 1. cbn beta iota.
    match goal with
    | |- context [for_each rest ?b acc d] =>
        destruct (for_each rest b acc d) as [[d2 t2] r]
    end. done.
Qed.

(** An invariant of the disk and of the events so far that every turn of
    [for p in discover(...)] keeps holds when the loop ends, however it
    ends. *)
Lemma for_discovered_invariant {S : Type}
    (I : gmap path (node content) → list event → Prop)
    (exts : gset string) (body : path → S → M S) (entries : list path) :
  (∀ p acc d T, p ∈ entries → I d T → Path_is_file_error d p = None →
     accepts exts d p = true →
     I (body p acc d).1.1 (T ++ Yield p :: (body p acc d).1.2)%list) →
  ∀ acc d T, I d T →
    I (for_discovered exts entries body acc d).1.1
      (T ++ (for_discovered exts entries body acc d).1.2)%list.
Proof.
  induction entries as [|p rest IH]; intros Hbody acc d T HI.
  - rewrite for_discovered_nil. simpl. by rewrite app_nil_r.
  - rewrite for_discovered_cons.
    assert (∀ p0 acc0 d0 T0, p0 ∈ rest → I d0 T0 →
              Path_is_file_error d0 p0 = None → accepts exts d0 p0 = true →
              I (body p0 acc0 d0).1.1 (T0 ++ Yield p0 :: (body p0 acc0 d0).1.2)%list)
      as Hrest by (intros ? ? ? ? ?; apply Hbody; by right).
    destruct (Path_is_file_error d p) as [e0|] eqn:Hstat.
    { simpl. by rewrite app_nil_r. }
    destruct (accepts exts d p) eqn:Hacc; [|by apply IH].
    pose proof (Hbody p acc d T (list_elem_of_here _ _) HI Hstat Hacc) as Hturn.
    destruct (body p acc d) as [[d1 t1] [acc1|e]]; simpl in *; [|done].
    pose proof (IH Hrest acc1 d1 _ Hturn) as Hend.
    destruct (for_discovered exts rest body acc1 d1) as [[d2 t2] r]. simpl in *.
    by rewrite <- app_assoc in Hend.
Qed.

(** The same for [for f in files]. *)
Lemma for_each_invariant {S : Type}
    (I : gmap path (node content) → list event → Prop)
    (body : path → S → M S) (files : list path) :
  (∀ p acc d T, p ∈ files → I d T →
     I (body p acc d).1.1 (T ++ (body p acc d).1.2)%list) →
  ∀ acc d T, I d T →
    I (for_each files body acc d).1.1 (T ++ (for_each files body acc d).1.2)%list.
Proof.
  induction files as [|p rest IH]; intros Hbody acc d T HI.
  - simpl. by rewrite app_nil_r.
  - simpl. unfold bind.
    assert (∀ p0 acc0 d0 T0, p0 ∈ rest → I d0 T0 →
              I (body p0 acc0 d0).1.1 (T0 ++ (body p0 acc0 d0).1.2)%list)
      as Hrest by (intros ? ? ? ? ?; apply Hbody; by right).
    pose proof (Hbody p acc d T (list_elem_of_here _ _) HI) as Hturn.
    destruct (body p acc d) as [[d1 t1] [acc1|e]]; simpl in *; [|done].
    pose proof (IH Hrest acc1 d1 _ Hturn) as Hend.
    destruct (for_each rest body acc1 d1) as [[d2 t2] r]. simpl in *.
    by rewrite <- app_assoc in Hend.
Qed.

Lemma for_discovered_tally granted exts (body : path → nat → M nat) :
  (∀ p n d, accepts exts d p = true → tallied granted n (body p n d)) →
  ∀ entries n d d' t m,
    for_discovered exts entries body n d = (d', t, Ok m) →
    summaries t = 0%nat ∧ (m + errors t = n + yields t)%nat
    ∧ (m ≤ n + oks t + skips t)%nat
    ∧ (granted → m = n + oks t + skips t)%nat.
Proof.
  intros Hbody. induction entries as [|p rest IH]; intros n d d' t m Hrun.
  - rewrite for_discovered_nil in Hrun. simplify_eq. split_and!; try done.
    all: unfold errors, yields, oks, skips, count; simpl; lia.
  - rewrite for_discovered_cons in Hrun.
    destruct (Path_is_file_error d p) as [e0|]; [done|].
    destruct (accepts exts d p) eqn:Hacc; [|by eapply IH].
    pose proof (Hbody p n d Hacc) as (Hy & Hs & Hm).
    destruct (body p n d) as [[d1 t1] [n1|e]]; [|done]. simpl in *.
    destruct (for_discovered exts rest body n1 d1) as [[d2 t2] r] eqn:Hrest.
    simplify_eq.
    destruct (IH _ _ _ _ _ Hrest) as (Hs2 & He2 & Hle2 & Ho2).
    destruct (Hm _ eq_refl) as (He1 & Hle1 & Ho1).
    change (Yield p :: (t1 ++ t2)%list) with ([Yield p] ++ (t1 ++ t2))%list.
    unfold summaries, errors, yields, oks, skips in *.
    rewrite !count_app. simpl. unfold count in *. simpl.
    split_and!; [lia|lia|lia|]. intros G. specialize (Ho1 G). specialize (Ho2 G). lia.
Qed.

(** The body of the loop of heic_to_jpg.py and of sanitize_heic_to_jpg.py:
    the counter moves when [convert] returns, an error line is printed when
    it raises, and nothing propagates. *)
Lemma heic_to_jpg_loop_body args src n d :
  heic_to_jpg.loop_body args src n d =
    match heic_to_jpg.convert src (heic_to_jpg.quality args) (heic_to_jpg.delete args) d with
    | (d1, t1, Ok _) => (d1, t1, Ok (S n))
    | (d1, t1, Raise e) =>
        (d1, (t1 ++ [Print stderr (error_line (Path.name src) (exn_str e))])%list, Ok n)
    end.
Proof.
  unfold heic_to_jpg.loop_body, try_except, bind, ret, print, emit.
  destruct (heic_to_jpg.convert _ _ _ d) as [[d1 t1] [[]|e]]; simpl;
    by rewrite ?app_nil_r.
Qed.

Lemma sanitize_loop_body args src n d :
  sanitize_heic_to_jpg.loop_body args src n d =
    match sanitize_heic_to_jpg.convert src (sanitize_heic_to_jpg.quality args)
            (sanitize_heic_to_jpg.delete args) d with
    | (d1, t1, Ok _) => (d1, t1, Ok (S n))
    | (d1, t1, Raise e) =>
        (d1, (t1 ++ [Print stderr (error_line (Path.name src) (exn_str e))])%list, Ok n)
    end.
Proof.
  unfold sanitize_heic_to_jpg.loop_body, try_except, bind, ret, print, emit.
  destruct (sanitize_heic_to_jpg.convert _ _ _ d) as [[d1 t1] [[]|e]]; simpl;
    by rewrite ?app_nil_r.
Qed.

(** The lines of one call of a convert function on a regular file: one
    [[OK]] or [[SKIP]] line when it returns; none when it raises, unless what
    raises is the removal of the original, refused after that line. *)
Lemma convert_tally on_skip f src q del d d1 t1 r1 :
  convert_variant on_skip f →
  is_file d src = true →
  f src q del d = (d1, t1, r1) →
  yields t1 = 0%nat ∧ summaries t1 = 0%nat ∧ errors t1 = 0%nat
  ∧ (oks t1 + skips t1 ≤ 1)%nat
  ∧ (∀ u, r1 = Ok u → (oks t1 + skips t1 = 1)%nat)
  ∧ (del = false ∨ (∀ d p, Path_unlink_error d p = None) →
     ∀ e, r1 = Raise e → (oks t1 + skips t1 = 0)%nat).
Proof.
  intros Hf Hfile Hrun.
  pose proof (convert_variant_spec on_skip f src q del d Hf) as Hspec.
  rewrite Hrun in Hspec. unfold is_file in Hfile.
  inversion Hspec as [| | |? ? ? ? ? ? ? ? Hun|? ? ? ? ? H3|? ? ? ? ? Ht| |? ? ? ? ? ? ? ? Hun];
    subst; try (destruct Ht; subst); try destruct del;
    try (split_and!; [by vm_compute|by vm_compute|by vm_compute|vm_compute; lia
                     |intros u Hu; first [discriminate Hu | by vm_compute]
                     |intros Hg e' He';
                      first [discriminate He' | by vm_compute
                            | by (destruct Hg as [Hg|Hg];
                                  [discriminate Hg
                                  |rewrite Hg in Hun; discriminate Hun])]]).
  all: by rewrite H3 in Hfile.
Qed.

Lemma strip_and_convert_loop_body args p n d :
  heic_strip_and_convert_to_jpg.loop_body args p n d =
    match heic_strip_and_convert_to_jpg.strip_all_metadata p d with
    | (d1, t1, Raise e) => strip_and_convert_handled (Path.name p) n d1 t1 e
    | (d1, t1, Ok _) =>
        match heic_strip_and_convert_to_jpg.convert_to_jpg p
                (heic_strip_and_convert_to_jpg.quality args)
                (negb (heic_strip_and_convert_to_jpg.keep args)) d1 with
        | (d2, t2, Ok _) => (d2, (t1 ++ t2)%list, Ok (S n))
        | (d2, t2, Raise e) =>
            strip_and_convert_handled (Path.name p) n d2 (t1 ++ t2)%list e
        end
    end.
Proof.
  unfold heic_strip_and_convert_to_jpg.loop_body, try_except.
  unfold bind at 1.
  destruct (heic_strip_and_convert_to_jpg.strip_all_metadata p d)
    as [[d1 t1] [[]|e]].
  - unfold bind at 1.
    destruct (heic_strip_and_convert_to_jpg.convert_to_jpg _ _ _ d1)
      as [[d2 t2] [[]|e]]; simpl.
    + by rewrite app_nil_r.
    + unfold strip_and_convert_handled.
      destruct e as [m err|m]; simpl; [destruct (Py.decode err)|];
        unfold bind, print, emit, ret, raise; simpl; by rewrite ?app_nil_r.
  - unfold strip_and_convert_handled.
    destruct e as [m err|m]; simpl; [destruct (Py.decode err)|];
      unfold bind, print, emit, ret, raise; simpl; by rewrite ?app_nil_r.
Qed.

Lemma strip_loop_body args f n d :
  strip_heic_metadata.loop_body args f n d =
    match strip_heic_metadata.strip_metadata f (strip_heic_metadata.keep_datetimes args) d with
    | (d1, t1, Ok _) =>
        match Path.relative_to f (strip_heic_metadata.directory args) with
        | Some rel =>
            (d1, (t1 ++ [Print stdout ("[OK] Stripped metadata from " +:+ Path.str rel)])%list,
             Ok (S n))
        | None =>
            (d1, t1,
             Raise (Exception ("'" +:+ Path.str f +:+ "' is not in the subpath of '" +:+
                               Path.str (strip_heic_metadata.directory args) +:+ "'")))
        end
    | (d1, t1, Raise (CalledProcessError m err)) =>
        (d1, (t1 ++ [Print stderr (error_line (Path.str f) (Py.strip (Py.decode_ignore err)))])%list,
         Ok n)
    | (d1, t1, Raise (Exception m)) => (d1, t1, Raise (Exception m))
    end.
Proof.
  unfold strip_heic_metadata.loop_body, try_except.
  unfold bind at 1.
  destruct (strip_heic_metadata.strip_metadata f _ d) as [[d1 t1] [[]|e]].
  - destruct (Path.relative_to f (strip_heic_metadata.directory args));
      unfold bind, print, emit, ret, raise; simpl; by rewrite ?app_nil_r.
  - destruct e as [m err|m]; unfold bind, print, emit, ret, raise; simpl;
      by rewrite ?app_nil_r.
Qed.

(** ExifTool is run once, on the file, and leaves a regular file there. *)
Lemma subprocess_run_file argv p d c :
  d !! p = Some (File c) →
  subprocess_run argv p d =
    (<[p := File (exiftool argv c).1]> d, [SubprocessRun argv],
     match (exiftool argv c).2 with Some e => Raise e | None => Ok tt end).
Proof. intros H. unfold subprocess_run. by rewrite H. Qed.

Lemma handled_tally granted who n d t e :
  yields t = 0%nat → summaries t = 0%nat → errors t = 0%nat →
  (granted → oks t + skips t = 0)%nat →
  tallied granted n (strip_and_convert_handled who n d t e).
Proof.
  intros Hy Hs He Hos. unfold strip_and_convert_handled.
  destruct e as [m err|m]; [destruct (Py.decode err)|]; tally.
  all: split_and!; try lia; try done.
  all: intros k [= <-]; split_and!; [lia..|]; intros G; specialize (Hos G); lia.
Qed.

(** Each turn of the loop of a converting script counts the file or prints
    one error line for it. *)
Lemma loop_body_tally s a exts p n d :
  converts s = true →
  accepts exts d p = true →
  tallied (removals_granted s a) n (loop_body s a p n d).
Proof.
  intros Hs Hacc. apply accepts_is_file in Hacc.
  destruct s; try discriminate Hs; simpl.
  - rewrite heic_to_jpg_loop_body.
    destruct (heic_to_jpg.convert _ _ _ d) as [[d1 t1] r1] eqn:Hrun.
    destruct (convert_tally _ _ _ _ _ _ _ _ _ variant_heic_to_jpg Hacc Hrun)
      as (Hy & Hsm & He & Hle & Hok & Hraise).
    destruct r1 as [[]|e].
    + specialize (Hok _ eq_refl). tally.
      (split_and!; [lia..|]); intros k [= <-]; split_and!; lia.
    + tally. (split_and!; [lia..|]); intros k [= <-]; split_and!; [lia..|].
      intros G. specialize (Hraise G _ eq_refl). tally. lia.
  - rewrite sanitize_loop_body.
    destruct (sanitize_heic_to_jpg.convert _ _ _ d) as [[d1 t1] r1] eqn:Hrun.
    destruct (convert_tally _ _ _ _ _ _ _ _ _ variant_sanitize Hacc Hrun)
      as (Hy & Hsm & He & Hle & Hok & Hraise).
    destruct r1 as [[]|e].
    + specialize (Hok _ eq_refl). tally.
      (split_and!; [lia..|]); intros k [= <-]; split_and!; lia.
    + tally. (split_and!; [lia..|]); intros k [= <-]; split_and!; [lia..|].
      intros G. specialize (Hraise G _ eq_refl). tally. lia.
  - rewrite strip_and_convert_loop_body.
    apply is_file_true in Hacc as [c Hc].
    unfold heic_strip_and_convert_to_jpg.strip_all_metadata.
    rewrite (subprocess_run_file _ _ _ _ Hc).
    destruct (exiftool _ c).2 as [e|].
    { apply handled_tally; by vm_compute. }
    match goal with
    | |- context [heic_strip_and_convert_to_jpg.convert_to_jpg p ?q ?dl ?d1] =>
        destruct (heic_strip_and_convert_to_jpg.convert_to_jpg p q dl d1)
          as [[d2 t2] r2] eqn:Hrun;
        assert (is_file d1 p = true) as Hfile
          by (apply is_file_true; eexists; apply lookup_insert_eq);
        destruct (convert_tally _ _ _ _ _ _ _ _ _ variant_strip_and_convert Hfile Hrun)
          as (Hy & Hsm & He & Hle & Hok & Hraise)
    end.
    destruct r2 as [[]|e].
    + specialize (Hok _ eq_refl). tally.
      (split_and!; [lia..|]); intros k [= <-]; split_and!; lia.
    + apply handled_tally; try (tally; lia).
      intros G. specialize (Hraise G _ eq_refl). tally. lia.
Qed.

Lemma subprocess_run_trace argv p d :
  ∃ d1 r, subprocess_run argv p d = (d1, [SubprocessRun argv], r).
Proof. unfold subprocess_run. destruct (d !! p) as [[c|]|]; eauto. Qed.

Lemma strip_loop_body_tally granted args f n d :
  tallied granted n (strip_heic_metadata.loop_body args f n d).
Proof.
  rewrite strip_loop_body. unfold strip_heic_metadata.strip_metadata.
  match goal with
  | |- context [subprocess_run ?argv f d] =>
      destruct (subprocess_run_trace argv f d) as (d1 & r & ->)
  end.
  destruct r as [[]|[m err|m]];
    [destruct (Path.relative_to f (strip_heic_metadata.directory args))|..];
    tally; (split_and!; [lia..|]); try done; intros k [= <-]; split_and!; lia.
Qed.

(** [for f in files] with a body that counts or prints an error line. *)
Lemma for_each_tally granted (body : path → nat → M nat) :
  (∀ p n d, tallied granted n (body p n d)) →
  ∀ files n d d' t m,
    for_each files body n d = (d', t, Ok m) →
    summaries t = 0%nat ∧ yields t = 0%nat
    ∧ (m + errors t = n + length files)%nat
    ∧ (m ≤ n + oks t + skips t)%nat
    ∧ (granted → m = n + oks t + skips t)%nat.
Proof.
  intros Hbody. induction files as [|p rest IH]; intros n d d' t m Hrun.
  - simpl in Hrun. unfold ret in Hrun. simplify_eq. tally. lia.
  - simpl in Hrun. unfold bind in Hrun.
    pose proof (Hbody p n d) as (Hy & Hs & Hm).
    destruct (body p n d) as [[d1 t1] [n1|e]]; [|done]. simpl in *.
    destruct (for_each rest body n1 d1) as [[d2 t2] r] eqn:Hrest.
    simplify_eq.
    destruct (IH _ _ _ _ _ Hrest) as (Hs2 & Hy2 & He2 & Hle2 & Ho2).
    destruct (Hm _ eq_refl) as (He1 & Hle1 & Ho1).
    tally. split_and!; [lia..|].
    intros G. specialize (Ho1 G). specialize (Ho2 G). lia.
Qed.

(** [list(discover(...))]: the files accepted on the disk as it is; the disk
    does not change while they are collected. *)
Lemma discover_list (exts : gset string) (entries acc : list path)
    (d d' : gmap path (node content)) t files :
  for_discovered exts entries (λ p acc, ret (acc ++ [p])%list) acc d
    = (d', t, Ok files) →
  d' = d ∧ t = List.map Yield (List.filter (accepts exts d) entries)
  ∧ files = (acc ++ List.filter (accepts exts d) entries)%list.
Proof.
  revert acc t. induction entries as [|p rest IH]; intros acc t Hrun.
  - rewrite for_discovered_nil in Hrun. simplify_eq. simpl.
    by rewrite app_nil_r.
  - rewrite for_discovered_cons in Hrun. simpl.
    destruct (Path_is_file_error d p) as [e0|]; [done|].
    destruct (accepts exts d p); [|by apply IH].
    unfold ret at 1 in Hrun. cbn beta iota in Hrun.
    destruct (for_discovered exts rest _ (acc ++ [p])%list d)
      as [[d2 t2] r] eqn:Hrest.
    simplify_eq. apply IH in Hrest as (-> & -> & ->).
    simpl. by rewrite <- app_assoc.
Qed.

Lemma yields_fmap (l : list path) : yields (List.map Yield l) = length l.
Proof. induction l as [|p l IH]; [done|]. simpl. tally. lia. Qed.

Lemma tallies_yields (l : list path) :
  summaries (List.map Yield l) = 0%nat ∧ errors (List.map Yield l) = 0%nat ∧
  oks (List.map Yield l) = 0%nat ∧ skips (List.map Yield l) = 0%nat.
Proof. induction l as [|p l IH]; [done|]. simpl. tally. lia. Qed.

(** The summary line is no per-file line. *)
Lemma summary_tally s n :
  oks [Print stdout (summary s n)] = 0%nat ∧ skips [Print stdout (summary s n)] = 0%nat
  ∧ errors [Print stdout (summary s n)] = 0%nat
  ∧ yields [Print stdout (summary s n)] = 0%nat
  ∧ summaries [Print stdout (summary s n)] = 1%nat.
Proof.
  destruct s; unfold summary, heic_to_jpg.summary, sanitize_heic_to_jpg.summary,
    heic_strip_and_convert_to_jpg.summary, strip_heic_metadata.summary;
    try destruct (n =? 0)%nat; by vm_compute.
Qed.

(** The run of a converting script that reaches the end of [main]. *)
Lemma converting_run s a d d' t :
  converts s = true →
  run s a d = (d', t, Finished) →
  ∃ entries tl n,
    scanned a d = Ok entries
    ∧ for_discovered (parse_exts (cl_ext a)) entries (loop_body s a) 0%nat d
      = (d', tl, Ok n)
    ∧ t = (Scan (cl_directory a) (cl_recursive a) :: tl ++
           [Print stdout (summary s n)])%list.
Proof.
  intros Hs Hrun. unfold scanned.
  destruct s; try discriminate Hs; simpl in Hrun;
    unfold heic_to_jpg.main, sanitize_heic_to_jpg.main,
      heic_strip_and_convert_to_jpg.main in Hrun;
    simpl in Hrun;
    (destruct (path_exists d (cl_directory a)); simpl in Hrun; [|discriminate]);
    (destruct ((1 <=? cl_quality a) && (cl_quality a <=? 100));
     simpl in Hrun; [|discriminate]);
    try (destruct heic_strip_and_convert_to_jpg.exiftool_available;
         simpl in Hrun; [|discriminate]);
    (destruct (size (parse_exts (cl_ext a)) =? 0)%nat; [discriminate|]);
    unfold finish in Hrun; unfold bind at 1 in Hrun;
    unfold discover_iterator, bind, emit in Hrun; simpl in Hrun;
    (destruct (if cl_recursive a then Path_rglob d (cl_directory a)
               else Path_iterdir d (cl_directory a)) as [entries|e];
     simpl in Hrun; [|discriminate]);
    exists entries;
    (destruct (for_discovered _ entries _ 0%nat d) as [[d1 t1] [n|e]];
     simpl in Hrun; [|discriminate]);
    unfold print, emit in Hrun; simpl in Hrun; simplify_eq;
    by exists t1, n.
Qed.

(** The run of strip_heic_metadata.py that reaches the end of [main]. *)
Lemma stripping_run a d d' t :
  run strip_heic_metadata_py a d = (d', t, Finished) →
  ∃ entries,
    scanned a d = Ok entries ∧
    let files := List.filter (accepts (parse_exts (cl_ext a)) d) entries in
    (files = [] ∧
     t = [Scan (cl_directory a) (cl_recursive a);
          Print stdout (strip_heic_metadata.no_files (parse_exts (cl_ext a))
                          (strip_args a))])
    ∨ (files ≠ [] ∧ ∃ tl n,
         for_each files (loop_body strip_heic_metadata_py a) 0%nat d = (d', tl, Ok n)
         ∧ t = (Scan (cl_directory a) (cl_recursive a) :: List.map Yield files ++ tl ++
                [Print stdout (summary strip_heic_metadata_py n)])%list).
Proof.
  intros Hrun. unfold scanned. simpl in Hrun.
  unfold strip_heic_metadata.main in Hrun. simpl in Hrun.
  destruct (path_exists d (cl_directory a)); simpl in Hrun; [|discriminate].
  destruct strip_heic_metadata.exiftool_available; simpl in Hrun; [|discriminate].
  destruct (size (parse_exts (cl_ext a)) =? 0)%nat; [discriminate|].
  unfold finish in Hrun. unfold bind at 1 in Hrun.
  unfold discover_iterator, bind, emit in Hrun. simpl in Hrun.
  destruct (if cl_recursive a then Path_rglob d (cl_directory a)
            else Path_iterdir d (cl_directory a)) as [entries|e];
    simpl in Hrun; [|discriminate].
  exists entries. split; [done|].
  destruct (for_discovered (parse_exts (cl_ext a)) entries
              (λ p acc, ret (acc ++ [p])%list) [] d) as [[d0 t0] [found|e]]
    eqn:Hfound; simpl in Hrun; [|discriminate].
  apply discover_list in Hfound as (-> & -> & ->). simpl in Hrun.
  destruct (List.filter (accepts (parse_exts (cl_ext a)) d) entries)
    as [|f files] eqn:Hfiles.
  - simpl in Hrun. unfold print, emit in Hrun. simpl in Hrun. simplify_eq.
    by left.
  - destruct (for_each (f :: files) (strip_heic_metadata.loop_body (strip_args a))
                0%nat d) as [[d1 t1] [n|e]] eqn:Hloop; simpl in Hrun;
      [|discriminate].
    unfold print, emit in Hrun. simpl in Hrun. simplify_eq.
    right. split; [done|]. exists t1, n. split; [done|].
    simpl. by rewrite app_assoc.
Qed.

(** A run that reaches the end of [main]: the events before the last line,
    and what the last line reports. *)
Lemma run_finished s a d d' t :
  run s a d = (d', t, Finished) →
  ∃ pre, summaries pre = 0%nat ∧
    ((s = strip_heic_metadata_py ∧ yields pre = 0%nat ∧ errors pre = 0%nat
      ∧ oks pre = 0%nat ∧ skips pre = 0%nat
      ∧ t = (pre ++ [Print stdout
                       (strip_heic_metadata.no_files (parse_exts (cl_ext a))
                          (strip_args a))])%list)
     ∨ (∃ n, (s = strip_heic_metadata_py → (0 < yields pre)%nat)
             ∧ t = (pre ++ [Print stdout (summary s n)])%list
             ∧ (n + errors pre = yields pre)%nat
             ∧ (n ≤ oks pre + skips pre)%nat
             ∧ (removals_granted s a → n = oks pre + skips pre)%nat)).
Proof.
  intros Hrun. destruct (converts s) eqn:Hs.
  - destruct (converting_run s a d d' t Hs Hrun) as (entries & tl & n & _ & Hloop & ->).
    destruct (for_discovered_tally (removals_granted s a) (parse_exts (cl_ext a))
                (loop_body s a)
                (λ p n d Hacc, loop_body_tally s a _ p n d Hs Hacc)
                _ _ _ _ _ _ Hloop) as (Hsm & He & Hle & Ho).
    exists (Scan (cl_directory a) (cl_recursive a) :: tl).
    split; [tally; lia|]. right. exists n.
    split_and!; [by destruct s|done|tally; lia|tally; lia|].
    intros G. specialize (Ho G). tally. lia.
  - destruct s; try discriminate Hs.
    destruct (stripping_run a d d' t Hrun) as (entries & _ & [[Hnil ->]|[Hne Hfiles]]).
    + exists [Scan (cl_directory a) (cl_recursive a)].
      split; [done|]. left. by split_and!.
    + destruct Hfiles as (tl & n & Hloop & ->).
      destruct (for_each_tally (removals_granted strip_heic_metadata_py a) _
                  (strip_loop_body_tally _ (strip_args a))
                  _ _ _ _ _ _ Hloop) as (Hsm & Hy & He & Hle & Ho).
      set (files := List.filter (accepts (parse_exts (cl_ext a)) d) entries) in *.
      pose proof (tallies_yields files) as (Hs' & He' & Ho' & Hk').
      pose proof (yields_fmap files) as Hy'.
      exists (Scan (cl_directory a) (cl_recursive a) :: List.map Yield files ++ tl)%list.
      assert (0 < length files)%nat by (destruct files; [done|simpl; lia]).
      split; [tally; lia|]. right. exists n.
      split_and!; [intros _; tally; lia| |tally; lia|tally; lia|].
      * simpl. by rewrite <- app_assoc.
      * intros G. specialize (Ho G). tally. lia.
Qed.

Lemma plural_shape (n : nat) :
  " file" +:+ plural n +:+ "." = if (n =? 1)%nat then " file." else " files.".
Proof.
  unfold plural. destruct (n =? 1)%nat eqn:Hn.
  - apply Nat.eqb_eq in Hn. subst. done.
  - apply Nat.eqb_neq in Hn. by rewrite bool_decide_true.
Qed.

(** C1 (as amended).  In a run of any of the four scripts that reaches the
    end of [main], the number [n] in the last line counts the discovered
    files whose turn of the loop did not end in an [[ERROR]] line: [n] plus
    the number of [[ERROR]] lines is the number of files discovered.  Every
    counted file has printed its [[OK]] or [[SKIP]] line, a skipped file
    being counted like a converted one, so [n] is at most the number of
    [[OK]] lines plus the number of [[SKIP]] lines; and it is that number
    when no removal of an original is refused in the run (none is asked for,
    or the system refuses none): a file whose removal is refused has its
    [[OK]] or [[SKIP]] line, then an [[ERROR]] line, and is not counted.
    (When strip_heic_metadata.py discovers no file it prints no count.) *)
Theorem C1_counter_counts_ok_and_skip s a d d' t :
  run s a d = (d', t, Finished) →
  (s = strip_heic_metadata_py ∧ yields t = 0%nat
   ∧ last t = Some (Print stdout
                      (strip_heic_metadata.no_files (parse_exts (cl_ext a))
                         (strip_args a))))
  ∨ ∃ n, last t = Some (Print stdout (summary s n))
         ∧ (n + errors t = yields t)%nat
         ∧ (n ≤ oks t + skips t)%nat
         ∧ (removals_granted s a → n = oks t + skips t)%nat.
Proof.
  intros Hrun.
  destruct (run_finished s a d d' t Hrun) as (pre & Hsm & [Hnone|Hsome]).
  - destruct Hnone as (-> & Hy & He & Ho & Hk & ->). left.
    split_and!; [done| |by rewrite last_snoc].
    tally. lia.
  - destruct Hsome as (n & _ & -> & He & Hle & Ho). right. exists n.
    destruct (summary_tally s n) as (Ho' & Hk' & He' & Hy' & _).
    split_and!; [by rewrite last_snoc| | |].
    + unfold errors, yields in *. rewrite !count_app. lia.
    + unfold oks, skips in *. rewrite !count_app. lia.
    + intros G. specialize (Ho G). unfold oks, skips in *. rewrite !count_app. lia.
Qed.

(** C2 (as amended).  A run that reaches the end of [main] prints exactly
    one closing line, and it is its last line.  The three converting scripts
    have two shapes: the "No matching files" line when the count is 0, whether
    or not files were discovered, and "Done. ... N file(s)." with "file" for
    N = 1 and "files" otherwise.  strip_heic_metadata.py has two shapes as
    well: the "No files with extensions ... found" line when no file was
    discovered, and "Done. Processed N file(s)." otherwise, also for N = 0.
    N is the counter: the number of files discovered less the number of
    [[ERROR]] lines. *)
Theorem C2_summary_has_two_shapes s a d d' t :
  run s a d = (d', t, Finished) →
  ∃ pre line n,
    t = (pre ++ [Print stdout line])%list ∧ summaries pre = 0%nat
    ∧ summaries t = 1%nat
    ∧ (n + errors pre = yields pre)%nat ∧
    let files := if (n =? 1)%nat then " file." else " files." in
    line =
      match s with
      | heic_to_jpg_py | sanitize_heic_to_jpg_py =>
          if (n =? 0)%nat then "No matching files converted (review [ERROR] lines)."
          else "Done. Converted " +:+ pretty n +:+ files
      | heic_strip_and_convert_to_jpg_py =>
          if (n =? 0)%nat
          then "No matching files processed — check [ERROR] messages above."
          else "Done. Processed " +:+ pretty n +:+ files
      | strip_heic_metadata_py =>
          if (yields pre =? 0)%nat
          then "No files with extensions " +:+
               Py.join ", " (Py.sorted (elements (parse_exts (cl_ext a)))) +:+
               " found in " +:+ Path.str (cl_directory a) +:+
               " (recursive=" +:+ Py.str_bool (cl_recursive a) +:+ ")."
          else "Done. Processed " +:+ pretty n +:+ files
      end.
Proof.
  intros Hrun.
  destruct (run_finished s a d d' t Hrun) as (pre & Hsm & [Hnone|Hsome]).
  - destruct Hnone as (-> & Hy & He & Ho & Hk & ->).
    eexists pre, _, 0%nat. split; [done|]. split; [done|]. split.
    { unfold summaries in *. rewrite !count_app.
      change (count (is_line stdout "Done.") [Print stdout ?l]) with
        (if String.prefix "Done." l then 1 else 0)%nat.
      change (count (is_line stdout "No ") [Print stdout ?l]) with
        (if String.prefix "No " l then 1 else 0)%nat.
      unfold strip_heic_metadata.no_files. simpl. lia. }
    split; [lia|]. simpl. by rewrite Hy.
  - destruct Hsome as (n & Hpos & -> & He & _ & _).
    exists pre, (summary s n), n. split; [done|]. split; [done|].
    destruct (summary_tally s n) as (_ & _ & _ & _ & Hone).
    split. { unfold summaries in *. rewrite !count_app. lia. }
    split; [done|]. simpl.
    destruct s; simpl;
      unfold heic_to_jpg.summary, sanitize_heic_to_jpg.summary,
        heic_strip_and_convert_to_jpg.summary, strip_heic_metadata.summary.
    1-3: destruct (n =? 0)%nat; [done|by rewrite plural_shape].
    destruct (yields pre =? 0)%nat eqn:Hy.
    + apply Nat.eqb_eq in Hy. specialize (Hpos eq_refl). lia.
    + by rewrite plural_shape.
Qed.

(** In heic_to_jpg.py and sanitize_heic_to_jpg.py a turn of the loop always
    returns. *)
Lemma plain_turn_returns s a p n d :
  s = heic_to_jpg_py ∨ s = sanitize_heic_to_jpg_py →
  ∃ d1 t1 n1, loop_body s a p n d = (d1, t1, Ok n1).
Proof.
  intros [-> | ->]; simpl;
    [rewrite heic_to_jpg_loop_body|rewrite sanitize_loop_body];
    match goal with
    | |- context [match ?x with _ => _ end] =>
        destruct x as [[d1 t1] [[]|e]]; eauto
    end.
Qed.

(** So their loop can only be left by an exception of [p.is_file()]. *)
Lemma plain_loop_outcome s a exts entries :
  s = heic_to_jpg_py ∨ s = sanitize_heic_to_jpg_py →
  ∀ n d d' t e,
    for_discovered exts entries (loop_body s a) n d = (d', t, Raise e) →
    ∃ p dk, p ∈ entries ∧ Path_is_file_error dk p = Some e.
Proof.
  intros Hs. induction entries as [|p rest IH]; intros n d d' t e Hrun.
  - by rewrite for_discovered_nil in Hrun.
  - rewrite for_discovered_cons in Hrun.
    destruct (Path_is_file_error d p) as [e0|] eqn:Hstat.
    { injection Hrun as _ _ ->. exists p, d. split; [by left|done]. }
    assert (∃ q dk, q ∈ rest ∧ Path_is_file_error dk q = Some e)
      as (q & dk & Hq & Hdk); [|exists q, dk; split; [by right|done]].
    destruct (accepts exts d p); [|by eapply IH].
    destruct (plain_turn_returns s a p n d Hs) as (d1 & t1 & n1 & Hbody).
    rewrite Hbody in Hrun.
    destruct (for_discovered exts rest (loop_body s a) n1 d1)
      as [[d2 t2] r] eqn:Hrest.
    injection Hrun as _ _ ->. by eapply IH.
Qed.



Lemma bind_run {A B : Type} (m : M A) (k : A → M B) (d : gmap path (node content)) :
  bind m k d =
    match m d with
    | (d1, t1, Ok x) => match k x d1 with (d2, t2, r) => (d2, (t1 ++ t2)%list, r) end
    | (d1, t1, Raise e) => (d1, t1, Raise e)
    end.
Proof. reflexivity. Qed.

Lemma discover_iterator_run (root : path) (recursive : bool)
    (d : gmap path (node content)) :
  discover_iterator root recursive d =
    (d, [Scan root recursive],
     if recursive then Path_rglob d root else Path_iterdir d root).
Proof. reflexivity. Qed.

(** [main] from the directory scan on. *)
Lemma finish_scan (k : list path → M unit) (root : path) (recursive : bool)
    (d : gmap path (node content)) :
  finish (entries <- discover_iterator root recursive ;; k entries) d =
    match (if recursive then Path_rglob d root else Path_iterdir d root) with
    | Ok entries =>
        match k entries d with
        | (d1, t1, r) =>
            (d1, Scan root recursive :: t1,
             match r with Ok _ => Finished | Raise e => Uncaught e end)
        end
    | Raise e => (d, [Scan root recursive], Uncaught e)
    end.
Proof.
  unfold finish. rewrite bind_run, discover_iterator_run.
  destruct (if recursive then Path_rglob d root else Path_iterdir d root)
    as [entries|e]; [|done].
  by destruct (k entries d) as [[d1 t1] [[]|e]].
Qed.

(** [main] up to the loop: either a check refuses the run, or the checks
    pass and the directory is scanned. *)
Lemma run_checked s a d :
  (∃ o, rejected o ∧ run s a d = (d, [], o)
        ∧ (path_exists d (cl_directory a) = false
           ∨ (converts s = true ∧ ¬ (1 ≤ cl_quality a ≤ 100))
           ∨ (uses_exiftool s = true ∧ shutil_which "exiftool" = false)
           ∨ parse_exts (cl_ext a) = ∅))
  ∨ (path_exists d (cl_directory a) = true
     ∧ (converts s = true → 1 ≤ cl_quality a ≤ 100)
     ∧ (uses_exiftool s = true → shutil_which "exiftool" = true)
     ∧ parse_exts (cl_ext a) ≠ ∅
     ∧ run s a d =
         finish
           (entries <- discover_iterator (cl_directory a) (cl_recursive a) ;;
            match s with
            | strip_heic_metadata_py =>
                files <- for_discovered (parse_exts (cl_ext a)) entries
                           (λ p acc, ret (acc ++ [p])%list) [] ;;
                match files with
                | [] => print stdout
                          (strip_heic_metadata.no_files (parse_exts (cl_ext a))
                             (strip_args a))
                | _ => count <- for_each files (loop_body s a) 0%nat ;;
                       print stdout (summary s count)
                end
            | _ => total <- for_discovered (parse_exts (cl_ext a)) entries
                              (loop_body s a) 0%nat ;;
                   print stdout (summary s total)
            end) d).
Proof.
  destruct s; simpl;
    unfold heic_to_jpg.main, sanitize_heic_to_jpg.main,
      heic_strip_and_convert_to_jpg.main, strip_heic_metadata.main,
      heic_strip_and_convert_to_jpg.exiftool_available,
      strip_heic_metadata.exiftool_available; simpl;
    (destruct (path_exists d (cl_directory a)); simpl;
     [|by (left; eexists; split; [|split; [reflexivity|by left]])]);
    try (destruct ((1 <=? cl_quality a) && (cl_quality a <=? 100)) eqn:Hq; simpl;
         [apply quality_test in Hq
         |by (left; eexists;
              split; [|split; [reflexivity|right; left; split; [done|];
                               intros Hin%quality_test; congruence]])]);
    try (destruct (shutil_which "exiftool") eqn:Hw; simpl;
         [|by (left; eexists;
               split; [|split; [reflexivity|by (right; right; left)]])]);
    (destruct (size (parse_exts (cl_ext a)) =? 0)%nat eqn:Hsz;
     [by (left; eexists;
          split; [|split; [reflexivity|do 3 right; apply Nat.eqb_eq in Hsz;
                           by apply size_empty_iff, leibniz_equiv in Hsz]])|]);
    right; (split_and!; [done|done|done| |done]);
    intros Hempty; rewrite Hempty, size_empty in Hsz; discriminate.
Qed.



(** C9 (as amended).  In heic_strip_and_convert_to_jpg.py the turn of a
    discovered file starts with the ExifTool command that wipes the file in
    place, before the destination is looked at.  For a file whose [.jpg]
    destination already exists: when ExifTool exits with status 0 the file
    holds what ExifTool left, the [[SKIP]] line is printed, the file is
    counted and, unless [--keep] was given, the source is unlinked, nothing
    having been decoded or written; when that removal is refused, the
    [[SKIP]] line is followed by what the [except] clauses make of the
    refusal, and the file stays, wiped; when ExifTool fails with an exception
    the script takes care of, the turn ends with an [[ERROR]] line instead,
    the file is neither reported skipped nor unlinked nor counted. *)
Theorem C9_strip_runs_before_the_skip_check a p c d :
  d !! p = Some (File c) →
  let argv := ["exiftool"; "-overwrite_original"; "-all="; Path.str p] in
  let stripped := <[p := File (exiftool argv c).1]> d in
  (∀ n, ∃ d' t r,
     loop_body heic_strip_and_convert_to_jpg_py a p n d
       = (d', SubprocessRun argv :: t, r))
  ∧ (∀ n dst,
       Path.with_suffix p ".jpg" = Ok dst → is_Some (d !! dst) →
       match (exiftool argv c).2 with
       | None =>
           match (if cl_keep a then None else Path_unlink_error stripped p) with
           | None =>
               loop_body heic_strip_and_convert_to_jpg_py a p n d =
                 (if cl_keep a then stripped else delete p d,
                  ([SubprocessRun argv; Print stdout (skip_line dst)] ++
                   if cl_keep a then [] else [Unlink p])%list,
                  Ok (S n))
           | Some e =>
               loop_body heic_strip_and_convert_to_jpg_py a p n d =
                 strip_and_convert_handled (Path.name p) n stripped
                   [SubprocessRun argv; Print stdout (skip_line dst)] e
           end
       | Some e =>
           caught heic_strip_and_convert_to_jpg_py e →
           loop_body heic_strip_and_convert_to_jpg_py a p n d =
             (stripped,
              [SubprocessRun argv;
               Print stderr (report heic_strip_and_convert_to_jpg_py p e)],
              Ok n)
       end).
Proof.
  intros Hc argv stripped. split.
  - intros n. simpl. rewrite strip_and_convert_loop_body.
    unfold heic_strip_and_convert_to_jpg.strip_all_metadata.
    rewrite (subprocess_run_file _ _ _ _ Hc). fold argv.
    destruct (exiftool argv c).2 as [e|].
    + destruct e as [m err|m]; simpl; [destruct (Py.decode err)|]; eauto.
    + match goal with
      | |- context [heic_strip_and_convert_to_jpg.convert_to_jpg p ?q ?dl ?d1] =>
          destruct (heic_strip_and_convert_to_jpg.convert_to_jpg p q dl d1)
            as [[d2 t2] [[]|e]]
      end; simpl; [eauto|].
      destruct e as [m err|m]; simpl; [destruct (Py.decode err)|]; eauto.
  - intros n dst Hdst Hsome. simpl. rewrite strip_and_convert_loop_body.
    unfold heic_strip_and_convert_to_jpg.strip_all_metadata.
    rewrite (subprocess_run_file _ _ _ _ Hc). fold argv. fold stripped.
    destruct (exiftool argv c).2 as [e|].
    + intros Hcaught. destruct e as [m err|m]; simpl in *; [|done].
      destruct Hcaught as [text ->]. done.
    + assert (path_exists stripped dst = true) as Hex.
      { apply path_exists_true. unfold stripped.
        destruct (decide (p = dst)) as [->|Hne].
        - rewrite lookup_insert_eq. eauto.
        - by rewrite lookup_insert_ne. }
      assert (stripped !! p = Some (File (exiftool argv c).1)) as Hp
        by apply lookup_insert_eq.
      pose proof (convert_to_jpg_spec p (cl_quality a) (negb (cl_keep a)) stripped)
        as Hspec.
      cbn [heic_strip_and_convert_to_jpg.quality heic_strip_and_convert_to_jpg.keep
           strip_and_convert_args].
      destruct (heic_strip_and_convert_to_jpg.convert_to_jpg p (cl_quality a)
                  (negb (cl_keep a)) stripped) as [[d2 t2] r2].
      inversion Hspec as [|? ? ? Hor|? ? ? ? ? Hdel ? Hun|? ? ? ? ? ? Hdel ? Hun| | | |];
        subst; same_dst Hdst; try congruence.
      * destruct Hor as [Hk|Hn]; [|congruence].
        simpl in Hk. apply negb_false_iff in Hk. by rewrite Hk.
      * apply negb_true_iff in Hdel. rewrite Hdel, Hun.
        simpl. unfold stripped. by rewrite delete_insert_eq.
      * apply negb_true_iff in Hdel. by rewrite Hdel, Hun.
Qed.

End Loops.

(** ** Destinations: one conversion per [.jpg] path *)

Section Destinations.
Context `{E : Externals}.







Lemma is_Some_insert_file (d : gmap path (node content)) (p x : path) c c' :
  d !! p = Some (File c) →
  is_Some (<[p := File c']> d !! x) ↔ is_Some (d !! x).
Proof.
  intros Hp. destruct (decide (p = x)) as [->|Hne].
  - rewrite lookup_insert_eq, Hp. split; eauto.
  - by rewrite lookup_insert_ne.
Qed.







End Destinations.

(** ** Validation of the arguments *)

Section Validation.
Context `{E : Externals}.

(** The message for a missing directory does not read as the one for a bad
    quality. *)
Lemma missing_directory_is_not_quality (x : string) :
  x +:+ " does not exist." ≠ quality_error.
Proof.
  unfold quality_error. intros H.
  repeat (destruct x as [|? x]; simpl in H;
          first [discriminate H | injection H as _ H]).
Qed.

(** C7.  In the three scripts that take [--quality]: a quality outside
    1..100 ends [main] with a usage error, the disk untouched and no event
    at all before it (no directory scanned, no file written or unlinked, no
    process run), and the error is the one about [--quality] whenever the
    directory exists; a quality inside 1..100 never produces that error. *)
Theorem C7_quality_is_validated s a d :
  converts s = true →
  (¬ (1 ≤ cl_quality a ≤ 100) →
     ∃ msg, run s a d = (d, [], UsageError msg)
            ∧ (path_exists d (cl_directory a) = true → msg = quality_error))
  ∧ (1 ≤ cl_quality a ≤ 100 →
     ∀ d' t, run s a d ≠ (d', t, UsageError quality_error)).
Proof.
  intros Hs. split.
  - intros Hq. apply (not_iff_compat (quality_test _)) in Hq.
    apply not_true_is_false in Hq.
    destruct s; try discriminate Hs; simpl;
      unfold heic_to_jpg.main, sanitize_heic_to_jpg.main,
        heic_strip_and_convert_to_jpg.main; simpl;
      destruct (path_exists d (cl_directory a)); simpl;
      rewrite ?Hq; simpl; eexists; (split; [reflexivity|]); done.
  - intros Hq d' t. apply quality_test in Hq.
    destruct s; try discriminate Hs; simpl;
      unfold heic_to_jpg.main, sanitize_heic_to_jpg.main,
        heic_strip_and_convert_to_jpg.main, finish; simpl;
      (destruct (path_exists d (cl_directory a)); simpl;
       [|intros Heq; injection Heq as _ _ H;
         by apply missing_directory_is_not_quality in H]);
      rewrite Hq; simpl;
      try (destruct (heic_strip_and_convert_to_jpg.exiftool_available); simpl;
           [|discriminate]);
      (destruct (size (parse_exts (cl_ext a)) =? 0)%nat; [discriminate|]);
      match goal with
      | |- context [bind ?m ?k d] => destruct (bind m k d) as [[d1 t1] [?|?]]
      end; discriminate.
Qed.

Lemma parse_exts_empty (ext : string) :
  parse_exts ext = ∅ ↔ Forall (λ e, Py.strip e = EmptyString) (Py.split_commas ext).
Proof.
  unfold parse_exts. split.
  - intros H. apply Forall_forall. intros e He.
    destruct (decide (Py.strip e = EmptyString)) as [|Hne]; [done|].
    exfalso.
    assert (Py.lstrip_dots (Py.lower (Py.strip e)) ∈
              (∅ : gset string)) as Hin; [|set_solver].
    rewrite <- H. apply elem_of_list_to_set, list_elem_of_fmap.
    exists e. split; [done|]. by apply list_elem_of_filter.
  - intros H.
    assert (filter (λ e, Py.strip e ≠ EmptyString) (Py.split_commas ext) = []) as ->; [|done].
    induction H as [|e l He Hl IH]; [done|].
    rewrite filter_cons. destruct (decide (Py.strip e ≠ EmptyString)); done.
Qed.

Lemma elem_of_stated_exts (ext x : string) :
  x ∈ stated_exts ext ↔
  x ≠ EmptyString
  ∧ ∃ e, e ∈ Py.split_commas ext ∧ x = Py.lstrip_dots (Py.lower (Py.strip e)).
Proof.
  unfold stated_exts.
  rewrite elem_of_list_to_set, list_elem_of_filter, list_elem_of_fmap.
  split; intros [Hx (e & H1 & H2)]; eauto.
Qed.

(** The set the scripts build is the stated one, with the empty text added
    when a token holds dots only. *)
Lemma stated_exts_parse_exts (ext : string) :
  stated_exts ext = parse_exts ext ∖ {[EmptyString]}.
Proof.
  apply set_eq. intros x.
  rewrite elem_of_difference, elem_of_singleton, elem_of_stated_exts,
    elem_of_parse_exts.
  split.
  - intros (Hx & e & He & ->). split; [|done]. exists e. split_and!; [done| |done].
    intros Hs. apply Hx. by rewrite Hs.
  - intros ((e & He & _ & ->) & Hx). eauto.
Qed.

(** C8.  The scripts drop the blank tokens of [--ext] first, and only then
    lower-case the others and strip their leading dots.  So in each of the
    four scripts the run is refused on [--ext] when every token is blank:
    [main] ends with [parser.error] or [sys.exit], the disk untouched and no
    event at all before it, and the refusal is the usage error about [--ext]
    when the checks made before it pass.  But a token of dots only, such as
    ["."], passes the filter and leaves the empty text in the set: when the
    tokens normalize to no extension at all and such a token is among them,
    the set the script tests is not empty, the run is not refused, the
    directory is scanned, and the regular files whose name has no suffix are
    selected. *)
Theorem C8_empty_extension_set_is_refused s a d :
  (parse_exts (cl_ext a) = ∅ →
   ∃ o, run s a d = (d, [], o) ∧ rejected o
        ∧ (path_exists d (cl_directory a) = true →
           (converts s = true → 1 ≤ cl_quality a ≤ 100) →
           (uses_exiftool s = true → shutil_which "exiftool" = true) →
           o = UsageError (ext_error s)))
  ∧ (parse_exts (cl_ext a) = ∅ ↔
     Forall (λ e, Py.strip e = EmptyString) (Py.split_commas (cl_ext a)))
  ∧ stated_exts (cl_ext a) = parse_exts (cl_ext a) ∖ {[EmptyString]}
  ∧ (stated_exts (cl_ext a) = ∅ → parse_exts (cl_ext a) ≠ ∅ →
     parse_exts (cl_ext a) = {[EmptyString]}
     ∧ (∃ e, e ∈ Py.split_commas (cl_ext a) ∧ Py.strip e ≠ EmptyString
             ∧ Py.lstrip_dots (Py.strip e) = EmptyString)
     ∧ (path_exists d (cl_directory a) = true →
        (converts s = true → 1 ≤ cl_quality a ≤ 100) →
        (uses_exiftool s = true → shutil_which "exiftool" = true) →
        ∃ d' t o,
          run s a d = (d', Scan (cl_directory a) (cl_recursive a) :: t, o)
          ∧ ¬ rejected o)
     ∧ (∀ d0 p, accepts (parse_exts (cl_ext a)) d0 p
                = is_file d0 p && bool_decide (Path.suffix p = EmptyString))).
Proof.
  split_and!.
  - intros Hext.
    destruct s; simpl;
      unfold heic_to_jpg.main, sanitize_heic_to_jpg.main,
        heic_strip_and_convert_to_jpg.main, strip_heic_metadata.main,
        heic_strip_and_convert_to_jpg.exiftool_available,
        strip_heic_metadata.exiftool_available; simpl;
      rewrite Hext, size_empty; simpl;
      (destruct (path_exists d (cl_directory a)); simpl;
       [|eexists; split_and!; [reflexivity|done|done]]);
      try (destruct ((1 <=? cl_quality a) && (cl_quality a <=? 100)) eqn:Hq; simpl;
           [|eexists; split_and!; [reflexivity|done|];
             intros _ Hin _; specialize (Hin eq_refl);
             apply quality_test in Hin; congruence]);
      try (destruct (shutil_which "exiftool") eqn:Hw; simpl;
           [|eexists; split_and!; [reflexivity|done|];
             intros _ _ Hw'; specialize (Hw' eq_refl); congruence]);
      eexists; split_and!; done.
  - apply parse_exts_empty.
  - apply stated_exts_parse_exts.
  - intros Hstated Hne. rewrite stated_exts_parse_exts in Hstated.
    assert (∀ x, x ∈ parse_exts (cl_ext a) → x = EmptyString) as Hall.
    { intros x Hx. destruct (decide (x = EmptyString)) as [|Hx']; [done|].
      exfalso. apply (not_elem_of_empty (C:=gset string) x). rewrite <- Hstated.
      apply elem_of_difference. split; [done|]. by rewrite elem_of_singleton. }
    assert (EmptyString ∈ parse_exts (cl_ext a)) as Hin.
    { apply set_choose_L in Hne as [x Hx]. by rewrite <- (Hall x Hx). }
    assert (parse_exts (cl_ext a) = {[EmptyString]}) as Hset.
    { apply set_eq. intros x. rewrite elem_of_singleton. split; [apply Hall|].
      by intros ->. }
    split_and!.
    + done.
    + apply elem_of_parse_exts in Hin as (e & He & Hblank & Hdots).
      exists e. split_and!; [done|done|].
      rewrite lower_lstrip_dots in Hdots. symmetry in Hdots.
      by apply lower_empty.
    + intros Hdir Hq Hw.
      destruct (run_checked s a d)
        as [(o & _ & _ & [Hno|[[Hc Hno]|[[Hu Hno]|Hno]]])|(_ & _ & _ & _ & Hrun)].
      * congruence.
      * destruct Hno. by apply Hq.
      * rewrite Hw in Hno by done. discriminate Hno.
      * by destruct Hne.
      * rewrite Hrun, finish_scan. fold (scanned a d).
        destruct (scanned a d) as [entries|e].
        -- match goal with
           | |- context [match ?m d with _ => _ end] =>
               destruct (m d) as [[d1 t1] [[]|e]]
           end; eexists _, _, _; (split; [reflexivity|]); by intros [].
        -- eexists _, [], _. split; [reflexivity|]. by intros [].
    + intros d0 p. unfold accepts. f_equal. rewrite Hset.
      apply bool_decide_ext. by rewrite elem_of_singleton, suffix_key_empty.
Qed.

End Validation.

(** ** heic_to_jpg.py: the metadata passed to the encoder *)

Section Exif.
Context `{E : Externals}.
Import heic_to_jpg.

Lemma dict_get_set_other d k v k' :
  k ≠ k' → dict_get (dict_set d k v) k' = dict_get d k'.
Proof.
  intros Hne. induction d as [|[k0 v0] d IH]; simpl.
  - by destruct (decide (k = k')).
  - destruct (decide (k0 = k)) as [->|Hk]; simpl.
    + destruct (decide (k = k')); [done|]. by destruct (decide (k = k')).
    + destruct (decide (k0 = k')); [done|]. apply IH.
Qed.

(** [TAG_MAP] is keyed by tag names: no integer is among its keys. *)
Lemma TAG_MAP_get_int (tag_id : Z) : dict_get TAG_MAP (PyInt tag_id) = PyNone.
Proof.
  unfold TAG_MAP.
  assert (∀ l acc, dict_get acc (PyInt tag_id) = PyNone →
            dict_get (foldl (λ d kv, dict_set d (PyStr (snd kv)) (PyInt (fst kv))) acc l)
                     (PyInt tag_id) = PyNone) as Hgen.
  { induction l as [|[k v] l IH]; intros acc Hacc; simpl; [done|].
    apply IH. by rewrite dict_get_set_other. }
  by apply Hgen.
Qed.

Lemma keep_none_copied (items : list (Z * exif_value)) (acc : gmap Z exif_value) :
  foldl (λ (new : gmap Z exif_value) item,
           if py_in (dict_get TAG_MAP (PyInt (fst item))) KEEP_TAG_NAMES
           then <[fst item := snd item]> new else new) acc items = acc.
Proof.
  revert acc. induction items as [|it items IH]; intros acc; simpl; [done|].
  by rewrite TAG_MAP_get_int, IH.
Qed.

(** C5.  [build_exif_bytes] looks a tag id up in [TAG_MAP], whose keys are
    the tag names, so no tag is ever found to be in [KEEP_TAG_NAMES]: the
    function returns [None] for every image, whatever [ExifTags.TAGS] holds,
    and [convert] encodes exactly as the convert function of
    sanitize_heic_to_jpg.py does, without any metadata. *)
Theorem C5_build_exif_bytes_copies_nothing :
  (∀ im : image, build_exif_bytes im = None)
  ∧ (∀ src q del d,
       heic_to_jpg.convert src q del d = sanitize_heic_to_jpg.convert src q del d).
Proof.
  assert (∀ im : image, build_exif_bytes im = None) as Hnone.
  { intros im. unfold build_exif_bytes.
    destruct (size (Image_getexif im) =? 0)%nat; [done|].
    rewrite keep_none_copied. by rewrite map_size_empty. }
  split; [done|].
  intros src q del d.
  unfold heic_to_jpg.convert, sanitize_heic_to_jpg.convert, bind, lift.
  destruct (Path.with_suffix src ".jpg") as [dst|e]; [|done].
  destruct (exists_ dst d) as [[d1 t1] [[]|e]]; try done.
  destruct (Image_open_path src d1) as [[d2 t2] [im|e]]; [|done].
  destruct (ImageOps_exif_transpose im) as [im'|e]; [|done].
  by rewrite Hnone.
Qed.

End Exif.

(** ** What [discover] selects *)

Section Discover.
Context `{E : Externals}.

Lemma filter_sublist {A} (f : A → bool) (l : list A) : List.filter f l `sublist_of` l.
Proof.
  induction l as [|x l IH]; simpl; [done|].
  destruct (f x); [by apply sublist_skip|by apply sublist_cons].
Qed.

Lemma discover_collects (exts : gset string) (entries acc : list path)
    (d : gmap path (node content)) :
  (∀ p, p ∈ entries → Path_is_file_error d p = None) →
  for_discovered exts entries (λ p acc, ret (acc ++ [p])%list) acc d
    = (d, List.map Yield (List.filter (accepts exts d) entries),
       Ok (acc ++ List.filter (accepts exts d) entries)%list).
Proof.
  revert acc. induction entries as [|p rest IH]; intros acc Hstat.
  - rewrite for_discovered_nil. simpl. by rewrite app_nil_r.
  - assert (∀ q, q ∈ rest → Path_is_file_error d q = None) as Hrest
      by (intros q Hq; apply Hstat; by right).
    rewrite for_discovered_cons, (Hstat p) by (by left). simpl.
    destruct (accepts exts d p); [|by apply IH].
    unfold ret at 1. cbn beta iota. rewrite IH by done.
    simpl. by rewrite <- app_assoc.
Qed.

(** X4.  [list(discover(root, exts, recursive))], as strip_heic_metadata.py
    calls it, when [is_file()] answers on every entry: the result holds
    exactly the entries of the listing that are regular files and whose
    suffix, lower-cased and without its dot, is in [exts]; they come in the
    order of the listing; one [Yield] each, and the disk is not touched. *)
Theorem discover_yields_the_matching_files (exts : gset string) (entries : list path)
    (d : gmap path (node content)) :
  (∀ p, p ∈ entries → Path_is_file_error d p = None) →
  ∃ files,
    for_discovered exts entries (λ p acc, ret (acc ++ [p])%list) [] d
      = (d, List.map Yield files, Ok files)
    ∧ files `sublist_of` entries
    ∧ ∀ p, p ∈ files ↔
           p ∈ entries ∧ (∃ c, d !! p = Some (File c))
           ∧ Py.lstrip_dots (Py.lower (Path.suffix p)) ∈ exts.
Proof.
  intros Hstat. exists (List.filter (accepts exts d) entries). split_and!.
  - by rewrite discover_collects.
  - apply filter_sublist.
  - intros p. rewrite list_elem_of_In, filter_In, <- list_elem_of_In.
    unfold accepts. rewrite andb_true_iff, bool_decide_eq_true, is_file_true. done.
Qed.

(** X5.  The suffix of a name starts at its last dot, so the text looked up
    in [exts] never holds a dot: an extension given with an inner dot, such as
    ["tar.gz"], selects no file at all, whatever is on the disk. *)
Theorem extension_with_a_dot_selects_nothing (exts : gset string)
    (d : gmap path (node content)) (p : path) (x : string) :
  has_dot x = true →
  accepts ({[x]} ∪ exts) d p = accepts exts d p ∧ accepts {[x]} d p = false.
Proof.
  intros Hx. unfold accepts.
  pose proof (suffix_key_no_dot p) as Hk.
  assert (Py.lstrip_dots (Py.lower (Path.suffix p)) ≠ x) as Hne by congruence.
  split.
  - f_equal. apply bool_decide_ext. rewrite elem_of_union, elem_of_singleton.
    split; [by intros [?|?]|by right].
  - rewrite (bool_decide_false (_ ∈ _)) by (by rewrite elem_of_singleton).
    apply andb_false_r.
Qed.

End Discover.

(** ** What a run can touch *)

Section Turns.
Context `{E : Externals}.

(** What a call of a convert function leaves alone, and the kinds of events
    it produces. *)
Lemma convert_frame on_skip f src q del d d1 t1 r :
  convert_variant on_skip f →
  f src q del d = (d1, t1, r) →
  (∀ x, x ≠ src → Path.with_suffix src ".jpg" ≠ Ok x → d1 !! x = d !! x)
  ∧ (del = false → ∀ x, is_Some (d !! x) → is_Some (d1 !! x))
  ∧ (∀ e, e ∈ t1 →
       match e with
       | Print _ _ | Open _ | Save _ | Write _ => True
       | Unlink _ => del = true
       | _ => False
       end).
Proof.
  intros Hf Hrun.
  pose proof (convert_variant_spec on_skip f src q del d Hf) as Hspec.
  rewrite Hrun in Hspec.
  inversion Hspec as [e He|dst Hdst Hex Hsk|dst c Hdst Hex Hos Hdel Hsrc Hun
                     |dst c e Hdst Hex Hos Hdel Hsrc Hun
                     |dst Hdst Hex Hos Hdel Hsrc|dst e t0 Hdst Hex Ht
                     |dst c c' Hdst Hex Hsrc Hun
                     |dst c c' e Hdst Hex Hsrc Hdel Hun]; subst.
  - split_and!; [done|done|]. intros e' He'. by apply elem_of_nil in He'.
  - split_and!; [done|done|]. intros e' He'. in_trace He'. done.
  - split_and!; [|done|].
    + intros x Hx _. by rewrite lookup_delete_ne.
    + intros e' He'. in_trace He'; done.
  - split_and!; [done|done|]. intros e' He'. in_trace He'. done.
  - split_and!; [done|done|]. intros e' He'. in_trace He'. done.
  - split_and!; [done|done|]. intros e' He'. destruct Ht; subst; in_trace He'; done.
  - apply path_exists_false in Hex. split_and!.
    + intros x Hx Hdx. assert (dst ≠ x) by congruence.
      destruct del; rewrite ?lookup_delete_ne by done; by rewrite lookup_insert_ne.
    + intros -> x Hsome. destruct (decide (dst = x)) as [->|Hne].
      * rewrite lookup_insert_eq. eauto.
      * by rewrite lookup_insert_ne.
    + intros e' He'. destruct del; simpl in He'; in_trace He'; done.
  - split_and!; [|done|].
    + intros x Hx Hdx. assert (dst ≠ x) by congruence. by rewrite lookup_insert_ne.
    + intros e' He'. in_trace He'; done.
Qed.

(** The same, in more detail, for the convert function of heic_to_jpg.py and
    of sanitize_heic_to_jpg.py. *)
Lemma plain_convert_facts f src q del d d1 t1 r :
  convert_variant false f →
  f src q del d = (d1, t1, r) →
  (∀ y, Write y ∈ t1 →
     Path.with_suffix src ".jpg" = Ok y ∧ d !! y = None ∧ is_Some (d1 !! y))
  ∧ (∀ x, Unlink x ∈ t1 →
       x = src ∧ is_Some (d !! src) ∧ d1 !! src = None
       ∧ ∃ dst, Path.with_suffix src ".jpg" = Ok dst ∧ Write dst ∈ t1)
  ∧ (∀ x, is_Some (d !! x) → is_Some (d1 !! x) ∨ (x = src ∧ Unlink src ∈ t1))
  ∧ (∀ x, d !! x = None → d1 !! x = None ∨ Write x ∈ t1)
  ∧ (del = false → d ⊆ d1).
Proof.
  intros Hf Hrun.
  pose proof (convert_variant_spec false f src q del d Hf) as Hspec.
  rewrite Hrun in Hspec.
  inversion Hspec as [e He|dst Hdst Hex Hsk|dst c Hdst Hex Hos Hdel Hsrc Hun
                     |dst c e Hdst Hex Hos Hdel Hsrc Hun
                     |dst Hdst Hex Hos Hdel Hsrc|dst e t0 Hdst Hex Ht
                     |dst c c' Hdst Hex Hsrc Hun
                     |dst c c' e Hdst Hex Hsrc Hdel Hun]; subst; try discriminate.
  - split_and!; try (intros x Hx; by apply elem_of_nil in Hx); auto.
  - split_and!; try (intros x Hx; in_trace Hx; done); auto.
  - split_and!; try (intros x Hx; destruct Ht; subst; in_trace Hx; done); auto.
  - apply path_exists_false in Hex.
    assert (dst ≠ src) as Hne by congruence.
    split_and!.
    + intros y Hy.
      assert (y = dst) as -> by (destruct del; simpl in Hy; in_trace Hy; done).
      split_and!; [done|done|].
      destruct del; rewrite ?lookup_delete_ne by done; rewrite lookup_insert_eq; eauto.
    + intros x Hx. destruct del; simpl in Hx; in_trace Hx.
      split_and!; [done|eauto|apply lookup_delete_eq|].
      exists dst. split; [done|]. simpl. by do 2 right; left.
    + intros x Hsome. destruct del.
      * destruct (decide (x = src)) as [->|Hx].
        -- right. split; [done|]. simpl. by do 4 right; left.
        -- left. rewrite lookup_delete_ne by done.
           destruct (decide (dst = x)) as [->|?];
             [rewrite lookup_insert_eq; eauto|by rewrite lookup_insert_ne].
      * left. destruct (decide (dst = x)) as [->|?];
          [rewrite lookup_insert_eq; eauto|by rewrite lookup_insert_ne].
    + intros x Hx. destruct (decide (dst = x)) as [->|Hdx].
      * right. destruct del; simpl; by do 2 right; left.
      * left. destruct del.
        -- rewrite lookup_delete_ne by congruence. by rewrite lookup_insert_ne.
        -- by rewrite lookup_insert_ne.
    + intros ->. by apply insert_subseteq.
  - apply path_exists_false in Hex.
    split_and!.
    + intros y Hy. assert (y = dst) as -> by (in_trace Hy; done).
      split_and!; [done|done|]. rewrite lookup_insert_eq. eauto.
    + intros x Hx. in_trace Hx.
    + intros x Hsome. left. destruct (decide (dst = x)) as [->|?];
        [rewrite lookup_insert_eq; eauto|by rewrite lookup_insert_ne].
    + intros x Hx. destruct (decide (dst = x)) as [->|Hdx].
      * right. by do 2 right; left.
      * left. by rewrite lookup_insert_ne.
    + done.
Qed.

(** ExifTool rewrites its target in place. *)
Lemma subprocess_run_frame argv p d d1 t1 r :
  subprocess_run argv p d = (d1, t1, r) →
  t1 = [SubprocessRun argv]
  ∧ (∀ x, x ≠ p → d1 !! x = d !! x)
  ∧ (∀ x, is_Some (d1 !! x) ↔ is_Some (d !! x)).
Proof.
  unfold subprocess_run. intros Hrun.
  destruct (d !! p) as [[c|]|] eqn:Hp; simplify_eq; split_and!; try done.
  - intros x Hx. by rewrite lookup_insert_ne.
  - intros x. by eapply is_Some_insert_file.
Qed.

(** A turn of the loop leaves the disk as the steps of the file left it,
    and adds at most one line to their events. *)
Lemma loop_body_transform s a p n d :
  ∃ r, loop_body s a p n d = ((transform s a p d).1.1, (transform s a p d).1.2, r)
       ∨ ∃ st l, loop_body s a p n d =
                   ((transform s a p d).1.1,
                    ((transform s a p d).1.2 ++ [Print st l])%list, r).
Proof.
  destruct s; simpl.
  - rewrite heic_to_jpg_loop_body. simpl.
    destruct (heic_to_jpg.convert _ _ _ d) as [[d1 t1] [[]|e]]; simpl; eauto 7.
  - rewrite sanitize_loop_body. simpl.
    destruct (sanitize_heic_to_jpg.convert _ _ _ d) as [[d1 t1] [[]|e]]; simpl; eauto 7.
  - rewrite strip_and_convert_loop_body, bind_run. simpl.
    destruct (heic_strip_and_convert_to_jpg.strip_all_metadata p d)
      as [[d1 t1] [[]|e]]; simpl.
    + destruct (heic_strip_and_convert_to_jpg.convert_to_jpg _ _ _ d1)
        as [[d2 t2] [[]|e]]; simpl; [eauto 7|].
      unfold strip_and_convert_handled.
      destruct e as [m err|m]; [destruct (Py.decode err)|]; eauto 7.
    + unfold strip_and_convert_handled.
      destruct e as [m err|m]; [destruct (Py.decode err)|]; eauto 7.
  - rewrite strip_loop_body. simpl.
    destruct (strip_heic_metadata.strip_metadata p _ d) as [[d1 t1] [[]|[m err|m]]];
      simpl; [destruct (Path.relative_to p (cl_directory a))|..]; eauto 7.
Qed.

(** The steps of one file touch the file and its [.jpg] destination only,
    remove nothing unless deletion is on, and produce only events of the
    kinds the script can produce. *)
Lemma transform_frame s a p d d1 t1 r :
  transform s a p d = (d1, t1, r) →
  (∀ x, x ≠ p → (converts s = true → Path.with_suffix p ".jpg" ≠ Ok x) →
     d1 !! x = d !! x)
  ∧ (deletes s a = false → ∀ x, is_Some (d !! x) → is_Some (d1 !! x))
  ∧ (∀ e, e ∈ t1 → allowed s a e = true ∧ is_yield e = false).
Proof.
  intros Hrun. destruct s; simpl in Hrun.
  - destruct (convert_frame _ _ _ _ _ _ _ _ _ variant_heic_to_jpg Hrun)
      as (Hfr & Hdom & Hev).
    split_and!; [intros x ? Hx; apply Hfr; auto|done|].
    intros e He. specialize (Hev e He). by destruct e.
  - destruct (convert_frame _ _ _ _ _ _ _ _ _ variant_sanitize Hrun)
      as (Hfr & Hdom & Hev).
    split_and!; [intros x ? Hx; apply Hfr; auto|done|].
    intros e He. specialize (Hev e He). by destruct e.
  - rewrite bind_run in Hrun.
    destruct (heic_strip_and_convert_to_jpg.strip_all_metadata p d)
      as [[d0 t0] r0] eqn:Hstrip.
    unfold heic_strip_and_convert_to_jpg.strip_all_metadata in Hstrip.
    destruct (subprocess_run_frame _ _ _ _ _ _ Hstrip) as (-> & Hfr0 & Hdom0).
    destruct r0 as [[]|e0].
    + destruct (heic_strip_and_convert_to_jpg.convert_to_jpg p (cl_quality a)
                  (negb (cl_keep a)) d0) as [[d2 t2] r2] eqn:Hconv.
      simplify_eq.
      destruct (convert_frame _ _ _ _ _ _ _ _ _ variant_strip_and_convert Hconv)
        as (Hfr & Hdom & Hev).
      split_and!.
      * intros x ? Hx. rewrite Hfr by auto. by apply Hfr0.
      * simpl. intros Hk x Hsome. apply Hdom; [done|]. by apply Hdom0.
      * intros e [He|He]%elem_of_cons; [by subst|].
        specialize (Hev e He). simpl. by destruct e.
    + simplify_eq. split_and!.
      * intros x ? _. by apply Hfr0.
      * intros _ x Hsome. by apply Hdom0.
      * intros e He. in_trace He. done.
  - unfold strip_heic_metadata.strip_metadata in Hrun.
    destruct (subprocess_run_frame _ _ _ _ _ _ Hrun) as (-> & Hfr0 & Hdom0).
    split_and!.
    + intros x ? _. by apply Hfr0.
    + intros _ x Hsome. by apply Hdom0.
    + intros e He. in_trace He. by destruct (cl_keep_datetimes a).
Qed.

(** The same for a whole turn of the loop. *)
Lemma turn_frame s a p n d d1 t1 r :
  loop_body s a p n d = (d1, t1, r) →
  (∀ x, x ≠ p → (converts s = true → Path.with_suffix p ".jpg" ≠ Ok x) →
     d1 !! x = d !! x)
  ∧ (deletes s a = false → ∀ x, is_Some (d !! x) → is_Some (d1 !! x))
  ∧ (∀ e, e ∈ t1 → allowed s a e = true ∧ is_yield e = false).
Proof.
  intros Hbody.
  destruct (transform s a p d) as [[d0 t0] r0] eqn:Htr.
  destruct (transform_frame _ _ _ _ _ _ _ Htr) as (Hfr & Hdom & Hev).
  destruct (loop_body_transform s a p n d) as (r' & [Heq|(st & l & Heq)]);
    rewrite Htr, Hbody in Heq; simpl in Heq; simplify_eq; [done|].
  split_and!; [done|done|].
  intros e [He|He]%elem_of_app; [by apply Hev|]. in_trace He. done.
Qed.

Lemma in_snoc_event (T : list event) (e x : event) :
  x ∈ (T ++ [e])%list → x ≠ e → x ∈ T.
Proof.
  intros [H|H]%elem_of_app Hne; [done|].
  apply list_elem_of_singleton in H. done.
Qed.

(** The turn of the loop of heic_to_jpg.py and of sanitize_heic_to_jpg.py. *)
Lemma plain_turn_facts s a p n d d1 t1 r :
  s = heic_to_jpg_py ∨ s = sanitize_heic_to_jpg_py →
  loop_body s a p n d = (d1, t1, r) →
  (∀ y, Write y ∈ t1 →
     Path.with_suffix p ".jpg" = Ok y ∧ d !! y = None ∧ is_Some (d1 !! y))
  ∧ (∀ x, Unlink x ∈ t1 →
       x = p ∧ is_Some (d !! p) ∧ d1 !! p = None
       ∧ ∃ dst, Path.with_suffix p ".jpg" = Ok dst ∧ Write dst ∈ t1)
  ∧ (∀ x, is_Some (d !! x) → is_Some (d1 !! x) ∨ (x = p ∧ Unlink p ∈ t1))
  ∧ (∀ x, d !! x = None → d1 !! x = None ∨ Write x ∈ t1)
  ∧ (cl_delete a = false → d ⊆ d1).
Proof.
  intros Hs Hbody.
  destruct (transform s a p d) as [[d0 t0] r0] eqn:Htr.
  assert (∃ f, convert_variant false f ∧ f p (cl_quality a) (cl_delete a) d = (d0, t0, r0))
    as (f & Hf & Hconv).
  { destruct Hs as [-> | ->]; simpl in Htr; eexists; (split; [|exact Htr]); constructor. }
  destruct (plain_convert_facts _ _ _ _ _ _ _ _ Hf Hconv) as (F1 & F2 & F3 & F4 & F5).
  destruct (loop_body_transform s a p n d) as (r' & [Heq|(st & l & Heq)]);
    rewrite Htr, Hbody in Heq; simpl in Heq; simplify_eq; [done|].
  assert (∀ e, e ≠ Print st l → e ∈ (t0 ++ [Print st l])%list → e ∈ t0) as Hin
    by (intros e Hne He; by eapply in_snoc_event).
  split_and!; [| | |intros x Hx; destruct (F4 x Hx); [by left|right]|done].
  - intros y Hy%Hin; [|done]. by apply F1.
  - intros x Hx%Hin; [|done]. destruct (F2 x Hx) as (-> & ? & ? & dst & ? & ?).
    split_and!; [done..|]. exists dst. split; [done|]. apply elem_of_app. by left.
  - intros x Hx. destruct (F3 x Hx) as [?|[-> ?]]; [by left|right].
    split; [done|]. apply elem_of_app. by left.
  - apply elem_of_app. by left.
Qed.

End Turns.

(** ** Properties of whole runs *)

Section RunProperties.
Context `{E : Externals}.

Lemma accepts_key (exts : gset string) (d : gmap path (node content)) (p : path) :
  accepts exts d p = true →
  is_file d p = true ∧ Py.lstrip_dots (Py.lower (Path.suffix p)) ∈ exts.
Proof.
  unfold accepts. intros [? ?%bool_decide_eq_true]%andb_true_iff. done.
Qed.

(** Induction on a run of [main]: a property of the disk and of the events
    so far that holds at the start, that each [Yield], each turn of the
    loop and each line on standard output keep, holds when [main] ends,
    however it ends. *)
Lemma run_invariant (I : gmap path (node content) → list event → Prop)
    (s : script) (a : command_line) (d0 : gmap path (node content)) :
  I d0 [] →
  I d0 [Scan (cl_directory a) (cl_recursive a)] →
  (∀ d T p, I d T →
     (∃ entries, scanned a d0 = Ok entries ∧ p ∈ entries) →
     Py.lstrip_dots (Py.lower (Path.suffix p)) ∈ parse_exts (cl_ext a) →
     is_file d p = true →
     I d (T ++ [Yield p])%list) →
  (∀ d T p n, I d T → Yield p ∈ T →
     (converts s = true → is_file d p = true) →
     I (loop_body s a p n d).1.1 (T ++ (loop_body s a p n d).1.2)%list) →
  (∀ d T l, I d T → I d (T ++ [Print stdout l])%list) →
  I (run s a d0).1.1 (run s a d0).1.2.
Proof.
  intros H0 H1 HY HT HP.
  destruct (run_checked s a d0) as [(o & _ & -> & _)|(_ & _ & _ & _ & ->)]; [done|].
  rewrite finish_scan.
  change (if cl_recursive a then Path_rglob d0 (cl_directory a)
          else Path_iterdir d0 (cl_directory a)) with (scanned a d0).
  destruct (scanned a d0) as [entries|e] eqn:Hscan; [|exact H1].
  set (exts := parse_exts (cl_ext a)).
  set (T0 := [Scan (cl_directory a) (cl_recursive a)]) in *.
  destruct (decide (s = strip_heic_metadata_py)) as [->|Hs].
  - rewrite bind_run.
    pose proof (for_discovered_invariant (λ d T, d = d0 ∧ I d0 T) exts
                  (λ (p : path) (acc : list path), ret (acc ++ [p])%list) entries)
      as Hcollect.
    destruct (Hcollect
      (λ p acc d T (Hp : p ∈ entries) (HI : d = d0 ∧ I d0 T)
         (_ : Path_is_file_error d p = None) (Hacc : accepts exts d p = true),
         conj (proj1 HI)
           (HY d0 T p (proj2 HI) (ex_intro _ entries (conj eq_refl Hp))
              (proj2 (accepts_key _ _ _ Hacc))
              (eq_ind d (λ x, is_file x p = true)
                 (proj1 (accepts_key _ _ _ Hacc)) d0 (proj1 HI))))
      [] d0 T0 (conj eq_refl H1)) as [Hd Hfound].
    destruct (for_discovered exts entries
                (λ (p : path) (acc : list path), ret (acc ++ [p])%list) [] d0)
      as [[dF tF] [found|e]] eqn:Hlist; cbn in Hd, Hfound; subst dF;
      [|exact Hfound].
    apply discover_list in Hlist as (_ & -> & ->). cbn [app] in *.
    set (files := List.filter (accepts exts d0) entries) in *.
    assert (∀ p, p ∈ files → Yield p ∈ (T0 ++ List.map Yield files)%list) as Hin.
    { intros p Hp. apply elem_of_app. right.
      apply list_elem_of_In, in_map, list_elem_of_In, Hp. }
    destruct files as [|f files'] eqn:Hf.
    + unfold print, emit. cbn. apply (HP d0 T0). exact Hfound.
    + rewrite <- Hf in *. clearbody files. rewrite bind_run.
      pose proof (for_each_invariant
                    (λ d T, I d T ∧ ∀ p, p ∈ files → Yield p ∈ T)
                    (loop_body strip_heic_metadata_py a) files) as Hloop.
      destruct (Hloop
        (λ p acc d T (Hp : p ∈ files)
           (HI : I d T ∧ ∀ p, p ∈ files → Yield p ∈ T),
           conj (HT d T p acc (proj1 HI) (proj2 HI p Hp)
                   (λ H : false = true, False_ind _ (diff_false_true H)))
                (λ q Hq, proj2 (elem_of_app _ _ _) (or_introl (proj2 HI q Hq))))
        0%nat d0 (T0 ++ List.map Yield files)%list (conj Hfound Hin)) as [Hend _].
      destruct (for_each files (loop_body strip_heic_metadata_py a) 0%nat d0)
        as [[d1 t1] [n|e]]; cbn in *.
      * replace (Scan (cl_directory a) (cl_recursive a) :: List.map Yield files ++
                 t1 ++ [Print stdout (strip_heic_metadata.summary n)])%list
          with (((T0 ++ List.map Yield files) ++ t1) ++
                [Print stdout (strip_heic_metadata.summary n)])%list
          by (subst T0; simpl; by rewrite <- !app_assoc).
        by apply HP.
      * exact Hend.
  - assert (converts s = true) as Hc by (by destruct s).
    assert (∀ p acc d T, p ∈ entries → I d T → Path_is_file_error d p = None →
              accepts exts d p = true →
              I (loop_body s a p acc d).1.1
                (T ++ Yield p :: (loop_body s a p acc d).1.2)%list) as Hturn.
    { intros p acc d T Hp HI _ [Hfile Hk]%accepts_key.
      replace (T ++ Yield p :: (loop_body s a p acc d).1.2)%list
        with ((T ++ [Yield p]) ++ (loop_body s a p acc d).1.2)%list
        by (by rewrite <- app_assoc).
      apply HT; [|apply elem_of_app; right; by left|done].
      apply HY; eauto. }
    pose proof (for_discovered_invariant I exts (loop_body s a) entries Hturn
                  0%nat d0 T0 H1) as Hend.
    assert (∀ m : M unit,
              m = (total <- for_discovered exts entries (loop_body s a) 0%nat ;;
                   print stdout (summary s total)) →
              I (let '(d1, t1, r) := m d0 in
                 (d1, Scan (cl_directory a) (cl_recursive a) :: t1,
                  match r with Ok _ => Finished | Raise e => Uncaught e end)).1.1
                (let '(d1, t1, r) := m d0 in
                 (d1, Scan (cl_directory a) (cl_recursive a) :: t1,
                  match r with Ok _ => Finished | Raise e => Uncaught e end)).1.2)
      as Hall.
    { intros m ->. rewrite bind_run.
      destruct (for_discovered exts entries (loop_body s a) 0%nat d0)
        as [[d1 t1] [n|e]]; cbn in *; [|done].
      replace (Scan (cl_directory a) (cl_recursive a) :: t1 ++
               [Print stdout (summary s n)])%list
        with ((T0 ++ t1) ++ [Print stdout (summary s n)])%list by done.
      by apply HP. }
    destruct s; try done; by apply Hall.
Qed.

Lemma finish_scan_head (k : list path → M unit) (root : path) (recursive : bool)
    (d d' : gmap path (node content)) t o :
  finish (entries <- discover_iterator root recursive ;; k entries) d = (d', t, o) →
  ¬ rejected o ∧ head t = Some (Scan root recursive).
Proof.
  rewrite finish_scan.
  destruct (if recursive then Path_rglob d root else Path_iterdir d root)
    as [entries|e].
  - destruct (k entries d) as [[d1 t1] [[]|e]]; intros [= <- <- <-];
      (split; [exact (λ H, H)|done]).
  - intros [= <- <- <-]. split; [exact (λ H, H)|done].
Qed.

(** X6.  A run that is refused ([parser.error], [sys.exit]) has changed nothing
    and produced no event; every other run starts with the scan of the
    directory. *)
Theorem refused_run_has_no_effect s a d d' t o :
  run s a d = (d', t, o) →
  (rejected o → d' = d ∧ t = [])
  ∧ (¬ rejected o → head t = Some (Scan (cl_directory a) (cl_recursive a))).
Proof.
  intros Hrun.
  destruct (run_checked s a d) as [(o' & Hrej & Heq & _)|(_ & _ & _ & _ & Heq)];
    rewrite Heq in Hrun.
  - simplify_eq. split; [done|]. intros Hn. by destruct Hn.
  - apply finish_scan_head in Hrun as [Hn Hhead]. split; [|done].
    intros Hrej. by destruct Hn.
Qed.

Lemma run_events_allowed s a d :
  ∀ e, e ∈ (run s a d).1.2 → allowed s a e = true.
Proof.
  apply (run_invariant (λ _ T, ∀ e, e ∈ T → allowed s a e = true) s a d).
  - intros e He. by apply elem_of_nil in He.
  - intros e He. in_trace He. done.
  - intros d0 T p HI _ _ _ e [He|He]%elem_of_app; [auto|]. in_trace He. done.
  - intros d0 T p n HI _ _ e [He|He]%elem_of_app; [auto|].
    destruct (loop_body s a p n d0) as [[d1 t1] r] eqn:Hb.
    apply turn_frame in Hb as (_ & _ & Hev). by apply Hev.
  - intros d0 T l HI e [He|He]%elem_of_app; [auto|]. in_trace He. done.
Qed.

(** X7.  Whatever is on the disk and however the run ends, a script only does
    what it is made for: only the converting scripts open, encode or write
    files; only the two ExifTool scripts start a process, and the only
    command they start is [exiftool -overwrite_original -all= ...]; a file is
    unlinked only when deletion is on ([--delete] given, [--keep] not given),
    never by strip_heic_metadata.py. *)
Theorem scripts_do_only_what_they_are_for s a d d' t o :
  run s a d = (d', t, o) →
  ∀ e, e ∈ t → allowed s a e = true.
Proof. intros Hrun e He. apply (run_events_allowed s a d). by rewrite Hrun. Qed.

(** X8.  A run leaves every path alone that is neither a file [discover] yielded
    nor, in a converting script, the [.jpg] destination of such a file. *)
Theorem only_discovered_files_are_touched s a d d' t o :
  run s a d = (d', t, o) →
  ∀ x, (∀ p, Yield p ∈ t →
          x ≠ p ∧ (converts s = true → Path.with_suffix p ".jpg" ≠ Ok x)) →
       d' !! x = d !! x.
Proof.
  intros Hrun.
  pose proof (run_invariant
    (λ d0 T, ∀ x, (∀ p, Yield p ∈ T →
                     x ≠ p ∧ (converts s = true → Path.with_suffix p ".jpg" ≠ Ok x)) →
                  d0 !! x = d !! x) s a d) as Hinv.
  rewrite Hrun in Hinv. apply Hinv; clear Hinv Hrun.
  - done.
  - done.
  - intros d0 T p HI _ _ _ x Hx. apply HI. intros q Hq. apply Hx.
    apply elem_of_app. by left.
  - intros d0 T p n HI Hp _ x Hx.
    destruct (loop_body s a p n d0) as [[d1 t1] r] eqn:Hb. simpl in *.
    apply turn_frame in Hb as (Hfr & _ & _).
    destruct (Hx p) as [Hne Hws]; [apply elem_of_app; by left|].
    rewrite Hfr by done. apply HI. intros q Hq. apply Hx.
    apply elem_of_app. by left.
  - intros d0 T l HI x Hx. apply HI. intros q Hq. apply Hx.
    apply elem_of_app. by left.
Qed.

(** X9.  In every run of every script, a file handed to the loop is an entry of
    the directory listing made at the start, and its suffix, lower-cased and
    without its dot, is in the set parsed from [--ext]. *)
Theorem yielded_files_are_listed_and_match s a d d' t o :
  run s a d = (d', t, o) →
  ∀ p, Yield p ∈ t →
       (∃ entries, scanned a d = Ok entries ∧ p ∈ entries)
       ∧ Py.lstrip_dots (Py.lower (Path.suffix p)) ∈ parse_exts (cl_ext a).
Proof.
  intros Hrun.
  pose proof (run_invariant
    (λ _ T, ∀ p, Yield p ∈ T →
                 (∃ entries, scanned a d = Ok entries ∧ p ∈ entries)
                 ∧ Py.lstrip_dots (Py.lower (Path.suffix p)) ∈ parse_exts (cl_ext a))
    s a d) as Hinv.
  rewrite Hrun in Hinv. apply Hinv; clear Hinv Hrun.
  - intros p Hp. by apply elem_of_nil in Hp.
  - intros p Hp. in_trace Hp.
  - intros d0 T p HI Hent Hk _ q [Hq|Hq]%elem_of_app; [auto|].
    in_trace Hq. done.
  - intros d0 T p n HI _ _ q [Hq|Hq]%elem_of_app; [auto|].
    destruct (loop_body s a p n d0) as [[d1 t1] r] eqn:Hb. simpl in *.
    apply turn_frame in Hb as (_ & _ & Hev).
    by destruct (Hev _ Hq) as [_ ?].
  - intros d0 T l HI q [Hq|Hq]%elem_of_app; [auto|]. in_trace Hq.
Qed.

(** X10.  When deletion is off ([--delete] not given, [--keep] given, or
    strip_heic_metadata.py), no file is unlinked and every path of the disk
    is still there when the run ends, however it ends.  In heic_to_jpg.py and
    sanitize_heic_to_jpg.py every file moreover holds what it held: the run
    only adds files. *)
Theorem nothing_is_lost_without_deletion s a d d' t o :
  run s a d = (d', t, o) →
  deletes s a = false →
  (∀ p, Unlink p ∉ t)
  ∧ (∀ x, is_Some (d !! x) → is_Some (d' !! x))
  ∧ (uses_exiftool s = false → d ⊆ d').
Proof.
  intros Hrun Hdel. split_and!.
  - intros p Hp. pose proof (run_events_allowed s a d (Unlink p)) as Hal.
    rewrite Hrun in Hal. specialize (Hal Hp). simpl in Hal. congruence.
  - pose proof (run_invariant
      (λ d0 _, ∀ x, is_Some (d !! x) → is_Some (d0 !! x)) s a d) as Hinv.
    rewrite Hrun in Hinv. apply Hinv; clear Hinv Hrun; try done.
    intros d0 T p n HI _ _ x Hx.
    destruct (loop_body s a p n d0) as [[d1 t1] r] eqn:Hb. simpl.
    apply turn_frame in Hb as (_ & Hdom & _). apply Hdom; auto.
  - intros Hs.
    assert (s = heic_to_jpg_py ∨ s = sanitize_heic_to_jpg_py) as Hplain
      by (destruct s; try discriminate Hs; auto).
    assert (cl_delete a = false) as Hd by (by destruct Hplain; subst).
    pose proof (run_invariant (λ d0 _, d ⊆ d0) s a d) as Hinv.
    rewrite Hrun in Hinv. apply Hinv; clear Hinv Hrun; try done.
    intros d0 T p n HI _ _.
    destruct (loop_body s a p n d0) as [[d1 t1] r] eqn:Hb. simpl.
    apply (plain_turn_facts _ _ _ _ _ _ _ _ Hplain) in Hb as (_ & _ & _ & _ & Hsub).
    etrans; [exact HI|]. by apply Hsub.
Qed.

(** X11.  In heic_to_jpg.py and sanitize_heic_to_jpg.py, however the run ends:
    every file the run unlinked is gone, its [.jpg] destination is another
    path, was written by this run, and is on the disk when the run ends;
    nothing the run wrote was removed again. *)
Theorem deleted_originals_have_their_jpg s a d d' t o :
  s = heic_to_jpg_py ∨ s = sanitize_heic_to_jpg_py →
  run s a d = (d', t, o) →
  (∀ y, Write y ∈ t → is_Some (d' !! y))
  ∧ (∀ x, Unlink x ∈ t →
       d' !! x = None
       ∧ ∃ dst, Path.with_suffix x ".jpg" = Ok dst ∧ dst ≠ x
                ∧ Write dst ∈ t ∧ is_Some (d' !! dst)).
Proof.
  intros Hs Hrun.
  pose proof (run_invariant
    (λ d0 T,
       (∀ y, Write y ∈ T → is_Some (d0 !! y) ∧ Path.with_suffix y ".jpg" = Ok y)
       ∧ (∀ x, Unlink x ∈ T →
            d0 !! x = None
            ∧ ∃ dst, Path.with_suffix x ".jpg" = Ok dst ∧ Write dst ∈ T))
    s a d) as Hinv.
  rewrite Hrun in Hinv.
  assert (∀ (T : list event) (e x : event),
            x ∈ (T ++ [e])%list → x ≠ e → x ∈ T) as Hsnoc
    by (intros; by eapply in_snoc_event).
  destruct Hinv as [J U]; clear Hrun.
  - split; intros x Hx; by apply elem_of_nil in Hx.
  - split; intros x Hx; in_trace Hx.
  - intros d0 T p [J U] _ _ _. split.
    + intros y Hy%Hsnoc; [|done]. by apply J.
    + intros x Hx%Hsnoc; [|done]. destruct (U x Hx) as (? & dst & ? & ?).
      split; [done|]. exists dst. split; [done|]. apply elem_of_app. by left.
  - intros d0 T p n [J U] _ _.
    destruct (loop_body s a p n d0) as [[d1 t1] r] eqn:Hb. simpl.
    apply (plain_turn_facts _ _ _ _ _ _ _ _ Hs) in Hb as (F1 & F2 & F3 & F4 & _).
    split.
    + intros y [Hy|Hy]%elem_of_app.
      * destruct (J y Hy) as [Hsome Hself]. split; [|done].
        destruct (F3 y Hsome) as [?|[-> Hun]]; [done|].
        destruct (F2 p Hun) as (_ & _ & _ & dst & Hdst & Hw).
        destruct (F1 dst Hw) as (_ & Hnone & _).
        rewrite Hself in Hdst. injection Hdst as <-.
        destruct Hsome as [? ?]. congruence.
      * destruct (F1 y Hy) as (Hdst & _ & Hsome). split; [done|].
        by apply with_suffix_idemp in Hdst as [? _].
    + intros x [Hx|Hx]%elem_of_app.
      * destruct (U x Hx) as (Hnone & dst & Hdst & Hw). split.
        -- destruct (F4 x Hnone) as [?|Hwx]; [done|].
           destruct (F1 x Hwx) as (Hself%with_suffix_idemp & _ & _).
           destruct Hself as [Hself _]. rewrite Hself in Hdst. injection Hdst as <-.
           destruct (J x Hw) as [[? ?] _]. congruence.
        -- exists dst. split; [done|]. apply elem_of_app. by left.
      * destruct (F2 x Hx) as (-> & _ & Hgone & dst & Hdst & Hw).
        split; [done|]. exists dst. split; [done|]. apply elem_of_app. by right.
  - intros d0 T l [J U]. split.
    + intros y Hy%Hsnoc; [|done]. by apply J.
    + intros x Hx%Hsnoc; [|done]. destruct (U x Hx) as (? & dst & ? & ?).
      split; [done|]. exists dst. split; [done|]. apply elem_of_app. by left.
  - split.
    + intros y Hy. by apply J.
    + intros x Hx. destruct (U x Hx) as (Hnone & dst & Hdst & Hw).
      split; [done|]. exists dst. destruct (J dst Hw) as [Hsome _].
      split_and!; try done. intros ->. destruct Hsome as [? ?]. congruence.
Qed.

(** X12.  In heic_to_jpg.py and sanitize_heic_to_jpg.py, once the arguments are
    accepted, the directory could be listed and [is_file()] answers on its
    entries, [main] returns, with a summary as its last line, whatever
    happens to the files. *)
Theorem file_failures_do_not_fail_the_run s a d entries :
  s = heic_to_jpg_py ∨ s = sanitize_heic_to_jpg_py →
  path_exists d (cl_directory a) = true →
  1 ≤ cl_quality a ≤ 100 →
  parse_exts (cl_ext a) ≠ ∅ →
  scanned a d = Ok entries →
  (∀ d0 p, p ∈ entries → Path_is_file_error d0 p = None) →
  ∃ d' t n,
    run s a d =
      (d', (Scan (cl_directory a) (cl_recursive a) :: t ++
            [Print stdout (summary s n)])%list, Finished).
Proof.
  intros Hs Hdir Hq%quality_test Hext Hscan Hstat.
  assert (∃ d' t n, for_discovered (parse_exts (cl_ext a)) entries (loop_body s a)
                      0%nat d = (d', t, Ok n)) as (d' & t & n & Hloop).
  { destruct (for_discovered (parse_exts (cl_ext a)) entries (loop_body s a) 0%nat d)
      as [[d' t] [n|e]] eqn:Hloop; [eauto|].
    destruct (plain_loop_outcome s a _ entries Hs _ _ _ _ _ Hloop)
      as (p & dk & Hp & Hdk).
    rewrite (Hstat dk p Hp) in Hdk. discriminate Hdk. }
  exists d', t, n.
  assert ((size (parse_exts (cl_ext a)) =? 0)%nat = false) as Hsz.
  { apply Nat.eqb_neq. intros H0. apply Hext. by apply size_empty_iff, leibniz_equiv in H0. }
  unfold scanned in Hscan.
  destruct Hs as [-> | ->]; simpl in *;
    unfold heic_to_jpg.main, sanitize_heic_to_jpg.main; simpl;
    rewrite Hdir, Hq, Hsz; simpl;
    rewrite finish_scan, Hscan, bind_run, Hloop; done.
Qed.

End RunProperties.

(** ** One ExifTool process per file *)

Section ExifToolRuns.
Context `{E : Externals}.

(** One turn of the loop of an ExifTool script starts ExifTool once. *)
Lemma turn_runs s a p n d :
  uses_exiftool s = true →
  runs (loop_body s a p n d).1.2 = 1%nat ∧ yields (loop_body s a p n d).1.2 = 0%nat.
Proof.
  intros Hs.
  assert (runs (transform s a p d).1.2 = 1%nat
          ∧ yields (transform s a p d).1.2 = 0%nat) as [Hr Hy].
  { destruct s; try discriminate Hs; simpl.
    - rewrite bind_run.
      unfold heic_strip_and_convert_to_jpg.strip_all_metadata.
      match goal with
      | |- context [subprocess_run ?argv p d] =>
          destruct (subprocess_run_trace argv p d) as (d1 & r & ->)
      end.
      destruct r as [[]|e]; [|done].
      destruct (heic_strip_and_convert_to_jpg.convert_to_jpg p (cl_quality a)
                  (negb (cl_keep a)) d1) as [[d2 t2] r2] eqn:Hconv.
      destruct (convert_frame _ _ _ _ _ _ _ _ _ variant_strip_and_convert Hconv)
        as (_ & _ & Hev).
      simpl. unfold runs, yields. rewrite !count_cons. simpl.
      assert (count is_run t2 = 0%nat ∧ count is_yield t2 = 0%nat) as [-> ->]; [|done].
      clear Hconv. induction t2 as [|e t2 IH]; [done|].
      rewrite !count_cons.
      destruct IH as [-> ->]; [intros e' He'; apply Hev; by right|].
      specialize (Hev e (list_elem_of_here _ _)). by destruct e.
    - unfold strip_heic_metadata.strip_metadata.
      match goal with
      | |- context [subprocess_run ?argv p d] =>
          destruct (subprocess_run_trace argv p d) as (d1 & r & ->)
      end.
      done. }
  destruct (loop_body_transform s a p n d) as (r' & [->|(st & l & ->)]); simpl;
    [done|].
  unfold runs, yields in *. rewrite !count_app, Hr, Hy. done.
Qed.

Lemma for_each_runs s a (files : list path) :
  uses_exiftool s = true →
  ∀ n d d' t m,
    for_each files (loop_body s a) n d = (d', t, Ok m) →
    runs t = length files ∧ yields t = 0%nat.
Proof.
  intros Hs. induction files as [|p rest IH]; intros n d d' t m Hrun.
  - simpl in Hrun. unfold ret in Hrun. by simplify_eq.
  - simpl in Hrun. rewrite bind_run in Hrun.
    pose proof (turn_runs s a p n d Hs) as [Hr Hy].
    destruct (loop_body s a p n d) as [[d1 t1] [n1|e]]; [|done]. simpl in *.
    destruct (for_each rest (loop_body s a) n1 d1) as [[d2 t2] r] eqn:Hrest.
    simplify_eq. destruct (IH _ _ _ _ _ Hrest) as [Hr2 Hy2].
    unfold runs, yields in *. rewrite !count_app. lia.
Qed.

Lemma runs_yields (l : list path) : runs (List.map Yield l) = 0%nat.
Proof.
  induction l as [|p l IH]; [done|]. simpl. unfold runs in *.
  by rewrite count_cons, IH.
Qed.

(** X13.  In a run of heic_strip_and_convert_to_jpg.py or of
    strip_heic_metadata.py that reaches the end of [main], ExifTool was
    started exactly once for each file [discover] yielded, whether the file
    was then converted, skipped or reported as an error. *)
Theorem exiftool_runs_once_per_discovered_file s a d d' t :
  uses_exiftool s = true →
  run s a d = (d', t, Finished) →
  runs t = yields t.
Proof.
  intros Hs Hrun. destruct s; try discriminate Hs.
  - destruct (converting_run heic_strip_and_convert_to_jpg_py a d d' t eq_refl Hrun)
      as (entries & tl & n & _ & Hloop & ->).
    pose proof (for_discovered_invariant (λ _ T, runs T = yields T)
                  (parse_exts (cl_ext a))
                  (loop_body heic_strip_and_convert_to_jpg_py a) entries) as Hinv.
    assert (runs tl = yields tl) as Htl.
    { assert (runs [] = yields []) as H0 by done.
      apply Hinv with (acc := 0%nat) (d := d) in H0.
      - by rewrite Hloop in H0.
      - intros p acc d0 T _ HI _ _.
        destruct (turn_runs heic_strip_and_convert_to_jpg_py a p acc d0 eq_refl)
          as [Hr Hy].
        unfold runs, yields in *. rewrite !count_app, !count_cons, Hr, Hy. simpl. lia. }
    unfold runs, yields in *. rewrite !count_cons, !count_app, Htl.
    unfold count. simpl. lia.
  - destruct (stripping_run a d d' t Hrun) as (entries & _ & [[Hnil ->]|[Hne Hfiles]]).
    + done.
    + destruct Hfiles as (tl & n & Hloop & ->).
      destruct (for_each_runs strip_heic_metadata_py a _ eq_refl _ _ _ _ _ Hloop)
        as [Hr Hy].
      set (files := List.filter (accepts (parse_exts (cl_ext a)) d) entries) in *.
      pose proof (runs_yields files) as Hr0. pose proof (yields_fmap files) as Hy0.
      unfold runs, yields in *. rewrite !count_cons, !count_app, Hr, Hy, Hr0, Hy0.
      unfold count. simpl. lia.
Qed.

End ExifToolRuns.

(** ** The theorems at concrete inputs *)

Section Witnesses.
Import Demo.

Lemma C4_unlink_only_after_output_witness :
  let r := @heic_strip_and_convert_to_jpg.convert_to_jpg world a_heic 90 true scenario in
  @convert_variant world true heic_strip_and_convert_to_jpg.convert_to_jpg
  ∧ r = (r.1.1, r.1.2, r.2)
  ∧ r.1.2 = [Open a_heic; Save a_jpg; Write a_jpg; Print stdout "[OK] a.heic → a.jpg";
             Unlink a_heic; Print stdout "      Deleted original a.heic"]
  ∧ (∀ pre post, r.1.2 = (pre ++ Unlink a_heic :: post)%list →
       ∃ dst, Path.with_suffix a_heic ".jpg" = Ok dst
              ∧ dst ∈ disk_after pre (dom scenario)).
Proof.
  intros r.
  assert (@convert_variant world true heic_strip_and_convert_to_jpg.convert_to_jpg)
    as H1 by constructor.
  assert (r = (r.1.1, r.1.2, r.2)) as H2 by (by destruct r as [[? ?] ?]).
  split; [exact H1|]. split; [exact H2|]. split; [vm_compute; reflexivity|].
  exact (proj1 (@C4_unlink_only_after_output world _ _ _ _ _ _ _ _ H1 H2)).
Defined.

Lemma C6_existing_destination_is_skipped_witness :
  @convert_variant world false heic_to_jpg.convert
  ∧ Path.with_suffix b_heic ".jpg" = Ok b_jpg
  ∧ is_Some (scenario !! b_jpg)
  ∧ @heic_to_jpg.convert world b_heic 90 true scenario
    = (scenario, [Print stdout (skip_line b_jpg)], Ok tt).
Proof.
  assert (@convert_variant world false heic_to_jpg.convert) as H1 by constructor.
  assert (Path.with_suffix b_heic ".jpg" = Ok b_jpg) as H2 by reflexivity.
  assert (is_Some (scenario !! b_jpg)) as H3 by (vm_compute; eauto).
  split; [exact H1|]. split; [exact H2|]. split; [exact H3|].
  destruct (@C6_existing_destination_is_skipped world false _ b_heic b_jpg 90 true
              scenario H1 H2) as (_ & Hskip & _).
  destruct (Hskip H3) as (d' & t & r & Hrun & _ & _ & _ & _ & Hsame).
  destruct (Hsame eq_refl) as (-> & -> & ->). exact Hrun.
Defined.

(** C6 as stated fails for a source that is a JPEG already.  [b.jpg] is its
    own destination, so it exists: [convert_to_jpg] with deletion prints the
    [[SKIP]] line and unlinks it, and a second call does not print [[SKIP]],
    it tries to open the file and raises.  heic_strip_and_convert_to_jpg.py
    run with [--ext jpg] does so to every JPEG it discovers. *)
Lemma C6_jpg_source_is_unlinked_not_skipped :
  let r1 := @heic_strip_and_convert_to_jpg.convert_to_jpg world b_jpg 90 true scenario in
  let r2 := @heic_strip_and_convert_to_jpg.convert_to_jpg world b_jpg 90 true r1.1.1 in
  let r := @run world heic_strip_and_convert_to_jpg_py (command 90 "jpg" false)
             scenario in
  Path.with_suffix b_jpg ".jpg" = Ok b_jpg
  ∧ scenario !! b_jpg = Some (File (Jpeg "B" 90 None))
  ∧ r1.1.2 = [Print stdout "[SKIP] b.jpg already exists"; Unlink b_jpg]
  ∧ r1.2 = Ok tt
  ∧ r1.1.1 !! b_jpg = None
  ∧ r2.1.2 = [Open b_jpg]
  ∧ r2.2 = Raise (Exception "[Errno 2] No such file or directory: 'photos/b.jpg'")
  ∧ r.1.2 = [Scan photos false; Yield b_jpg;
             SubprocessRun ["exiftool"; "-overwrite_original"; "-all=";
                            "photos/b.jpg"];
             Print stdout "[SKIP] b.jpg already exists"; Unlink b_jpg;
             Print stdout "Done. Processed 1 file."]
  ∧ r.1.1 !! b_jpg = None.
Proof. intros r1 r2 r. split_and!; vm_compute; reflexivity. Qed.

(** C5 at an input: a picture that carries [DateTime] (tag 306), an
    orientation and a GPS position is written with no metadata block, so
    the capture date the claim says is kept is lost. *)
Example C5_datetime_is_dropped :
  let r := @heic_to_jpg.convert world a_heic 90 false scenario in
  scenario !! a_heic =
    Some (File (Heic "A" [(274, "6"); (306, "2025:05:25 10:00:00");
                          (34853, "48.85,2.35")]))
  ∧ r.2 = Ok tt
  ∧ r.1.1 !! a_jpg = Some (File (Jpeg "A" 90 None)).
Proof. intros r. split_and!; vm_compute; reflexivity. Qed.

Lemma C7_quality_is_validated_witness :
  converts heic_strip_and_convert_to_jpg_py = true
  ∧ ¬ (1 ≤ 101 ≤ 100)
  ∧ @run world heic_strip_and_convert_to_jpg_py (command 101 "heic,heif" true) scenario
    = (scenario, [], UsageError quality_error).
Proof.
  split; [reflexivity|]. split; [lia|].
  destruct (@C7_quality_is_validated world heic_strip_and_convert_to_jpg_py
              (command 101 "heic,heif" true) scenario eq_refl) as [Hout _].
  destruct Hout as (msg & Hrun & Hmsg); [simpl; lia|].
  rewrite Hrun. by rewrite Hmsg.
Defined.

Lemma C8_empty_extension_set_is_refused_witness :
  @parse_exts " , ,	" = ∅
  ∧ @run world strip_heic_metadata_py (command 90 " , ,	" false) scenario
    = (scenario, [], UsageError "--ext yielded no valid extensions – give at least one.").
Proof.
  assert (@parse_exts " , ,	" = ∅) as Hext by (vm_compute; reflexivity).
  split; [exact Hext|].
  destruct (proj1 (@C8_empty_extension_set_is_refused world strip_heic_metadata_py
                     (command 90 " , ,	" false) scenario) Hext)
    as (o & Hrun & _ & Ho).
  rewrite Hrun. rewrite Ho; [reflexivity|reflexivity|discriminate|reflexivity].
Defined.

(** C8 at an input: [--ext .] normalizes to no extension, and heic_to_jpg.py
    is not refused: it scans the directory, selects the file whose name has
    no suffix and converts it. *)
Example C8_dot_is_not_refused :
  let r := @run readme_world heic_to_jpg_py (command 90 "." false) with_readme in
  stated_exts "." = ∅
  ∧ parse_exts "." = {[EmptyString]}
  ∧ r.2 = Finished
  ∧ r.1.2 = [Scan photos false; Yield readme; Open readme; Save readme_jpg;
             Write readme_jpg; Print stdout "[OK] README → README.jpg";
             Print stdout "Done. Converted 1 file."].
Proof. intros r. split_and!; vm_compute; reflexivity. Qed.

(** A run read through its three components. *)
Lemma run_components {A B C} (r : A * B * C) (c : C) :
  r.2 = c → r = (r.1.1, r.1.2, c).
Proof. intros <-. by destruct r as [[? ?] ?]. Defined.

(** C1 as stated fails on the scenario of the specification (one valid
    HEIC, one already converted pair, one corrupt file): heic_to_jpg.py
    creates one file, prints one [[OK]] line, one [[SKIP]] line and one
    [[ERROR]] line, and reports two converted files. *)
Lemma C1_skipped_file_is_counted :
  let r := @run world heic_to_jpg_py (command 90 "heic,heif" false) scenario in
  r.2 = Finished
  ∧ last r.1.2 = Some (Print stdout "Done. Converted 2 files.")
  ∧ outputs r.1.2 = 1%nat ∧ oks r.1.2 = 1%nat
  ∧ skips r.1.2 = 1%nat ∧ errors r.1.2 = 1%nat.
Proof. intros r. split_and!; vm_compute; reflexivity. Qed.

Lemma C1_counter_counts_ok_and_skip_witness :
  let a := command 90 "heic,heif" false in
  let r := @run world heic_to_jpg_py a scenario in
  r = (r.1.1, r.1.2, Finished)
  ∧ ∃ n, last r.1.2 = Some (Print stdout (@summary heic_to_jpg_py n))
         ∧ (n + errors r.1.2 = yields r.1.2)%nat
         ∧ (n ≤ oks r.1.2 + skips r.1.2)%nat
         ∧ (@removals_granted world heic_to_jpg_py a → n = oks r.1.2 + skips r.1.2)%nat.
Proof.
  intros a r.
  assert (r = (r.1.1, r.1.2, Finished)) as Hrun
    by (apply run_components; vm_compute; reflexivity).
  split; [exact Hrun|].
  destruct (@C1_counter_counts_ok_and_skip world heic_to_jpg_py _ _ _ _ Hrun)
    as [(Hs & _)|Hn]; [discriminate Hs|exact Hn].
Defined.

(** A removal that the system refuses: heic_to_jpg.py with [--delete] on the
    scenario of the specification, in a directory where nothing can be
    removed.  [a.heic] is converted, its [[OK]] line is printed, the refusal
    is reported as an error and the file is not counted. *)
Example refused_removal_is_reported_and_not_counted :
  let r := @run locked_world heic_to_jpg_py (command_delete 90 "heic,heif") scenario in
  r.2 = Finished
  ∧ r.1.2 = [Scan photos false;
             Yield a_heic; Open a_heic; Save a_jpg; Write a_jpg;
             Print stdout "[OK] a.heic → a.jpg";
             Print stderr "[ERROR] a.heic: [Errno 13] Permission denied: 'photos/a.heic'";
             Yield b_heic; Print stdout "[SKIP] b.jpg already exists";
             Yield c_heic; Open c_heic;
             Print stderr "[ERROR] c.heic: cannot identify image file";
             Print stdout "Done. Converted 1 file."]
  ∧ oks r.1.2 = 1%nat ∧ skips r.1.2 = 1%nat
  ∧ errors r.1.2 = 2%nat ∧ yields r.1.2 = 3%nat.
Proof. intros r. split_and!; vm_compute; reflexivity. Qed.

(** C2 as stated fails: heic_to_jpg.py closes a run that discovered no file
    and a run that discovered one file and converted none with the same
    line, and strip_heic_metadata.py closes a run in which its one file
    failed with "Done. Processed 0 files.". *)
Lemma C2_no_three_shapes :
  let r0 := @run world heic_to_jpg_py (command 90 "heic,heif" false) empty_directory in
  let r1 := @run world heic_to_jpg_py (command 90 "heic,heif" false) one_corrupt_file in
  let r2 := @run world strip_heic_metadata_py (command 90 "heic,heif" false)
              one_corrupt_file in
  (r0.2 = Finished ∧ r1.2 = Finished
   ∧ yields r0.1.2 = 0%nat ∧ yields r1.1.2 = 1%nat ∧ errors r1.1.2 = 1%nat
   ∧ last r0.1.2
     = Some (Print stdout "No matching files converted (review [ERROR] lines).")
   ∧ last r1.1.2 = last r0.1.2)
  ∧ (r2.2 = Finished
     ∧ yields r2.1.2 = 1%nat ∧ oks r2.1.2 = 0%nat ∧ errors r2.1.2 = 1%nat
     ∧ last r2.1.2 = Some (Print stdout "Done. Processed 0 files.")).
Proof. intros r0 r1 r2. split_and!; vm_compute; reflexivity. Qed.

Lemma C2_summary_has_two_shapes_witness :
  let r := @run world strip_heic_metadata_py (command 90 "heic,heif" false)
             one_corrupt_file in
  r = (r.1.1, r.1.2, Finished)
  ∧ ∃ pre line n, r.1.2 = (pre ++ [Print stdout line])%list
                  ∧ summaries pre = 0%nat ∧ summaries r.1.2 = 1%nat
                  ∧ (n + errors pre = yields pre)%nat.
Proof.
  intros r.
  assert (r = (r.1.1, r.1.2, Finished)) as Hrun
    by (apply run_components; vm_compute; reflexivity).
  split; [exact Hrun|].
  destruct (@C2_summary_has_two_shapes world strip_heic_metadata_py _ _ _ _ Hrun)
    as (pre & line & n & Ht & Hsm & Hone & Hn & _).
  exists pre, line, n. split; [exact Ht|]. split; [exact Hsm|].
  split; [exact Hone|exact Hn].
Defined.



(** An exception of [p.is_file()]: on a system that refuses to examine
    [b.heic], heic_to_jpg.py converts [a.heic] and ends with the exception;
    [c.heic] is not processed and no closing line is printed. *)
Example is_file_error_ends_the_run :
  let r := @run hidden_world heic_to_jpg_py (command 90 "heic,heif" false) scenario in
  r.2 = Uncaught (Exception "[Errno 13] Permission denied: 'photos/b.heic'")
  ∧ r.1.2 = [Scan photos false; Yield a_heic; Open a_heic; Save a_jpg; Write a_jpg;
             Print stdout "[OK] a.heic → a.jpg"].
Proof. intros r. split; vm_compute; reflexivity. Qed.

(** C9 as stated fails when ExifTool fails on the file: for the corrupt
    source of an existing [.jpg], the script prints an [[ERROR]] line and no
    [[SKIP]] line, and the source stays on disk though [--keep] was not
    given. *)
Lemma C9_failed_strip_is_not_skipped :
  let r := @run world heic_strip_and_convert_to_jpg_py (command 90 "heic,heif" false)
             (<[a_heic := File Corrupt]> (<[a_jpg := File (Jpeg "A" 90 None)]>
                                          empty_directory)) in
  r.2 = Finished
  ∧ r.1.2 = [Scan photos false; Yield a_heic;
             SubprocessRun ["exiftool"; "-overwrite_original"; "-all=";
                            "photos/a.heic"];
             Print stderr "[ERROR] a.heic: ExifTool → Error: File format error";
             Print stdout "No matching files processed — check [ERROR] messages above."]
  ∧ skips r.1.2 = 0%nat
  ∧ r.1.1 !! a_heic = Some (File Corrupt).
Proof. intros r. split_and!; vm_compute; reflexivity. Qed.

Lemma C9_strip_runs_before_the_skip_check_witness :
  let argv := ["exiftool"; "-overwrite_original"; "-all="; "photos/b.heic"] in
  scenario !! b_heic = Some (picture "B")
  ∧ @loop_body world heic_strip_and_convert_to_jpg_py (command 90 "heic,heif" false)
      b_heic 1 scenario
    = (delete b_heic scenario,
       [SubprocessRun argv; Print stdout (skip_line b_jpg); Unlink b_heic],
       Ok 2%nat).
Proof.
  intros argv.
  assert (scenario !! b_heic = Some (picture "B")) as Hb by reflexivity.
  split; [exact Hb|].
  exact (proj2 (@C9_strip_runs_before_the_skip_check world
                  (command 90 "heic,heif" false) b_heic _ scenario Hb)
           1%nat b_jpg eq_refl (ex_intro _ _ eq_refl)).
Defined.




(** An error message that is not UTF-8: heic_strip_and_convert_to_jpg.py
    with an ExifTool that reports in Latin-1.  The handler of the first file
    raises while it decodes the message: no line is printed for the file,
    the two other files are not processed and no closing line is printed. *)
Example undecodable_stderr_ends_the_run :
  let a := command 90 "heic,heif" false in
  let r := @run latin1_world heic_strip_and_convert_to_jpg_py a scenario in
  Py.decode latin1_message = None
  ∧ r.2 = Uncaught heic_strip_and_convert_to_jpg.UnicodeDecodeError
  ∧ r.1.2 = [Scan photos false; Yield a_heic;
             SubprocessRun ["exiftool"; "-overwrite_original"; "-all=";
                            "photos/a.heic"]].
Proof. intros a r. split_and!; vm_compute; reflexivity. Qed.

Lemma parse_exts_normal_form_witness :
  "heic" ∈ parse_exts " .HEIC ,heif"
  ∧ Py.lower "heic" = "heic" ∧ Py.lstrip_dots "heic" = "heic"
  ∧ Py.lstrip_dots (Py.lower ".heic") = "heic".
Proof.
  assert ("heic" ∈ parse_exts " .HEIC ,heif") as Hin.
  { apply elem_of_parse_exts. exists " .HEIC ".
    split; [apply list_elem_of_In; vm_compute; auto|].
    split; [vm_compute; discriminate|reflexivity]. }
  split; [exact Hin|]. exact (parse_exts_normal_form _ _ Hin).
Defined.

Lemma discover_yields_the_matching_files_witness :
  (∀ p, p ∈ scenario_order → @Path_is_file_error world scenario p = None)
  ∧ ∃ files,
      @for_discovered world (list path) {["heic"]} scenario_order
        (λ p acc, ret (acc ++ [p])%list) [] scenario
      = (scenario, List.map Yield files, Ok files)
      ∧ files `sublist_of` scenario_order
      ∧ ∀ p, p ∈ files ↔
             p ∈ scenario_order ∧ (∃ c, scenario !! p = Some (File c))
             ∧ Py.lstrip_dots (Py.lower (Path.suffix p)) ∈ ({["heic"]} : gset string).
Proof.
  assert (∀ p, p ∈ scenario_order → @Path_is_file_error world scenario p = None)
    as Hstat by (intros p _; reflexivity).
  split; [exact Hstat|].
  exact (@discover_yields_the_matching_files world {["heic"]} scenario_order scenario
           Hstat).
Defined.

Lemma extension_with_a_dot_selects_nothing_witness :
  has_dot "tar.gz" = true
  ∧ ∀ p, @accepts world {["tar.gz"]} scenario p = false.
Proof.
  split; [reflexivity|]. intros p.
  exact (proj2 (@extension_with_a_dot_selects_nothing world ∅ scenario p "tar.gz"
                  eq_refl)).
Defined.

Lemma refused_run_has_no_effect_witness :
  let r := @run world heic_strip_and_convert_to_jpg_py (command 0 "heic" false)
             scenario in
  r = (r.1.1, r.1.2, UsageError quality_error)
  ∧ r.1.1 = scenario ∧ r.1.2 = [].
Proof.
  intros r.
  assert (r = (r.1.1, r.1.2, UsageError quality_error)) as Hr
    by (apply run_components; vm_compute; reflexivity).
  split; [exact Hr|].
  exact (proj1 (@refused_run_has_no_effect world _ _ _ _ _ _ Hr) I).
Defined.

Lemma scripts_do_only_what_they_are_for_witness :
  let a := command 90 "heic,heif" false in
  let r := @run world strip_heic_metadata_py a scenario in
  r = (r.1.1, r.1.2, r.2)
  ∧ (∀ e, e ∈ r.1.2 → allowed strip_heic_metadata_py a e = true).
Proof.
  intros a r.
  pose proof (run_components r r.2 eq_refl) as Hr.
  split; [exact Hr|].
  exact (@scripts_do_only_what_they_are_for world _ _ _ _ _ _ Hr).
Defined.

(** The run of heic_to_jpg.py on the scenario of the specification. *)
Lemma scenario_trace :
  (@run world heic_to_jpg_py (command 90 "heic,heif" false) scenario).1.2
  = [Scan photos false;
     Yield a_heic; Open a_heic; Save a_jpg; Write a_jpg;
     Print stdout "[OK] a.heic → a.jpg";
     Yield b_heic; Print stdout "[SKIP] b.jpg already exists";
     Yield c_heic; Open c_heic;
     Print stderr "[ERROR] c.heic: cannot identify image file";
     Print stdout "Done. Converted 2 files."].
Proof. vm_compute. reflexivity. Defined.

Lemma scenario_yields (p : path) :
  Yield p ∈ (@run world heic_to_jpg_py (command 90 "heic,heif" false) scenario).1.2 →
  p = a_heic ∨ p = b_heic ∨ p = c_heic.
Proof.
  rewrite scenario_trace. intros Hp.
  repeat (apply elem_of_cons in Hp as [Hp|Hp];
          [first [discriminate Hp | injection Hp as ->; tauto]|]).
  apply elem_of_nil in Hp. destruct Hp.
Defined.

Lemma only_discovered_files_are_touched_witness :
  let r := @run world heic_to_jpg_py (command 90 "heic,heif" false) scenario in
  r = (r.1.1, r.1.2, r.2)
  ∧ (∀ p, Yield p ∈ r.1.2 →
          photos ≠ p ∧ (converts heic_to_jpg_py = true →
                        Path.with_suffix p ".jpg" ≠ Ok photos))
  ∧ r.1.1 !! photos = scenario !! photos.
Proof.
  intros r.
  assert (∀ p, Yield p ∈ r.1.2 →
               photos ≠ p ∧ (converts heic_to_jpg_py = true →
                             Path.with_suffix p ".jpg" ≠ Ok photos)) as Hy.
  { intros p Hp. apply scenario_yields in Hp as [-> | [-> | ->]];
      (split; [intros Heq; discriminate Heq
              |intros _ Heq; vm_compute in Heq; discriminate Heq]). }
  pose proof (run_components r r.2 eq_refl) as Hr.
  split; [exact Hr|]. split; [exact Hy|].
  exact (@only_discovered_files_are_touched world _ _ _ _ _ _ Hr photos Hy).
Defined.

Lemma yielded_files_are_listed_and_match_witness :
  let a := command 90 "heic,heif" false in
  let r := @run world heic_to_jpg_py a scenario in
  r = (r.1.1, r.1.2, r.2)
  ∧ Yield b_heic ∈ r.1.2
  ∧ (∃ entries, @scanned world a scenario = Ok entries ∧ b_heic ∈ entries)
  ∧ "heic" ∈ parse_exts "heic,heif".
Proof.
  intros a r.
  assert (Yield b_heic ∈ r.1.2) as Hy.
  { unfold r, a. rewrite scenario_trace. apply list_elem_of_In. simpl. tauto. }
  pose proof (run_components r r.2 eq_refl) as Hr.
  split; [exact Hr|]. split; [exact Hy|].
  exact (@yielded_files_are_listed_and_match world _ _ _ _ _ _ Hr b_heic Hy).
Defined.

Lemma nothing_is_lost_without_deletion_witness :
  let a := command 90 "heic,heif" false in
  let r := @run world heic_to_jpg_py a scenario in
  r = (r.1.1, r.1.2, r.2)
  ∧ deletes heic_to_jpg_py a = false
  ∧ (∀ p, Unlink p ∉ r.1.2)
  ∧ scenario ⊆ r.1.1.
Proof.
  intros a r.
  pose proof (run_components r r.2 eq_refl) as Hr.
  split; [exact Hr|]. split; [reflexivity|].
  destruct (@nothing_is_lost_without_deletion world _ _ _ _ _ _ Hr eq_refl)
    as (Hun & _ & Hsub).
  split; [exact Hun|]. exact (Hsub eq_refl).
Defined.

Lemma deleted_originals_have_their_jpg_witness :
  let r := @run world heic_to_jpg_py (command_delete 90 "heic,heif") scenario in
  r = (r.1.1, r.1.2, r.2)
  ∧ Unlink a_heic ∈ r.1.2
  ∧ r.1.1 !! a_heic = None
  ∧ ∃ dst, Path.with_suffix a_heic ".jpg" = Ok dst ∧ dst ≠ a_heic
           ∧ Write dst ∈ r.1.2 ∧ is_Some (r.1.1 !! dst).
Proof.
  intros r.
  assert (r.1.2 = [Scan photos false;
                   Yield a_heic; Open a_heic; Save a_jpg; Write a_jpg;
                   Print stdout "[OK] a.heic → a.jpg"; Unlink a_heic;
                   Print stdout "      Deleted original a.heic";
                   Yield b_heic; Print stdout "[SKIP] b.jpg already exists";
                   Yield c_heic; Open c_heic;
                   Print stderr "[ERROR] c.heic: cannot identify image file";
                   Print stdout "Done. Converted 2 files."]) as Ht
    by (vm_compute; reflexivity).
  assert (Unlink a_heic ∈ r.1.2) as Hun.
  { rewrite Ht. apply list_elem_of_In. simpl. tauto. }
  pose proof (run_components r r.2 eq_refl) as Hr.
  split; [exact Hr|]. split; [exact Hun|].
  exact (proj2 (@deleted_originals_have_their_jpg world heic_to_jpg_py _ _ _ _ _
                  (or_introl eq_refl) Hr) a_heic Hun).
Defined.

Lemma file_failures_do_not_fail_the_run_witness :
  let a := command 90 "heic,heif" false in
  @path_exists world one_corrupt_file photos = true
  ∧ 1 ≤ 90 ≤ 100
  ∧ parse_exts "heic,heif" ≠ ∅
  ∧ @scanned world a one_corrupt_file = Ok [c_heic]
  ∧ (∀ d0 p, p ∈ [c_heic] → @Path_is_file_error world d0 p = None)
  ∧ ∃ d' t n,
      @run world heic_to_jpg_py a one_corrupt_file
      = (d', (Scan photos false :: t ++
              [Print stdout (@summary heic_to_jpg_py n)])%list, Finished).
Proof.
  intros a.
  assert (@path_exists world one_corrupt_file photos = true) as H1
    by (vm_compute; reflexivity).
  assert (1 ≤ 90 ≤ 100) as H2 by lia.
  assert (parse_exts "heic,heif" ≠ ∅) as H3.
  { intros H. apply (f_equal size) in H. vm_compute in H. discriminate H. }
  assert (@scanned world a one_corrupt_file = Ok [c_heic]) as H4
    by (vm_compute; reflexivity).
  assert (∀ d0 p, p ∈ [c_heic] → @Path_is_file_error world d0 p = None) as H5
    by (intros d0 p _; reflexivity).
  split; [exact H1|]. split; [exact H2|]. split; [exact H3|]. split; [exact H4|].
  split; [exact H5|].
  exact (@file_failures_do_not_fail_the_run world heic_to_jpg_py a one_corrupt_file
           [c_heic] (or_introl eq_refl) H1 H2 H3 H4 H5).
Defined.

Lemma exiftool_runs_once_per_discovered_file_witness :
  let r := @run world heic_strip_and_convert_to_jpg_py (command 90 "heic,heif" false)
             scenario in
  uses_exiftool heic_strip_and_convert_to_jpg_py = true
  ∧ r = (r.1.1, r.1.2, Finished)
  ∧ runs r.1.2 = yields r.1.2
  ∧ yields r.1.2 = 3%nat.
Proof.
  intros r.
  assert (r = (r.1.1, r.1.2, Finished)) as Hr
    by (apply run_components; vm_compute; reflexivity).
  split; [reflexivity|]. split; [exact Hr|]. split; [|vm_compute; reflexivity].
  exact (@exiftool_runs_once_per_discovered_file world
           heic_strip_and_convert_to_jpg_py _ _ _ _ eq_refl Hr).
Defined.

End Witnesses.
